(** * genshin-teammate-bot: the profile store, the form dialog and the
      browsing cursor

    A shallow embedding of [src/db.py] and of the dialog and browsing
    handlers of [src/bot.py], followed by the properties of the
    specification that concern them.

    Conventions of the embedding.
    - A Python [str] is a [string]; one [ascii] stands for one character.
      The built-ins the handlers call ([strip], [upper], [int], [str],
      [split], [join], [sorted]) are embedded on the ASCII alphabet;
      characters above 127 are carried along unchanged and are neither
      white space, letters nor digits. The literals of the source that
      are not ASCII (captions, notices) are kept as their bytes: they
      are compared, never measured.
    - A Python [int] is a [Z].
    - A [dict] with string keys is a [gmap string value]; a [set] of
      strings is a [gset string].
    - An [async def] runs from its first line to its [return] without
      another handler running in between: a handler is a function on the
      state of the process ([world]) that may raise. *)

From Stdlib Require Import ZArith String Ascii List Lia DecimalString.
From stdpp Require Import gmap strings list fin_maps sorting.

Local Open Scope string_scope.
Local Open Scope Z_scope.

(** ** Python values and built-ins *)

Module Py.

(** The values that reach the dictionaries of the bot. *)
Inductive value : Type :=
| VNone
| VBool (b : bool)
| VInt (z : Z)
| VStr (s : string).

#[global] Instance value_eq_dec : EqDecision value.
Proof. solve_decision. Defined.

(** Truth value of an object, as [if v:] tests it. *)
Definition truthy (v : value) : bool :=
  match v with
  | VNone => false
  | VBool b => b
  | VInt z => negb (z =? 0)
  | VStr s => negb (String.eqb s "")
  end.

(** [d.get(key, default)]. *)
Definition get (d : gmap string value) (key : string) (default : value) : value :=
  match d !! key with
  | Some v => v
  | None => default
  end.

(** [a or b]. *)
Definition or_ (a b : value) : value := if truthy a then a else b.

(** [(v or "")] where a [str] is needed next: [None] stands for the
    [AttributeError] that a true value of another type meets. *)
Definition text_or_empty (v : value) : option string :=
  match or_ v (VStr "") with
  | VStr s => Some s
  | _ => None
  end.

(** The exceptions that the embedded code can meet. *)
Inductive exn : Type :=
| ValueError
| AttributeError
| IndexError
| IntegrityError
| TelegramAPIError.

#[global] Instance exn_eq_dec : EqDecision exn.
Proof. solve_decision. Defined.

(** *** Characters *)

(** [str.isspace] on one ASCII character: TAB, LF, VT, FF, CR, the four
    separators FS, GS, RS, US and the space. *)
Definition isspace (c : ascii) : bool :=
  let n := N_of_ascii c in
  (((9 <=? n) && (n <=? 13)) || ((28 <=? n) && (n <=? 32)))%N.

(** White space as C's [isspace] sees it, which is what [int] skips
    around an ASCII literal: the separators FS..US are not in it. *)
Definition isspace_c (c : ascii) : bool :=
  let n := N_of_ascii c in
  (((9 <=? n) && (n <=? 13)) || (n =? 32))%N.

Definition isdigit (c : ascii) : bool :=
  let n := N_of_ascii c in ((48 <=? n) && (n <=? 57))%N.

Definition digit_value (c : ascii) : Z := Z.of_N (N_of_ascii c) - 48.

Definition upper_char (c : ascii) : ascii :=
  let n := N_of_ascii c in
  if ((97 <=? n) && (n <=? 122))%N then ascii_of_N (n - 32) else c.

(** *** Strings *)

Fixpoint lstrip_with (sp : ascii -> bool) (s : string) : string :=
  match s with
  | EmptyString => EmptyString
  | String c r => if sp c then lstrip_with sp r else s
  end.

Fixpoint rstrip_with (sp : ascii -> bool) (s : string) : string :=
  match s with
  | EmptyString => EmptyString
  | String c r =>
      match rstrip_with sp r with
      | EmptyString => if sp c then EmptyString else String c EmptyString
      | r' => String c r'
      end
  end.

(** [s.strip()]. *)
Definition strip (s : string) : string := rstrip_with isspace (lstrip_with isspace s).

(** [s.upper()]. *)
Fixpoint upper (s : string) : string :=
  match s with
  | EmptyString => EmptyString
  | String c r => String (upper_char c) (upper r)
  end.

(** [s.replace(c, "")] for a one-character [c]. *)
Fixpoint remove_char (c : ascii) (s : string) : string :=
  match s with
  | EmptyString => EmptyString
  | String d r => if Ascii.eqb d c then remove_char c r else String d (remove_char c r)
  end.

(** [s.startswith(p)]. *)
Definition startswith (s p : string) : bool := String.prefix p s.

(** [s[n:]] and [s[:n]] for [n >= 0]. *)
Fixpoint slice_from (n : nat) (s : string) : string :=
  match n, s with
  | O, _ => s
  | S n', EmptyString => EmptyString
  | S n', String _ r => slice_from n' r
  end.

Fixpoint slice_to (n : nat) (s : string) : string :=
  match n, s with
  | O, _ => EmptyString
  | S n', EmptyString => EmptyString
  | S n', String c r => String c (slice_to n' r)
  end.

(** [len(s)]. *)
Definition len (s : string) : Z := Z.of_nat (String.length s).

(** [s.split(c)] for a one-character separator: never empty, one more
    piece than there are separators. *)
Fixpoint split (c : ascii) (s : string) : list string :=
  match s with
  | EmptyString => [EmptyString]
  | String d r =>
      if Ascii.eqb d c then EmptyString :: split c r
      else match split c r with
           | p :: ps => String d p :: ps
           | [] => [String d EmptyString]
           end
  end.

(** [sep.join(l)]. *)
Definition join (sep : string) (l : list string) : string := String.concat sep l.

(** [sorted(s)] for a set of strings: the order of [str], code point by
    code point. *)
Definition sorted (s : gset string) : list string :=
  merge_sort (fun a b => Is_true (String.leb a b)) (elements s).

(** [s.split(c, 1)[1]]: what follows the first [c]; [None] stands for
    [IndexError]. *)
Fixpoint after_first (c : ascii) (s : string) : option string :=
  match s with
  | EmptyString => None
  | String d r => if Ascii.eqb d c then Some r else after_first c r
  end.

(** [s.split()]: the words between runs of white space. *)
Fixpoint words (s : string) : list string :=
  match s with
  | EmptyString => [EmptyString]
  | String d r =>
      if isspace d then EmptyString :: words r
      else match words r with
           | p :: ps => String d p :: ps
           | [] => [String d EmptyString]
           end
  end.

Definition split_ws (s : string) : list string :=
  List.filter (fun p => negb (String.eqb p "")) (words s).

(** *** Integers *)

(** The digits of a decimal literal, where a single underscore may
    stand between two digits. [seen] tells that the previous character
    was a digit. *)
Fixpoint digits (s : string) (acc : Z) (seen : bool) : option Z :=
  match s with
  | EmptyString => if seen then Some acc else None
  | String c r =>
      if isdigit c then digits r (10 * acc + digit_value c) true
      else if Ascii.eqb c "_" then (if seen then digits r acc false else None)
      else None
  end.

(** [int(s)]: [None] stands for [ValueError]. *)
Definition int (s : string) : option Z :=
  match rstrip_with isspace_c (lstrip_with isspace_c s) with
  | String "+" r => digits r 0 false
  | String "-" r => Z.opp <$> digits r 0 false
  | t => digits t 0 false
  end.

(** [int(v)] on a value; [None] stands for the exception. *)
Definition int_of_value (v : value) : option Z :=
  match v with
  | VNone => None
  | VBool b => Some (if b then 1 else 0)
  | VInt z => Some z
  | VStr s => int s
  end.

(** [str(z)]. *)
Definition str (z : Z) : string := NilZero.string_of_int (Z.to_int z).

End Py.

(** ** Code that changes a state and may raise *)

Module Eff.

Inductive outcome (A : Type) : Type :=
| Return (a : A)
| Raise (e : Py.exn).
Arguments Return {A} a.
Arguments Raise {A} e.

(** A computation on a state [S]: what was written before a [raise]
    stays written. *)
Definition M (S A : Type) : Type := S -> outcome A * S.

#[global] Instance M_ret {S} : MRet (M S) := fun A a s => (Return a, s).

#[global] Instance M_bind {S} : MBind (M S) := fun A B f m s =>
  match m s with
  | (Return a, s') => f a s'
  | (Raise e, s') => (Raise e, s')
  end.

Definition raise {S A} (e : Py.exn) : M S A := fun s => (Raise e, s).

Definition gets {S A} (f : S -> A) : M S A := fun s => (Return (f s), s).

Definition modify {S} (f : S -> S) : M S unit := fun s => (Return tt, f s).

(** [try: body / except Exception: handler]. *)
Definition try_except {S A} (body : M S A) (handler : Py.exn -> M S A) : M S A :=
  fun s =>
    match body s with
    | (Return a, s') => (Return a, s')
    | (Raise e, s') => handler e s'
    end.

(** The state a computation ends in, returned or raised. *)
Definition exec {S A} (m : M S A) (s : S) : S := snd (m s).

(** [Q] holds of the outcome and the final state of [m] run from [s]. *)
Definition wp {S A} (m : M S A) (Q : outcome A -> S -> Prop) (s : S) : Prop :=
  Q (fst (m s)) (snd (m s)).

(** Every run of [m] takes a state to one that [R] relates to it. *)
Definition preserves {S A} (R : S -> S -> Prop) (m : M S A) : Prop :=
  forall s, wp m (fun _ s' => R s s') s.

(** Run a computation on one component of a larger state. *)
Definition zoom {S T A} (proj : T -> S) (inj : S -> T -> T) (m : M S A) : M T A :=
  fun t => let '(r, s') := m (proj t) in (r, inj s' t).

End Eff.

(** ** The store: [src/db.py] over an SQLite file *)

Module Db.

(** A row of [profiles] ([CREATE_TABLE_SQL]). A TEXT column holds NULL
    ([None]) or a text. *)
Record profile_row : Type := ProfileRow {
  id : Z;
  tg_id : Z;
  server : option string;
  nickname : option string;
  uid : option string;
  adventure_rank : option string;
  playstyle : option string;
  languages : option string;
  platforms : option string;
  playtime : option string;
  bio : option string;
  created_at : string
}.

(** A row of [likes] ([CREATE_LIKES_SQL]). *)
Record like_row : Type := LikeRow {
  owner_id : Z;
  viewer_id : Z;
  like_created_at : string
}.

(** The file [profiles.db]: both tables in rowid order, and the counter
    that AUTOINCREMENT keeps for [profiles.id]. *)
Record database : Type := Database {
  profiles : list profile_row;
  likes : list like_row;
  sequence : Z
}.

(** The file after [init_db] on a fresh disk. *)
Definition empty : database := Database [] [] 0.

(** *** The engine *)

(** What a connection carries besides the file. SQLite enforces a
    FOREIGN KEY clause, its ON DELETE action included, only on a
    connection where [PRAGMA foreign_keys = ON] was run. *)
Record connection : Type := Connection {
  foreign_keys : bool
}.

(** [aiosqlite.connect(DB_PATH)]: a fresh connection, with the pragma at
    its default. Nothing in [db.py] runs the pragma. *)
Definition connect : connection := Connection false.

(** A Python value bound to a TEXT column: numbers are stored as their
    text. *)
Definition bind_text (v : Py.value) : option string :=
  match v with
  | Py.VNone => None
  | Py.VBool b => Some (if b then "1" else "0")
  | Py.VInt z => Some (Py.str z)
  | Py.VStr s => Some s
  end.

(** A TEXT column read back. *)
Definition text_value (c : option string) : Py.value :=
  match c with
  | None => Py.VNone
  | Some s => Py.VStr s
  end.

Definition has_tg (tg : Z) (r : profile_row) : bool := tg_id r =? tg.

Definition on_server (srv : string) (r : profile_row) : bool :=
  match server r with
  | Some s => String.eqb s srv
  | None => false
  end.

Definition is_edge (owner viewer : Z) (l : like_row) : bool :=
  (owner_id l =? owner) && (viewer_id l =? viewer).

Definition to_owner (owner : Z) (l : like_row) : bool := owner_id l =? owner.

(** [UPDATE profiles SET server=?, nickname=?, uid=?, adventure_rank=?,
    languages=?, playtime=?, bio=?, platforms=?, playstyle=?] on one row. *)
Definition set_fields (data : gmap string Py.value) (r : profile_row) : profile_row :=
  let col k := bind_text (Py.get data k (Py.VStr "")) in
  {| id := id r;
     tg_id := tg_id r;
     server := col "server";
     nickname := col "nickname";
     uid := col "uid";
     adventure_rank := col "adventure_rank";
     playstyle := col "playstyle";
     languages := col "languages";
     platforms := col "platforms";
     playtime := col "playtime";
     bio := col "bio";
     created_at := created_at r |}.

(** [UPDATE profiles SET ... WHERE tg_id=?]. *)
Definition sql_update_profile (tg : Z) (data : gmap string Py.value) : Eff.M database unit :=
  Eff.modify (fun db =>
    {| profiles := map (fun r => if has_tg tg r then set_fields data r else r) (profiles db);
       likes := likes db;
       sequence := sequence db |}).

(** [INSERT INTO profiles (tg_id, ..., created_at) VALUES (...)]: the new
    row takes the next [id] and goes last; [tg_id] is UNIQUE. *)
Definition sql_insert_profile (tg : Z) (data : gmap string Py.value) (now : string)
  : Eff.M database unit :=
  fun db =>
    if existsb (has_tg tg) (profiles db) then (Eff.Raise Py.IntegrityError, db)
    else
      let rowid := Z.max (sequence db) (foldr Z.max 0 (map id (profiles db))) + 1 in
      let r := set_fields data (ProfileRow rowid tg None None None None None None None None None now) in
      (Eff.Return tt, {| profiles := profiles db ++ [r]; likes := likes db; sequence := rowid |}).

(** [DELETE FROM profiles WHERE tg_id = ?]: with the pragma on, the rows
    of [likes] that reference a deleted profile go with it (ON DELETE
    CASCADE). *)
Definition sql_delete_profile (conn : connection) (tg : Z) : Eff.M database unit :=
  Eff.modify (fun db =>
    {| profiles := List.filter (fun r => negb (has_tg tg r)) (profiles db);
       likes := if foreign_keys conn && existsb (has_tg tg) (profiles db)
                then List.filter (fun l => negb (to_owner tg l)) (likes db)
                else likes db;
       sequence := sequence db |}).

(** [INSERT INTO likes (owner_id, viewer_id, created_at) VALUES (?, ?, ?)]:
    (owner_id, viewer_id) is the primary key; with the pragma on, the
    owner must have a profile. *)
Definition sql_insert_like (conn : connection) (owner viewer : Z) (created : string)
  : Eff.M database unit :=
  fun db =>
    if existsb (is_edge owner viewer) (likes db) then (Eff.Raise Py.IntegrityError, db)
    else if foreign_keys conn && negb (existsb (has_tg owner) (profiles db))
    then (Eff.Raise Py.IntegrityError, db)
    else (Eff.Return tt, {| profiles := profiles db;
                        likes := likes db ++ [LikeRow owner viewer created];
                        sequence := sequence db |}).

(** [ORDER BY created_at DESC]: texts compare byte by byte, and rows
    with equal keys stay in the order of the scan. *)
Fixpoint insert_desc (r : profile_row) (l : list profile_row) : list profile_row :=
  match l with
  | [] => [r]
  | x :: l' =>
      if String.leb (created_at x) (created_at r) then r :: l
      else x :: insert_desc r l'
  end.

Definition order_by_created_at_desc (l : list profile_row) : list profile_row :=
  foldr insert_desc [] l.

(** [LIMIT ? OFFSET ?]: a negative limit is no limit, a negative offset
    is none. *)
Definition limit_offset {A} (limit offset : Z) (l : list A) : list A :=
  let l' := drop (Z.to_nat offset) l in
  if limit <? 0 then l' else take (Z.to_nat limit) l'.

(** [dict(zip(keys, row))] for the columns that the SELECTs read. *)
Definition row_dict (r : profile_row) : gmap string Py.value :=
  list_to_map
    [ ("tg_id", Py.VInt (tg_id r));
      ("server", text_value (server r));
      ("nickname", text_value (nickname r));
      ("uid", text_value (uid r));
      ("adventure_rank", text_value (adventure_rank r));
      ("playstyle", text_value (playstyle r));
      ("languages", text_value (languages r));
      ("platforms", text_value (platforms r));
      ("playtime", text_value (playtime r));
      ("bio", text_value (bio r));
      ("created_at", Py.VStr (created_at r)) ].

(** *** Profiles API *)

(** [save_profile(tg_id, data)]; [now] is the reading of the clock. *)
Definition save_profile (tg : Z) (data : gmap string Py.value) (now : string)
  : Eff.M database unit :=
  exists_ ← Eff.gets (fun db => existsb (has_tg tg) (profiles db));
  if exists_ : bool then sql_update_profile tg data
  else sql_insert_profile tg data now.

Definition get_profile_by_tg (tg : Z) : Eff.M database (option (gmap string Py.value)) :=
  Eff.gets (fun db => row_dict <$> head (List.filter (has_tg tg) (profiles db))).

Definition delete_profile (tg : Z) : Eff.M database unit :=
  sql_delete_profile connect tg.

Definition count_profiles (srv : string) : Eff.M database Z :=
  Eff.gets (fun db => Z.of_nat (length (List.filter (on_server srv) (profiles db)))).

Definition list_profiles (srv : string) (limit offset : Z)
  : Eff.M database (list (gmap string Py.value)) :=
  Eff.gets (fun db =>
    row_dict <$>
      limit_offset limit offset (order_by_created_at_desc (List.filter (on_server srv) (profiles db)))).

(** *** Likes API *)

(** [add_like(viewer_id, owner_id)]; [created] is the reading of the
    clock. *)
Definition add_like (viewer owner : Z) (created : string) : Eff.M database bool :=
  Eff.try_except
    (_ ← sql_insert_like connect owner viewer created; mret true)
    (fun e => match e with
              | Py.IntegrityError => mret false
              | _ => Eff.raise e
              end).

Definition has_liked (viewer owner : Z) : Eff.M database bool :=
  Eff.gets (fun db => existsb (is_edge owner viewer) (likes db)).

Definition get_likes_count (owner : Z) : Eff.M database Z :=
  Eff.gets (fun db => Z.of_nat (length (List.filter (to_owner owner) (likes db)))).

(** *** Clients *)

(** The writing calls of [db.py], as the handlers of any number of users
    issue them. Each call opens a connection of its own and commits
    before it returns, and SQLite admits one writer at a time: the file
    goes through the calls one after the other, in some order. *)
Inductive call : Type :=
| SaveProfile (tg : Z) (data : gmap string Py.value) (now : string)
| DeleteProfile (tg : Z)
| AddLike (viewer owner : Z) (created : string).

(** One call: the file after it, and what [add_like] answered. *)
Definition run_call (c : call) (db : database) : option (Eff.outcome bool) * database :=
  match c with
  | SaveProfile tg data now => (None, Eff.exec (save_profile tg data now) db)
  | DeleteProfile tg => (None, Eff.exec (delete_profile tg) db)
  | AddLike viewer owner created =>
      let '(r, db') := add_like viewer owner created db in (Some r, db')
  end.

(** The answers that the calls [add_like(viewer, owner)] of a sequence
    get, in order. *)
Fixpoint like_answers (viewer owner : Z) (cs : list call) (db : database)
  : list (Eff.outcome bool) :=
  match cs with
  | [] => []
  | c :: cs' =>
      let '(r, db') := run_call c db in
      match c, r with
      | AddLike v o _, Some r =>
          if (v =? viewer) && (o =? owner) then r :: like_answers viewer owner cs' db'
          else like_answers viewer owner cs' db'
      | _, _ => like_answers viewer owner cs' db'
      end
  end.

(** The file after a sequence of calls. *)
Definition run (cs : list call) (db : database) : database :=
  foldl (fun db c => snd (run_call c db)) db cs.

End Db.

(** ** The bot: [src/bot.py] *)

Module Bot.

(** [Form(StatesGroup)]. *)
Module Form.
Inductive state : Type :=
| choosing_server
| nickname
| uid
| adventure_rank
| languages
| playtime
| bio
| confirm
| sending_message.

#[global] Instance state_eq_dec : EqDecision state.
Proof. solve_decision. Defined.
End Form.

(** Languages shown as buttons (code, flag). *)
Definition LANG_BUTTONS : list (string * string) :=
  [ ("RU", "🇷🇺"); ("EN", "🇬🇧"); ("UA", "🇺🇦"); ("BY", "🇧🇾");
    ("KZ", "🇰🇿"); ("RS", "🇷🇸"); ("EE", "🇪🇪"); ("BG", "🇧🇬");
    ("LT", "🇱🇹"); ("LV", "🇱🇻"); ("GE", "🇬🇪"); ("MD", "🇲🇩") ].

(** The captions of the action bar, kept as their bytes: the handler
    only compares them. *)
Definition LIKE : string := "👍 Лайк".
Definition LETTER : string := "✉️ Письмо".
Definition DISLIKE : string := "👎 Дизлайк".
Definition STOP : string := "⏹️ Стоп".

(** *** What the transport carries *)

(** [types.User]. *)
Record user : Type := User {
  user_id : Z;
  username : option string;
  full_name : string
}.

(** [types.Message]: the bot talks in private chats, where the chat is
    the sender. *)
Record message : Type := Message {
  from_user : user;
  text : string
}.

(** [types.CallbackQuery]: [cq_message_id] is
    [callback_query.message.message_id]. *)
Record callback_query : Type := CallbackQuery {
  cq_id : Z;
  cq_from_user : user;
  data : string;
  cq_message_id : Z
}.

(** The texts the embedded handlers send, by what they say. *)
Inductive notice : Type :=
| NoProfilesOnServer (server : string)
| MenuTitle
| ProfileLoadError
| ProfileCard (prof : gmap string Py.value) (langs_flags : string) (like_num : Z)
| ActionsPrompt
| NoCurrentProfile
| LikeNoOwner
| LikeOwnProfile
| AlreadyLiked
| LikeReceived (liker_name : string)
| LikeSentOwnerNotified
| LikeSentOwnerNotNotified
| LikeNotInserted
| NoMoreProfiles
| WasLastProfile
| MessageNoOwner
| MessageToSelf
| AskMessageText
| BrowsingStopped
| BadRankFormat
| RankOutOfRange
| ChooseLanguages (editing : bool)
| AskPlaytime
| BadPlaytimeFormat
| PlaytimeOutOfRange
| AskBio
| ProfileDeleted
| HowToCreateAgain
| DeveloperOnly
| DeleteUsage
| BadTgId
| ProfileOfDeleted (target_id : Z)
| DeletedByAdministrator
| AlreadyHaveProfile
| Welcome
| ServerChosen (server : string)
| ProfileNotFound
| EditNickname (current_nick : Py.value)
| AskUid
| AskRank
| Preview (data : gmap string Py.value)
| ProfileSaved
| ProfileNotSaved.

(** The keyboards that go with them. *)
Inductive markup : Type :=
| NoMarkup
| ReplyKeyboardRemove
| main_menu_keyboard
| reply_action_keyboard
| languages_keyboard (selected : gset string)
| servers_keyboard (prefix : string)
| profile_menu_keyboard
| confirm_keyboard
| ComplainButton (owner_id : option Z) (profile_id : Py.value).

(** A message as the chat shows it. *)
Record sent : Type := Sent {
  chat_id : Z;
  message_id : Z;
  body : notice;
  reply_markup : markup
}.

(** *** The state of the process *)

(** One entry of [view_contexts]. *)
Record view_context : Type := ViewContext {
  server : string;
  offset : Z;
  total : Z;
  owner_id : option Z;
  profile_id : Py.value;
  keyboard_message_id : Z;
  profile_message_id : Z
}.

Record world : Type := World {
  (** the file [profiles.db] *)
  database : Db.database;
  (** what [datetime.utcnow().isoformat()] reads *)
  utcnow : string;
  (** the module-level dictionary [view_contexts] *)
  view_contexts : gmap Z view_context;
  (** [MemoryStorage]: the state and the data of each user *)
  fsm_state : gmap Z Form.state;
  fsm_data : gmap Z (gmap string Py.value);
  (** the messages on display, the last identifier given out, the chats
      that cannot be written to, the callback answers *)
  chat : list sent;
  last_message_id : Z;
  unreachable : gset Z;
  answered : list (Z * option string)
}.

Abbreviation M := (Eff.M world).

Definition set_database (d : Db.database) (w : world) : world :=
  World d (utcnow w) (view_contexts w) (fsm_state w) (fsm_data w)
        (chat w) (last_message_id w) (unreachable w) (answered w).

Definition set_view_contexts (v : gmap Z view_context) (w : world) : world :=
  World (database w) (utcnow w) v (fsm_state w) (fsm_data w)
        (chat w) (last_message_id w) (unreachable w) (answered w).

Definition set_fsm_state (f : gmap Z Form.state) (w : world) : world :=
  World (database w) (utcnow w) (view_contexts w) f (fsm_data w)
        (chat w) (last_message_id w) (unreachable w) (answered w).

Definition set_fsm_data (f : gmap Z (gmap string Py.value)) (w : world) : world :=
  World (database w) (utcnow w) (view_contexts w) (fsm_state w) f
        (chat w) (last_message_id w) (unreachable w) (answered w).

Definition set_chat (c : list sent) (n : Z) (w : world) : world :=
  World (database w) (utcnow w) (view_contexts w) (fsm_state w) (fsm_data w)
        c n (unreachable w) (answered w).

Definition set_answered (a : list (Z * option string)) (w : world) : world :=
  World (database w) (utcnow w) (view_contexts w) (fsm_state w) (fsm_data w)
        (chat w) (last_message_id w) (unreachable w) a.

(** A call into [db.py]. *)
Definition db {A} (m : Eff.M Db.database A) : M A := Eff.zoom database set_database m.

(** *** The transport *)

Definition shows (chat_id message_id : Z) (m : sent) : bool :=
  (Bot.chat_id m =? chat_id) && (Bot.message_id m =? message_id).

(** [bot.send_message(chat_id, text, reply_markup=...)]: raises when the
    chat cannot be written to. *)
Definition send_message (chat_id : Z) (text : notice) (reply_markup : markup) : M sent :=
  fun w =>
    if bool_decide (chat_id ∈ unreachable w) then (Eff.Raise Py.TelegramAPIError, w)
    else
      let m := Sent chat_id (last_message_id w + 1) text reply_markup in
      (Eff.Return m, set_chat (chat w ++ [m]) (last_message_id w + 1) w).

(** [message.answer(text, reply_markup=...)]. *)
Definition answer (msg : message) (text : notice) (reply_markup : markup) : M sent :=
  send_message (user_id (from_user msg)) text reply_markup.

(** [bot.delete_message(chat_id, message_id)]: raises when the message
    is not there any more. *)
Definition delete_message (chat_id message_id : Z) : M unit :=
  fun w =>
    if existsb (shows chat_id message_id) (chat w)
    then (Eff.Return tt,
          set_chat (List.filter (fun m => negb (shows chat_id message_id m)) (chat w))
                   (last_message_id w) w)
    else (Eff.Raise Py.TelegramAPIError, w).

(** [bot.edit_message_text(chat_id=..., message_id=..., text=...,
    reply_markup=...)]. *)
Definition edit_message_text (chat_id message_id : Z) (text : notice) (reply_markup : markup)
  : M unit :=
  fun w =>
    if existsb (shows chat_id message_id) (chat w)
    then (Eff.Return tt,
          set_chat (map (fun m => if shows chat_id message_id m
                                  then Sent chat_id message_id text reply_markup else m)
                        (chat w))
                   (last_message_id w) w)
    else (Eff.Raise Py.TelegramAPIError, w).

(** [bot.answer_callback_query(id, text=...)]. *)
Definition answer_callback_query (id : Z) (text : option string) : M unit :=
  Eff.modify (fun w => set_answered (answered w ++ [(id, text)]) w).

(** [try: await bot.delete_message(...) / except Exception: pass]. *)
Definition try_delete_message (chat_id message_id : Z) : M unit :=
  Eff.try_except (delete_message chat_id message_id) (fun _ => mret tt).

(** *** The dialog storage *)

(** [await state.get_data()]. *)
Definition get_data (user_id : Z) : M (gmap string Py.value) :=
  Eff.gets (fun w => default ∅ (fsm_data w !! user_id)).

(** [await state.update_data(key=v)]. *)
Definition update_data (user_id : Z) (key : string) (v : Py.value) : M unit :=
  Eff.modify (fun w =>
    set_fsm_data (<[user_id := <[key := v]> (default ∅ (fsm_data w !! user_id))]> (fsm_data w)) w).

(** [await state.update_data] on an unpacked dictionary [d]: the entries
    of [d] win. *)
Definition update_data_all (user_id : Z) (d : gmap string Py.value) : M unit :=
  Eff.modify (fun w =>
    set_fsm_data (<[user_id := d ∪ default ∅ (fsm_data w !! user_id)]> (fsm_data w)) w).

(** [await state.finish()]: no state, empty data. *)
Definition finish (user_id : Z) : M unit :=
  Eff.modify (fun w =>
    set_fsm_data (<[user_id := ∅]> (fsm_data w))
                 (set_fsm_state (delete user_id (fsm_state w)) w)).

(** [await Form.<s>.set()]. *)
Definition set_state (user_id : Z) (s : Form.state) : M unit :=
  Eff.modify (fun w => set_fsm_state (<[user_id := s]> (fsm_state w)) w).

(** The clock and the two store calls that read it. *)
Definition add_like (viewer_id owner_id : Z) : M bool :=
  created ← Eff.gets utcnow;
  db (Db.add_like viewer_id owner_id created).

Definition save_profile (tg_id : Z) (data : gmap string Py.value) : M unit :=
  now ← Eff.gets utcnow;
  db (Db.save_profile tg_id data now).

(** *** Helpers *)

(** [{code.upper(): emoji for code, emoji in LANG_BUTTONS}]. *)
Definition LANG_EMOJI : gmap string string :=
  list_to_map (map (fun ce : string * string => (Py.upper (fst ce), snd ce)) LANG_BUTTONS).

(** [format_language_flags(langs_raw)]. *)
Definition format_language_flags (langs_raw : string) : string :=
  if String.eqb langs_raw "" then ""
  else
    let parts :=
      map (fun p => Py.upper (Py.strip p))
          (List.filter (fun p => negb (String.eqb (Py.strip p) "")) (Py.split "," langs_raw)) in
    Py.join " "
      (map (fun p => match LANG_EMOJI !! p with
                     | Some em => if String.eqb em "" then p else em
                     | None => p
                     end) parts).

(** [get_owner_id(profile)]: the first of the four keys that holds a
    true value which [int] accepts. *)
Definition get_owner_id (profile : gmap string Py.value) : option Z :=
  foldr (fun key rest =>
           let v := Py.get profile key Py.VNone in
           if Py.truthy v then
             match Py.int_of_value v with
             | Some z => Some z
             | None => rest
             end
           else rest)
        None ["tg_id"; "owner_id"; "user_id"; "id"].

(** [if x:] on an [Optional[int]]. *)
Definition opt_truthy (owner_id : option Z) : bool :=
  match owner_id with
  | Some z => negb (z =? 0)
  | None => false
  end.

Definition owner_value (owner_id : option Z) : Py.value :=
  match owner_id with
  | Some z => Py.VInt z
  | None => Py.VNone
  end.

(** *** Core flow *)

Definition send_profile_with_actions (viewer_id : Z) (server : string) (offset : Z) : M unit :=
  total ← db (Db.count_profiles server);
  if total =? 0 then
    send_message viewer_id (NoProfilesOnServer server) NoMarkup;;
    send_message viewer_id MenuTitle main_menu_keyboard;;
    mret tt
  else
    (* clamp offset *)
    let offset := if offset <? 0 then 0 else offset in
    let offset := if offset >=? total then total - 1 else offset in
    profiles ← db (Db.list_profiles server 1 offset);
    match profiles with
    | [] =>
        send_message viewer_id ProfileLoadError NoMarkup;;
        mret tt
    | prof :: _ =>
        let owner_id := get_owner_id prof in
        like_num ← (if opt_truthy owner_id
                    then db (Db.get_likes_count (default 0 owner_id))
                    else mret 0);
        match Py.text_or_empty (Py.get prof "languages" (Py.VStr "")) with
        | None => Eff.raise Py.AttributeError
        | Some langs_raw =>
            let langs_flags := format_language_flags langs_raw in
            let profile_id :=
              Py.or_ (Py.or_ (Py.get prof "id" Py.VNone) (owner_value owner_id)) (Py.VStr "") in
            profile_msg ← send_message viewer_id (ProfileCard prof langs_flags like_num)
                                       (ComplainButton owner_id profile_id);
            prev_ctx ← Eff.gets (fun w => view_contexts w !! viewer_id);
            let prev_kb_msg_id := keyboard_message_id <$> prev_ctx in
            kb_msg ← send_message viewer_id ActionsPrompt reply_action_keyboard;
            (if opt_truthy prev_kb_msg_id
             then try_delete_message viewer_id (default 0 prev_kb_msg_id)
             else mret tt);;
            Eff.modify (fun w =>
              set_view_contexts
                (<[viewer_id := {| server := server;
                                   offset := offset;
                                   total := total;
                                   owner_id := owner_id;
                                   profile_id := profile_id;
                                   keyboard_message_id := message_id kb_msg;
                                   profile_message_id := message_id profile_msg |}]>
                   (view_contexts w)) w)
        end
    end.

(** *** Handlers: browsing *)

(** [process_browse_server]; the filter lets in the data that start
    with [browse_server:]. *)
Definition process_browse_server (cq : callback_query) : M unit :=
  match Py.after_first ":" (data cq) with
  | None => Eff.raise Py.IndexError
  | Some server =>
      answer_callback_query (cq_id cq) None;;
      send_profile_with_actions (user_id (cq_from_user cq)) server 0
  end.

(** The block that Like, Dislike and Stop each spell out: delete the
    action keyboard if there is one, pop the cursor, send the closing
    text with the main menu. *)
Definition close_session (user_id : Z) (ctx : view_context) (closing : notice) : M unit :=
  let kb_msg_id := keyboard_message_id ctx in
  (if negb (kb_msg_id =? 0) then try_delete_message user_id kb_msg_id else mret tt);;
  Eff.modify (fun w => set_view_contexts (delete user_id (view_contexts w)) w);;
  send_message user_id closing main_menu_keyboard;;
  mret tt.

(** Lines 567-579 and 582-594: one step forward or the end. *)
Definition next_profile (user_id : Z) (ctx : view_context) (closing : notice) : M unit :=
  let next_offset := offset ctx + 1 in
  if next_offset >=? total ctx then close_session user_id ctx closing
  else send_profile_with_actions user_id (server ctx) next_offset.

(** [liker.username and f"@{liker.username}" or liker.full_name]. *)
Definition liker_name (liker : user) : string :=
  match username liker with
  | Some u => if String.eqb u "" then full_name liker else "@" ++ u
  | None => full_name liker
  end.

(** The Like branch from the result of [db.add_like] on (lines 557-579).
    The handler awaits between the pre-check and the insert, so the row
    may be there by the time of the insert: [inserted] can be [False]. *)
Definition like_inserted (msg : message) (ctx : view_context) (owner_id : Z) (inserted : bool)
  : M unit :=
  (if inserted then
     Eff.try_except
       (send_message owner_id (LikeReceived (liker_name (from_user msg))) NoMarkup;;
        answer msg LikeSentOwnerNotified ReplyKeyboardRemove;;
        mret tt)
       (fun _ =>
          answer msg LikeSentOwnerNotNotified ReplyKeyboardRemove;;
          mret tt)
   else
     answer msg LikeNotInserted ReplyKeyboardRemove;;
     mret tt);;
  next_profile (user_id (from_user msg)) ctx NoMoreProfiles.

(** [handle_action_message]; the filter lets in the four captions, for
    a user who is in no dialog. *)
Definition handle_action_message (msg : message) : M unit :=
  let user_id := user_id (from_user msg) in
  let cmd := text msg in
  ctx ← Eff.gets (fun w => view_contexts w !! user_id);
  match ctx with
  | None =>
      answer msg NoCurrentProfile NoMarkup;;
      mret tt
  | Some ctx =>
      let owner_id := owner_id ctx in
      if String.eqb cmd LIKE then
        match owner_id with
        | None =>
            answer msg LikeNoOwner NoMarkup;;
            mret tt
        | Some owner =>
            if owner =? 0 then
              answer msg LikeNoOwner NoMarkup;;
              mret tt
            else if owner =? user_id then
              answer msg LikeOwnProfile NoMarkup;;
              mret tt
            else
              already ← db (Db.has_liked user_id owner);
              if already : bool then
                answer msg AlreadyLiked NoMarkup;;
                mret tt
              else
                inserted ← add_like user_id owner;
                like_inserted msg ctx owner inserted
        end
      else if String.eqb cmd DISLIKE then
        next_profile user_id ctx WasLastProfile
      else if String.eqb cmd LETTER then
        match owner_id with
        | None =>
            answer msg MessageNoOwner NoMarkup;;
            mret tt
        | Some owner =>
            if owner =? user_id then
              answer msg MessageToSelf NoMarkup;;
              mret tt
            else
              update_data user_id "message_target" (Py.VInt owner);;
              answer msg AskMessageText ReplyKeyboardRemove;;
              set_state user_id Form.sending_message
        end
      else if String.eqb cmd STOP then
        close_session user_id ctx BrowsingStopped
      else mret tt
  end.

(** *** Handlers: deleting a profile *)

(** [profile_delete_confirm]. *)
Definition profile_delete_confirm (cq : callback_query) : M unit :=
  let user_id := user_id (cq_from_user cq) in
  answer_callback_query (cq_id cq) None;;
  db (Db.delete_profile user_id);;
  send_message user_id ProfileDeleted NoMarkup;;
  send_message user_id HowToCreateAgain NoMarkup;;
  mret tt.

(** [try: await bot.send_message(target_id, ...) / except Exception: pass]. *)
Definition try_tell_deleted (target_id : Z) : M unit :=
  Eff.try_except
    (send_message target_id DeletedByAdministrator NoMarkup;; mret tt)
    (fun _ => mret tt).

(** [cmd_delete_profile]; [DEVELOPER_ID_INT] is read from the
    environment when the module is loaded. *)
Definition cmd_delete_profile (DEVELOPER_ID_INT : option Z) (msg : message) : M unit :=
  if bool_decide (DEVELOPER_ID_INT = None)
     || negb (bool_decide (DEVELOPER_ID_INT = Some (user_id (from_user msg))))
  then
    answer msg DeveloperOnly NoMarkup;;
    mret tt
  else
    match Py.split_ws (Py.strip (text msg)) with
    | _ :: arg :: _ =>
        match Py.int arg with
        | None =>
            answer msg BadTgId NoMarkup;;
            mret tt
        | Some target_id =>
            db (Db.delete_profile target_id);;
            answer msg (ProfileOfDeleted target_id) NoMarkup;;
            try_tell_deleted target_id
        end
    | _ =>
        answer msg DeleteUsage NoMarkup;;
        mret tt
    end.

(** [dev_delete_profile_callback]; the filter lets in the data that
    start with [dev:delete:]. *)
Definition dev_delete_profile_callback (DEVELOPER_ID_INT : option Z) (cq : callback_query)
  : M unit :=
  if bool_decide (DEVELOPER_ID_INT = None)
     || negb (bool_decide (DEVELOPER_ID_INT = Some (user_id (cq_from_user cq))))
  then answer_callback_query (cq_id cq) (Some "Нет доступа")
  else
    match Py.split ":" (data cq) with
    | [_; _; arg] =>
        match Py.int arg with
        | None => answer_callback_query (cq_id cq) (Some "Неверный tg_id")
        | Some target_id =>
            db (Db.delete_profile target_id);;
            answer_callback_query (cq_id cq) (Some "Анкета удалена");;
            send_message (user_id (cq_from_user cq)) (ProfileOfDeleted target_id) NoMarkup;;
            try_tell_deleted target_id
        end
    | _ => answer_callback_query (cq_id cq) (Some "Ошибка данных")
    end.

(** *** Handlers: the dialog *)

(** [set([p.strip().upper() for p in langs_raw.split(",") if p.strip()])]. *)
Definition selected_languages (langs_raw : string) : gset string :=
  list_to_set
    (map (fun p => Py.upper (Py.strip p))
         (List.filter (fun p => negb (String.eqb (Py.strip p) "")) (Py.split "," langs_raw))).

(** [{code for code, _ in LANG_BUTTONS}]. *)
Definition codes : gset string := list_to_set (map fst LANG_BUTTONS).

(** [process_ar], the handler of [Form.adventure_rank]. *)
Definition process_ar (msg : message) : M unit :=
  let user_id := user_id (from_user msg) in
  let txt := Py.strip (text msg) in
  data ← get_data user_id;
  let editing := Py.truthy (Py.get data "editing" (Py.VBool false)) in
  (* lines 397-403 *)
  let ask_languages : M unit :=
    match Py.text_or_empty (Py.get data "languages" (Py.VStr "")) with
    | None => Eff.raise Py.AttributeError
    | Some langs_raw =>
        let selected := selected_languages langs_raw in
        answer msg (ChooseLanguages editing) (languages_keyboard selected);;
        set_state user_id Form.languages
    end in
  if negb (String.eqb txt "-" && editing) then
    if String.eqb txt "-" then
      update_data user_id "adventure_rank" (Py.VStr "");;
      ask_languages
    else
      match Py.int txt with
      | None =>
          answer msg BadRankFormat NoMarkup;;
          mret tt
      | Some ar =>
          if negb ((1 <=? ar) && (ar <=? 60)) then
            answer msg RankOutOfRange NoMarkup;;
            mret tt
          else
            update_data user_id "adventure_rank" (Py.VStr (Py.str ar));;
            ask_languages
      end
  else ask_languages.

(** Lines 413-416: flip one code in the set. *)
Definition toggle (action : string) (selected : gset string) : gset string :=
  if bool_decide (action ∈ selected) then selected ∖ {[action]}
  else selected ∪ {[action]}.

(** [process_lang_toggle], the handler of the language buttons in
    [Form.languages]; the filter lets in the data that start with
    [lang:]. *)
Definition process_lang_toggle (cq : callback_query) : M unit :=
  let user_id := user_id (cq_from_user cq) in
  match Py.after_first ":" (data cq) with
  | None => Eff.raise Py.IndexError
  | Some action =>
      data ← get_data user_id;
      match Py.text_or_empty (Py.get data "languages" (Py.VStr "")) with
      | None => Eff.raise Py.AttributeError
      | Some langs_raw =>
          let selected := selected_languages langs_raw in
          if bool_decide (action ∈ codes) then
            let selected := toggle action selected in
            update_data user_id "languages" (Py.VStr (Py.join "," (Py.sorted selected)));;
            let kb := languages_keyboard selected in
            Eff.try_except
              (edit_message_text user_id (cq_message_id cq) (ChooseLanguages false) kb)
              (fun _ =>
                 answer_callback_query (cq_id cq) (Some "Обновлено");;
                 send_message user_id (ChooseLanguages false) kb;;
                 mret tt);;
            answer_callback_query (cq_id cq) None
          else if String.eqb action "DONE" then
            answer_callback_query (cq_id cq) None;;
            send_message user_id AskPlaytime NoMarkup;;
            set_state user_id Form.playtime
          else mret tt
      end
  end.

(** Lines 445-460 of [process_playtime]: the offset read from the
    stripped text, [None] where the source leaves [parsed = None]. *)
Definition parsed_offset (txt : string) : option Z :=
  let val := Py.remove_char " " (Py.upper txt) in
  if Py.startswith val "MSK" then
    let rest := Py.slice_from 3 val in
    if String.eqb rest "" || String.eqb rest "+" || String.eqb rest "+0" then Some 0
    else Py.int (Py.remove_char "+" rest)
  else Py.int val.

(** [process_playtime], the handler of [Form.playtime]. *)
Definition process_playtime (msg : message) : M unit :=
  let user_id := user_id (from_user msg) in
  let txt := Py.strip (text msg) in
  data ← get_data user_id;
  let editing := Py.truthy (Py.get data "editing" (Py.VBool false)) in
  (* lines 473-474 *)
  let ask_bio : M unit :=
    answer msg AskBio NoMarkup;;
    set_state user_id Form.bio in
  if negb (String.eqb txt "-" && editing) then
    if String.eqb txt "-" then
      update_data user_id "playtime" (Py.VStr "");;
      ask_bio
    else
      match parsed_offset txt with
      | None =>
          if (1 <=? Py.len txt) && (Py.len txt <=? 64) then
            update_data user_id "playtime" (Py.VStr (Py.slice_to 64 txt));;
            ask_bio
          else
            answer msg BadPlaytimeFormat NoMarkup;;
            mret tt
      | Some parsed =>
          if negb ((-12 <=? parsed) && (parsed <=? 14)) then
            answer msg PlaytimeOutOfRange NoMarkup;;
            mret tt
          else
            let sign := if parsed >=? 0 then "+" ++ Py.str parsed else Py.str parsed in
            update_data user_id "playtime" (Py.VStr ("MSK" ++ sign));;
            ask_bio
      end
  else ask_bio.

(** *** Handlers: the rest of the dialog *)


(** [cmd_edit]; [profile_edit_callback] does the same from a button. *)
Definition cmd_edit (msg : message) : M unit :=
  let user_id := user_id (from_user msg) in
  prof ← db (Db.get_profile_by_tg user_id);
  match prof with
  | None =>
      answer msg ProfileNotFound NoMarkup;;
      mret tt
  | Some prof =>
      update_data_all user_id (<["editing" := Py.VBool true]> prof);;
      let current_nick := Py.or_ (Py.get prof "nickname" Py.VNone) (Py.VStr "(пусто)") in
      answer msg (EditNickname current_nick) NoMarkup;;
      set_state user_id Form.nickname
  end.


(** [process_nickname], the handler of [Form.nickname]. *)
Definition process_nickname (msg : message) : M unit :=
  let user_id := user_id (from_user msg) in
  let txt := Py.strip (text msg) in
  data ← get_data user_id;
  let editing := Py.truthy (Py.get data "editing" (Py.VBool false)) in
  (if negb (String.eqb txt "-" && editing)
   then update_data user_id "nickname" (Py.VStr (Py.slice_to 64 txt))
   else mret tt);;
  answer msg AskUid NoMarkup;;
  set_state user_id Form.uid.

(** [process_uid], the handler of [Form.uid]. *)
Definition process_uid (msg : message) : M unit :=
  let user_id := user_id (from_user msg) in
  let txt := Py.strip (text msg) in
  data ← get_data user_id;
  let editing := Py.truthy (Py.get data "editing" (Py.VBool false)) in
  (if negb (String.eqb txt "-" && editing)
   then update_data user_id "uid" (Py.VStr (if negb (String.eqb txt "-") then txt else ""))
   else mret tt);;
  answer msg AskRank NoMarkup;;
  set_state user_id Form.adventure_rank.

(** [process_bio], the handler of [Form.bio]; the preview renders the
    languages, which raises on a true value that is no text. *)
Definition process_bio (msg : message) : M unit :=
  let user_id := user_id (from_user msg) in
  let txt := Py.strip (text msg) in
  data ← get_data user_id;
  let editing := Py.truthy (Py.get data "editing" (Py.VBool false)) in
  (if negb (String.eqb txt "-" && editing)
   then update_data user_id "bio" (Py.VStr (Py.slice_to 500 txt))
   else mret tt);;
  data ← get_data user_id;
  match Py.text_or_empty (Py.get data "languages" (Py.VStr "")) with
  | None => Eff.raise Py.AttributeError
  | Some _ =>
      answer msg (Preview data) confirm_keyboard;;
      set_state user_id Form.confirm
  end.

(** Lines 507-511: the data without [editing], with the two fields the
    dialog never asks for. *)
Definition data_to_save (data : gmap string Py.value) : gmap string Py.value :=
  let d := delete "editing" data in
  let d := if bool_decide (is_Some (d !! "platforms")) then d
           else <["platforms" := Py.VStr ""]> d in
  if bool_decide (is_Some (d !! "playstyle")) then d
  else <["playstyle" := Py.VStr ""]> d.

(** [process_confirm], the handler of the two buttons in [Form.confirm];
    the filter lets in the data that start with [confirm:]. *)
Definition process_confirm (cq : callback_query) : M unit :=
  let user_id := user_id (cq_from_user cq) in
  match Py.after_first ":" (data cq) with
  | None => Eff.raise Py.IndexError
  | Some choice =>
      answer_callback_query (cq_id cq) None;;
      if String.eqb choice "yes" then
        data ← get_data user_id;
        save_profile user_id (data_to_save data);;
        send_message user_id ProfileSaved NoMarkup;;
        finish user_id
      else
        send_message user_id ProfileNotSaved NoMarkup;;
        finish user_id
  end.

(** One answer of a user inside the dialog, between the nickname and the
    preview. *)
Inductive dialog_step : Type :=
| AtNickname (msg : message)
| AtUid (msg : message)
| AtRank (msg : message)
| AtLanguages (cq : callback_query)
| AtPlaytime (msg : message)
| AtBio (msg : message).

Definition step_user (s : dialog_step) : Z :=
  match s with
  | AtNickname m | AtUid m | AtRank m | AtPlaytime m | AtBio m => user_id (from_user m)
  | AtLanguages cq => user_id (cq_from_user cq)
  end.

Definition run_step (s : dialog_step) : M unit :=
  match s with
  | AtNickname m => process_nickname m
  | AtUid m => process_uid m
  | AtRank m => process_ar m
  | AtLanguages cq => process_lang_toggle cq
  | AtPlaytime m => process_playtime m
  | AtBio m => process_bio m
  end.

(** The world after a run of answers; a handler that raises ends its own
    event only. *)
Definition run_steps (steps : list dialog_step) (w : world) : world :=
  foldl (fun w s => Eff.exec (run_step s) w) w steps.

End Bot.

(** ** Vocabulary of the statements *)

Module Obs.

(** The call [add_like(viewer, owner)], whatever the clock read. *)
Definition is_add_like (viewer owner : Z) (c : Db.call) : bool :=
  match c with
  | Db.AddLike v o _ => (v =? viewer) && (o =? owner)
  | _ => false
  end.

(** The rows of [likes] for one ordered pair. *)
Definition edges (viewer owner : Z) (db : Db.database) : list Db.like_row :=
  List.filter (Db.is_edge owner viewer) (Db.likes db).

(** What [list_profiles(server, limit, offset)] returns, and the owners
    in it, in order. *)
Definition listing (srv : string) (limit offset : Z) (db : Db.database)
  : list (gmap string Py.value) :=
  match fst (Db.list_profiles srv limit offset db) with
  | Eff.Return l => l
  | Eff.Raise _ => []
  end.

Definition owners_listed (srv : string) (limit offset : Z) (db : Db.database)
  : list (option Py.value) :=
  map (fun d : gmap string Py.value => d !! "tg_id") (listing srv limit offset db).

(** A row after [save_profile] agrees with the row before on what no
    dialog field feeds, and rows of other owners are untouched. *)
Definition same_identity (tg : Z) (r r' : Db.profile_row) : Prop :=
  Db.id r' = Db.id r /\ Db.tg_id r' = Db.tg_id r /\ Db.created_at r' = Db.created_at r
  /\ (Db.tg_id r <> tg -> r' = r).

(** Nothing but the conversation changed: the file, the cursors and
    the dialog storage are as they were. *)
Definition same_state (w w' : Bot.world) : Prop :=
  Bot.database w' = Bot.database w
  /\ Bot.utcnow w' = Bot.utcnow w
  /\ Bot.view_contexts w' = Bot.view_contexts w
  /\ Bot.fsm_state w' = Bot.fsm_state w
  /\ Bot.fsm_data w' = Bot.fsm_data w
  /\ Bot.unreachable w' = Bot.unreachable w.

(** The handler turned the input down: nothing but the conversation
    changed, and a user who can be written to got the notice [n]. *)
Definition reprompted (user : Z) (n : Bot.notice) (w w' : Bot.world) : Prop :=
  same_state w w'
  /\ (user ∉ Bot.unreachable w ->
      Bot.chat w' = (Bot.chat w ++ [Bot.Sent user (Bot.last_message_id w + 1) n Bot.NoMarkup])%list).


(** A world where nothing happened yet. *)
Definition fresh : Bot.world :=
  Bot.World Db.empty "2024-05-01T10:00:00" ∅ ∅ ∅ [] 0 ∅ [].

(** The character [c] occurs in [s]. *)
Fixpoint occurs (c : ascii) (s : string) : bool :=
  match s with
  | EmptyString => false
  | String d r => Ascii.eqb d c || occurs c r
  end.

(** A language entry as the handlers write it: not empty, without a
    comma, stripped and in upper case. *)
Definition canonical (x : string) : Prop :=
  x <> "" /\ occurs "," x = false /\ Py.strip x = x /\ Py.upper x = x.

(** A text that does not begin with white space. *)
Definition flush_left (s : string) : Prop :=
  match s with
  | EmptyString => True
  | String d _ => Py.isspace d = false
  end.

(** The set that the language handlers work on: what lines 408-410
    compute from the dialog data, where they do not raise. *)
Definition working_set (w : Bot.world) (user : Z) : option (gset string) :=
  Bot.selected_languages <$>
    Py.text_or_empty (Py.get (default ∅ (Bot.fsm_data w !! user)) "languages" (Py.VStr "")).

(** A world in the languages step, with two languages chosen. *)
Definition choosing_languages : Bot.world :=
  Bot.World Db.empty "2024-05-01T10:00:00" ∅
            {[ 5 := Bot.Form.languages ]}
            {[ 5 := {[ "languages" := Py.VStr "en, ru" ]} ]}
            [] 0 ∅ [].

(** What [count_profiles(server)] answers in a world. *)
Definition count (server : string) (w : Bot.world) : Z :=
  Z.of_nat (length (List.filter (Db.on_server server) (Db.profiles (Bot.database w)))).

(** An offset brought into 0 .. total-1. *)
Definition clamp (offset total : Z) : Z := Z.max 0 (Z.min offset (total - 1)).

Definition cursor_in_range (ctx : Bot.view_context) : Prop :=
  0 <= Bot.offset ctx <= Bot.total ctx - 1.


(** A profile of [server] was rendered for [viewer] at the clamped
    [offset]: the cursor of the viewer is new, and no other changed. *)
Definition rendered (viewer : Z) (server : string) (offset : Z) (w w' : Bot.world) : Prop :=
  exists ctx,
    Bot.view_contexts w' = <[viewer := ctx]> (Bot.view_contexts w)
    /\ Bot.server ctx = server
    /\ Bot.total ctx = count server w
    /\ Bot.offset ctx = clamp offset (count server w).

(** All but the conversation and the cursors is as it was. *)
Definition frame (w w' : Bot.world) : Prop :=
  Bot.database w' = Bot.database w
  /\ Bot.utcnow w' = Bot.utcnow w
  /\ Bot.fsm_state w' = Bot.fsm_state w
  /\ Bot.fsm_data w' = Bot.fsm_data w
  /\ Bot.unreachable w' = Bot.unreachable w.

(** What an action can do to the cursors: nothing, drop the cursor of
    the user, or replace it by one in range. *)
Definition cursor_step (user : Z) (w w' : Bot.world) : Prop :=
  Bot.view_contexts w' = Bot.view_contexts w
  \/ Bot.view_contexts w' = delete user (Bot.view_contexts w)
  \/ exists ctx, Bot.view_contexts w' = <[user := ctx]> (Bot.view_contexts w)
                 /\ cursor_in_range ctx.

(** What an action can do to the file: nothing, or add one like from
    the user to somebody else. *)
Definition store_step (user : Z) (w w' : Bot.world) : Prop :=
  Bot.database w' = Bot.database w
  \/ exists owner created,
       owner <> user
       /\ Bot.database w' =
            Db.Database (Db.profiles (Bot.database w))
                        (Db.likes (Bot.database w) ++ [Db.LikeRow owner user created])
                        (Db.sequence (Bot.database w)).


(** Two profiles on Asia, of users 2 and 3, the second one newer. *)
Definition on_asia (nick : string) : gmap string Py.value :=
  <["server" := Py.VStr "Asia"]> {[ "nickname" := Py.VStr nick ]}.

Definition two_profiles : Db.database :=
  Db.run [ Db.SaveProfile 2 (on_asia "Lumine") "2024-05-01T10:00:00";
           Db.SaveProfile 3 (on_asia "Aether") "2024-05-02T10:00:00" ] Db.empty.

(** The same file once user 1 has liked user 3. *)
Definition liked_already : Db.database :=
  Db.run [ Db.AddLike 1 3 "2024-05-02T12:00:00" ] two_profiles.

Definition traveler : Bot.user := Bot.User 1 (Some "traveler") "Traveler".

(** User 1 browsing Asia; [owner] is on display at [offset] of [total]. *)
Definition cursor (offset total owner : Z) : Bot.view_context :=
  Bot.ViewContext "Asia" offset total (Some owner) (Py.VInt owner) 2 1.

Definition browsing (db : Db.database) (viewer : Z) (ctx : Bot.view_context) : Bot.world :=
  Bot.World db "2024-05-03T10:00:00" {[ viewer := ctx ]} ∅ ∅ [] 2 ∅ [].

(** [tg_id] is UNIQUE in [profiles]. *)
Definition tg_unique (db : Db.database) : Prop := NoDup (map Db.tg_id (Db.profiles db)).

(** The dialog keeps the file and the server of every session. *)
Definition keeps_server (w w' : Bot.world) : Prop :=
  Bot.database w' = Bot.database w
  /\ Bot.utcnow w' = Bot.utcnow w
  /\ forall user,
       default ∅ (Bot.fsm_data w' !! user) !! "server"
       = default ∅ (Bot.fsm_data w !! user) !! "server".

(** The dialog data of a user, as [state.get_data()] returns them. *)
Definition session (w : Bot.world) (user : Z) : gmap string Py.value :=
  default ∅ (Bot.fsm_data w !! user).

End Obs.

(** ** The keyboards and the filters of the callback handlers *)

Module Keys.

(** [SERVERS]: (label, key). *)
Definition SERVERS : list (string * string) :=
  [ ("Asia", "Asia"); ("Europe", "Europe"); ("North America", "NA");
    ("TW/HK/MO", "TW"); ("China", "CN") ].

(** [InlineKeyboardButton(text, callback_data=...)]. An inline keyboard
    is kept as its buttons in the order in which the code adds them; the
    rows that they fall into are left out. *)
Record button : Type := Button {
  label : string;
  callback_data : string
}.

(** [servers_keyboard(prefix)]. *)
Definition servers_keyboard (prefix : string) : list button :=
  map (fun lk : string * string => Button (fst lk) (prefix ++ ":" ++ snd lk)) SERVERS.

(** [label(code, emoji, sel_set)] of [languages_keyboard]. *)
Definition language_label (code emoji : string) (sel_set : gset string) : string :=
  emoji ++ " " ++ code ++ (if bool_decide (code ∈ sel_set) then " ✅" else "").

(** [languages_keyboard(selected)]. *)
Definition languages_keyboard (selected : gset string) : list button :=
  (map (fun ce : string * string =>
          Button (language_label (fst ce) (snd ce) selected) ("lang:" ++ fst ce))
       Bot.LANG_BUTTONS
   ++ [Button "Готово" "lang:DONE"])%list.

(** A value inside an f-string. *)
Definition format (v : Py.value) : string :=
  match v with
  | Py.VNone => "None"
  | Py.VBool b => if b then "True" else "False"
  | Py.VInt z => Py.str z
  | Py.VStr s => s
  end.

(** The button under a card (lines 169-171). *)
Definition complain_button (owner_id : option Z) (profile_id : Py.value) : button :=
  Button "⚠️ Пожаловаться"
         ("complain:" ++ format (Bot.owner_value owner_id) ++ ":" ++ format profile_id).

(** The keyboards of [cmd_start], [process_bio], [profile_view] and its
    two twins, [profile_delete_request]; the button that
    [handle_complain] adds for the developer. *)
Definition profile_menu_keyboard : list button :=
  [ Button "Показать мою анкету" "profile:view";
    Button "Редактировать анкету" "profile:edit";
    Button "Удалить анкету" "profile:delete";
    Button "Отмена" "profile:cancel" ].

Definition confirm_keyboard : list button :=
  [ Button "Подтвердить и сохранить" "confirm:yes"; Button "Отмена" "confirm:no" ].

Definition own_profile_keyboard : list button :=
  [ Button "Удалить анкету" "profile:delete"; Button "Редактировать" "profile:edit" ].

Definition delete_request_keyboard : list button :=
  [ Button "✅ Подтвердить удаление" "profile:delete_confirm";
    Button "❌ Отмена" "profile:delete_cancel" ].

Definition dev_delete_button (owner_part : string) : button :=
  Button "Удалить анкету (DEV)" ("dev:delete:" ++ owner_part).

(** The inline buttons of a keyboard that a handler of [Bot] sends. *)
Definition inline_keyboard (kb : Bot.markup) : list button :=
  match kb with
  | Bot.languages_keyboard selected => languages_keyboard selected
  | Bot.servers_keyboard prefix => servers_keyboard prefix
  | Bot.profile_menu_keyboard => profile_menu_keyboard
  | Bot.confirm_keyboard => confirm_keyboard
  | Bot.ComplainButton owner_id profile_id => [complain_button owner_id profile_id]
  | Bot.NoMarkup | Bot.ReplyKeyboardRemove | Bot.main_menu_keyboard
  | Bot.reply_action_keyboard => []
  end.

(** The inline keyboards as the handlers build them: [cmd_start] (lines
    203-209 and 213), [cmd_search] and [menu_watch_profiles] (lines 522
    and 669), [process_ar] and [process_lang_toggle] (lines 398 and 418),
    [process_bio] (lines 495-497), [profile_view] and its two twins,
    [profile_delete_request], [send_profile_with_actions] (lines
    169-171) and [handle_complain] (lines 313-315). *)
Inductive built : list button -> Prop :=
| built_server : built (servers_keyboard "server")
| built_browse_server : built (servers_keyboard "browse_server")
| built_languages selected : built (languages_keyboard selected)
| built_profile_menu : built profile_menu_keyboard
| built_confirm : built confirm_keyboard
| built_own_profile : built own_profile_keyboard
| built_delete_request : built delete_request_keyboard
| built_complain owner_id profile_id : built [complain_button owner_id profile_id]
| built_dev_delete owner_part : built [dev_delete_button owner_part].

(** The filters of the callback handlers, in the order of the file:
    [lambda c: c.data == s] and
    [lambda c: c.data and c.data.startswith(p)]. The handlers of
    [server:], [lang:] and [confirm:] are registered for one state of
    the form each, which the filter here leaves out. *)
Definition equals (s data : string) : bool := String.eqb data s.

Definition starts (p data : string) : bool :=
  negb (String.eqb data "") && Py.startswith data p.

Definition callback_filters : list (string -> bool) :=
  [ equals "profile:edit"; equals "profile:cancel"; equals "profile:view";
    starts "complain:"; equals "profile:delete"; equals "profile:delete_confirm";
    equals "profile:delete_cancel"; starts "server:"; starts "lang:"; starts "confirm:";
    starts "browse_server:"; starts "dev:delete:" ].

(** [s.split(c, n)]: at most [n] cuts. *)
Fixpoint splitn (c : ascii) (s : string) (n : nat) : list string :=
  match s with
  | EmptyString => [EmptyString]
  | String d r =>
      match n with
      | O => [s]
      | S n' =>
          if Ascii.eqb d c then EmptyString :: splitn c r n'
          else match splitn c r n with
               | p :: ps => String d p :: ps
               | [] => [String d EmptyString]
               end
      end
  end.

(** [s.isdigit()]: not empty, digits only. *)
Fixpoint all_digits (s : string) : bool :=
  match s with
  | EmptyString => true
  | String c r => Py.isdigit c && all_digits r
  end.

Definition isdigit (s : string) : bool :=
  negb (String.eqb s "") && all_digits s.

End Keys.

(** ** The other handlers of [src/bot.py] *)

Module Post.

(** What [handle_complain] tells the developer about the profile. *)
Inductive profile_info : Type :=
| ProfileFields (prof : gmap string Py.value) (langs_flags : string)
| NotInFile (owner_id : Z)
| Incomplete (profile_part owner_part : string).

(** The texts that only these handlers send, by what they say. *)
Inductive text : Type :=
| ProfileNotFoundShort
| EditPreparationFailed
| OwnProfile (prof : gmap string Py.value) (langs_flags : string) (like_num : Z)
| Complaint (reporter_info owner_part profile_part : string) (info : profile_info)
| ConfirmDeletion
| DeletionCancelled
| UseTheButtons
| ChooseServerToBrowse
| SendingCancelled
| RecipientNotFound
| Forwarded (sender_name txt : string)
| LetterSent
| LetterNotSent.

(** What goes with such a text: nothing, or inline buttons. *)
Inductive keyboard : Type :=
| NoKeyboard
| Inline (buttons : list Keys.button).

(** A message with such a text as the chat shows it. *)
Record letter : Type := Letter {
  to : Z;
  letter_id : Z;
  content : text;
  attached : keyboard
}.

(** The state of the process with these messages kept beside the
    conversation of [Bot.world]; both draw their identifiers from
    [Bot.last_message_id]. No handler deletes or edits one of these
    messages: the handlers delete the messages that a cursor names and
    edit the message of the language buttons, which [Bot.chat] holds. *)
Record world : Type := World {
  bot : Bot.world;
  outbox : list letter
}.

Abbreviation M := (Eff.M world).

Definition set_bot (b : Bot.world) (w : world) : world := World b (outbox w).

(** A step of [Bot] inside a handler of this part. *)
Definition lift {A} (m : Bot.M A) : M A := Eff.zoom bot set_bot m.

(** [bot.send_message(chat_id, text, reply_markup=...)] for a text of
    this part: raises when the chat cannot be written to. *)
Definition send_text (chat_id : Z) (t : text) (kb : keyboard) : M letter :=
  fun w =>
    if bool_decide (chat_id ∈ Bot.unreachable (bot w)) then (Eff.Raise Py.TelegramAPIError, w)
    else
      let n := Bot.last_message_id (bot w) + 1 in
      let l := Letter chat_id n t kb in
      (Eff.Return l, World (Bot.set_chat (Bot.chat (bot w)) n (bot w)) (outbox w ++ [l])).

(** [message.answer(text, reply_markup=...)]. *)
Definition answer_text (msg : Bot.message) (t : text) (kb : keyboard) : M letter :=
  send_text (Bot.user_id (Bot.from_user msg)) t kb.

(** *** The profile of the user *)

(** Lines 255-272, 677-694 and 702-719: the card of the profile of the
    user, with the two buttons under it. *)
Definition own_profile_card (user_id : Z) (prof : gmap string Py.value) : M unit :=
  let owner_id := Bot.get_owner_id prof in
  like_num ← (if Bot.opt_truthy owner_id
              then lift (Bot.db (Db.get_likes_count (default 0 owner_id)))
              else mret 0);
  match Py.text_or_empty (Py.get prof "languages" (Py.VStr "")) with
  | None => Eff.raise Py.AttributeError
  | Some langs_raw =>
      let langs_flags := Bot.format_language_flags langs_raw in
      send_text user_id (OwnProfile prof langs_flags like_num)
                (Inline Keys.own_profile_keyboard);;
      mret tt
  end.

(** [profile_view], the handler of [profile:view]. *)
Definition profile_view (cq : Bot.callback_query) : M unit :=
  let user_id := Bot.user_id (Bot.cq_from_user cq) in
  lift (Bot.answer_callback_query (Bot.cq_id cq) None);;
  prof ← lift (Bot.db (Db.get_profile_by_tg user_id));
  match prof with
  | None =>
      send_text user_id ProfileNotFoundShort NoKeyboard;;
      mret tt
  | Some prof => own_profile_card user_id prof
  end.

(** [menu_my_profile], the handler of the caption of the main menu. *)
Definition menu_my_profile (msg : Bot.message) : M unit :=
  let user_id := Bot.user_id (Bot.from_user msg) in
  prof ← lift (Bot.db (Db.get_profile_by_tg user_id));
  match prof with
  | None =>
      lift (Bot.answer msg Bot.ProfileNotFound Bot.main_menu_keyboard);;
      mret tt
  | Some prof => own_profile_card user_id prof
  end.

(** [cmd_myprofile], the handler of [/myprofile]. *)
Definition cmd_myprofile (msg : Bot.message) : M unit :=
  let user_id := Bot.user_id (Bot.from_user msg) in
  prof ← lift (Bot.db (Db.get_profile_by_tg user_id));
  match prof with
  | None =>
      lift (Bot.answer msg Bot.ProfileNotFound Bot.NoMarkup);;
      mret tt
  | Some prof => own_profile_card user_id prof
  end.

(** [profile_edit_callback], the handler of [profile:edit]. *)
Definition profile_edit_callback (cq : Bot.callback_query) : M unit :=
  let user_id := Bot.user_id (Bot.cq_from_user cq) in
  lift (Bot.answer_callback_query (Bot.cq_id cq) None);;
  prof ← lift (Bot.db (Db.get_profile_by_tg user_id));
  match prof with
  | None =>
      lift (Bot.send_message user_id Bot.ProfileNotFound Bot.NoMarkup);;
      mret tt
  | Some prof =>
      prepared ← Eff.try_except
        (lift (Bot.update_data_all user_id (<["editing" := Py.VBool true]> prof));;
         mret true)
        (fun _ =>
           send_text user_id EditPreparationFailed NoKeyboard;;
           mret false);
      if prepared : bool then
        let current_nick := Py.or_ (Py.get prof "nickname" Py.VNone) (Py.VStr "(пусто)") in
        lift (Bot.send_message user_id (Bot.EditNickname current_nick) Bot.NoMarkup);;
        lift (Bot.set_state user_id Bot.Form.nickname)
      else mret tt
  end.

(** [profile_cancel], the handler of [profile:cancel]. *)
Definition profile_cancel (cq : Bot.callback_query) : M unit :=
  lift (Bot.answer_callback_query (Bot.cq_id cq) (Some "Отменено.")).

(** *** Deleting, the first two steps *)

(** [profile_delete_request], the handler of [profile:delete]. *)
Definition profile_delete_request (cq : Bot.callback_query) : M unit :=
  lift (Bot.answer_callback_query (Bot.cq_id cq) None);;
  send_text (Bot.user_id (Bot.cq_from_user cq)) ConfirmDeletion
            (Inline Keys.delete_request_keyboard);;
  mret tt.

(** [profile_delete_cancel], the handler of [profile:delete_cancel]. *)
Definition profile_delete_cancel (cq : Bot.callback_query) : M unit :=
  lift (Bot.answer_callback_query (Bot.cq_id cq) (Some "Удаление отменено."));;
  send_text (Bot.user_id (Bot.cq_from_user cq)) DeletionCancelled NoKeyboard;;
  mret tt.

(** *** Complaints *)

(** Line 288: the owner that the callback data name; [None] where the
    source leaves [owner_id = None]. *)
Definition complained_owner (owner_part : string) : option Z :=
  if negb (String.eqb owner_part "") && Keys.isdigit owner_part
  then Py.int owner_part
  else None.

(** [handle_complain], the handler of the data that start with
    [complain:]; [DEVELOPER_ID_INT] is read from the environment when
    the module is loaded. *)
Definition handle_complain (DEVELOPER_ID_INT : option Z) (cq : Bot.callback_query) : M unit :=
  lift (Bot.answer_callback_query (Bot.cq_id cq) (Some "Жалоба зарегистрирована. Спасибо."));;
  match Keys.splitn ":" (Bot.data cq) 2 with
  | _ :: owner_part :: profile_part :: _ =>
      let reporter := Bot.cq_from_user cq in
      let reporter_info :=
        Bot.full_name reporter ++ " (id=" ++ Py.str (Bot.user_id reporter) ++ ")" in
      let owner_id := complained_owner owner_part in
      info ← (if Bot.opt_truthy owner_id then
                prof ← lift (Bot.db (Db.get_profile_by_tg (default 0 owner_id)));
                match prof with
                | Some prof =>
                    match Py.text_or_empty (Py.get prof "languages" (Py.VStr "")) with
                    | None => Eff.raise Py.AttributeError
                    | Some langs_raw =>
                        mret (ProfileFields prof (Bot.format_language_flags langs_raw))
                    end
                | None => mret (NotInFile (default 0 owner_id))
                end
              else mret (Incomplete profile_part owner_part));
      let dev_msg := Complaint reporter_info owner_part profile_part info in
      (* Add inline delete button for developer convenience *)
      let kb :=
        if negb (String.eqb owner_part "") && Keys.isdigit owner_part
        then [Keys.dev_delete_button owner_part] else [] in
      if Bot.opt_truthy DEVELOPER_ID_INT then
        Eff.try_except
          (send_text (default 0 DEVELOPER_ID_INT) dev_msg
                     (match kb with [] => NoKeyboard | _ => Inline kb end);;
           mret tt)
          (fun _ => mret tt)
      else mret tt
  | _ => mret tt
  end.

(** *** Texts that lead elsewhere *)

(** [process_languages_text_blocked], the handler of a text in
    [Form.languages]. *)
Definition process_languages_text_blocked (msg : Bot.message) : M unit :=
  answer_text msg UseTheButtons NoKeyboard;;
  mret tt.

(** [cmd_search] and [menu_watch_profiles]. *)
Definition cmd_search (msg : Bot.message) : M unit :=
  answer_text msg ChooseServerToBrowse (Inline (Keys.servers_keyboard "browse_server"));;
  mret tt.

Definition menu_watch_profiles (msg : Bot.message) : M unit :=
  answer_text msg ChooseServerToBrowse (Inline (Keys.servers_keyboard "browse_server"));;
  mret tt.

(** *** A letter to the owner *)

(** Lines 627-638 and 653-664: a fresh action bar for a user who has a
    cursor, whose old bar is deleted and whose cursor, the dictionary
    that [view_contexts] holds, is given the new identifier; the menu
    for a user who has none. *)
Definition restore_keyboard (user_id : Z) : M unit :=
  ctx ← lift (Eff.gets (fun w => Bot.view_contexts w !! user_id));
  match ctx with
  | Some ctx =>
      kb_msg ← lift (Bot.send_message user_id Bot.ActionsPrompt Bot.reply_action_keyboard);
      let prev_kb := Bot.keyboard_message_id ctx in
      (if negb (prev_kb =? 0) then lift (Bot.try_delete_message user_id prev_kb)
       else mret tt);;
      lift (Eff.modify (fun w =>
        Bot.set_view_contexts
          (<[user_id := {| Bot.server := Bot.server ctx;
                           Bot.offset := Bot.offset ctx;
                           Bot.total := Bot.total ctx;
                           Bot.owner_id := Bot.owner_id ctx;
                           Bot.profile_id := Bot.profile_id ctx;
                           Bot.keyboard_message_id := Bot.message_id kb_msg;
                           Bot.profile_message_id := Bot.profile_message_id ctx |}]>
             (Bot.view_contexts w)) w))
  | None =>
      lift (Bot.send_message user_id Bot.MenuTitle Bot.main_menu_keyboard);;
      mret tt
  end.

(** The chat that [message_target] names: the handlers store an
    integer there (line 603); for any other true value the send fails
    inside the [try]. *)
Definition chat_of (target_id : Py.value) : option Z :=
  match target_id with
  | Py.VInt z => Some z
  | _ => None
  end.

(** [handle_sending_message], the handler of [Form.sending_message]. *)
Definition handle_sending_message (msg : Bot.message) : M unit :=
  let user_id := Bot.user_id (Bot.from_user msg) in
  let txt := Py.strip (Bot.text msg) in
  data ← lift (Bot.get_data user_id);
  let target_id := Py.get data "message_target" Py.VNone in
  if String.eqb txt "-" then
    answer_text msg SendingCancelled NoKeyboard;;
    lift (Bot.finish user_id);;
    restore_keyboard user_id
  else if negb (Py.truthy target_id) then
    answer_text msg RecipientNotFound NoKeyboard;;
    lift (Bot.finish user_id)
  else
    let sender_name := Bot.liker_name (Bot.from_user msg) in
    Eff.try_except
      (match chat_of target_id with
       | Some chat_id => send_text chat_id (Forwarded sender_name txt) NoKeyboard
       | None => Eff.raise Py.TelegramAPIError
       end;;
       answer_text msg LetterSent NoKeyboard;;
       mret tt)
      (fun _ =>
         answer_text msg LetterNotSent NoKeyboard;;
         mret tt);;
    restore_keyboard user_id;;
    lift (Bot.finish user_id).

End Post.

(** ** Vocabulary of the further properties *)

Module View.

(** The columns of [profiles] that [save_profile] writes from [data]. *)
Definition FIELDS : list string :=
  [ "server"; "nickname"; "uid"; "adventure_rank"; "playstyle"; "languages";
    "platforms"; "playtime"; "bio" ].

(** Whether [tg] has a row in [profiles], and when the first one was
    created. *)
Definition has_profile (tg : Z) (db : Db.database) : bool :=
  existsb (Db.has_tg tg) (Db.profiles db).

Definition created (tg : Z) (db : Db.database) : option string :=
  Db.created_at <$> head (List.filter (Db.has_tg tg) (Db.profiles db)).

(** Whether the last call of [cs] that saved or deleted the profile of
    [tg] saved it; [before] answers for no such call. *)
Fixpoint saved_last (tg : Z) (cs : list Db.call) (before : bool) : bool :=
  match cs with
  | [] => before
  | Db.SaveProfile t _ _ :: cs' => saved_last tg cs' (if t =? tg then true else before)
  | Db.DeleteProfile t :: cs' => saved_last tg cs' (if t =? tg then false else before)
  | Db.AddLike _ _ _ :: cs' => saved_last tg cs' before
  end.

(** The rows of one server in the order of [list_profiles], and the
    whole list as [list_profiles(server, -1, 0)] returns it. *)
Definition ordered (srv : string) (db : Db.database) : list Db.profile_row :=
  Db.order_by_created_at_desc (List.filter (Db.on_server srv) (Db.profiles db)).

Definition whole_list (srv : string) (db : Db.database) : list (gmap string Py.value) :=
  Obs.listing srv (-1) 0 db.

(** The pages of [limit] profiles each, from the first on. *)
Definition pages (srv : string) (limit : positive) (n : nat) (db : Db.database)
  : list (list (gmap string Py.value)) :=
  map (fun i : nat => Obs.listing srv (Z.pos limit) (Z.of_nat i * Z.pos limit) db) (seq 0 n).

(** The row [r] was not created before [r']; the same on the
    dictionaries that the SELECTs return. *)
Definition row_not_older (r r' : Db.profile_row) : Prop :=
  String.leb (Db.created_at r') (Db.created_at r) = true.

(** [d] was not created before [d']. *)
Definition not_older (d d' : gmap string Py.value) : Prop :=
  match d !! "created_at", d' !! "created_at" with
  | Some (Py.VStr t), Some (Py.VStr t') => String.leb t' t = true
  | _, _ => False
  end.

(** The users who like [owner]. *)
Definition likers (owner : Z) (db : Db.database) : gset Z :=
  list_to_set (map Db.viewer_id (List.filter (Db.to_owner owner) (Db.likes db))).

(** The key of [likes]. *)
Definition like_key (l : Db.like_row) : Z * Z := (Db.owner_id l, Db.viewer_id l).

(** What the card of a row shows as its likes: [get_likes_count] of
    the owner, and 0 where [get_owner_id] finds no owner. *)
Definition likes_shown (r : Db.profile_row) (db : Db.database) : Z :=
  if Db.tg_id r =? 0 then 0
  else Z.of_nat (length (List.filter (Db.to_owner (Db.tg_id r)) (Db.likes db))).

(** The card of a row as [send_profile_with_actions] sends it, and the
    action bar under it. *)
Definition card (viewer : Z) (r : Db.profile_row) (ctx : Bot.view_context) (db : Db.database)
  : Bot.sent :=
  Bot.Sent viewer (Bot.profile_message_id ctx)
           (Bot.ProfileCard (Db.row_dict r)
                            (Bot.format_language_flags (default "" (Db.languages r)))
                            (likes_shown r db))
           (Bot.ComplainButton (Bot.owner_id ctx) (Bot.profile_id ctx)).

Definition action_bar (viewer : Z) (ctx : Bot.view_context) : Bot.sent :=
  Bot.Sent viewer (Bot.keyboard_message_id ctx) Bot.ActionsPrompt Bot.reply_action_keyboard.

(** The cursor of [viewer], if there is one, names an action bar that
    was sent: its identifier was given out. *)
Definition keyboard_issued (viewer : Z) (w : Bot.world) : Prop :=
  match Bot.view_contexts w !! viewer with
  | Some ctx => Bot.keyboard_message_id ctx <= Bot.last_message_id w
  | None => True
  end.


(** The messages that [K] singles out and [w] shows, [w'] still
    shows. *)
Definition stays (K : Bot.sent -> Prop) (w w' : Bot.world) : Prop :=
  forall m, K m -> In m (Bot.chat w) -> In m (Bot.chat w').

(** A message whose identifier was given out after [n]. *)
Definition later_than (n : Z) (m : Bot.sent) : Prop := n < Bot.message_id m.

(** The action bar of the cursor [ctx] of [user] is not on display. *)
Definition bar_removed (user : Z) (ctx : Bot.view_context) (w : Bot.world) : Prop :=
  Forall (fun m => Bot.shows user (Bot.keyboard_message_id ctx) m = false) (Bot.chat w).

(** The flags of the codes of [l] that [LANG_EMOJI] knows. *)
Definition flags (l : list string) : list string :=
  omap (fun code => Bot.LANG_EMOJI !! code) l.

(** The handler talked and moved the dialog on, and stored nothing: the
    file, the clock, the cursors, the dialog data and the chats that
    cannot be written to are as they were. *)
Definition talked (w w' : Bot.world) : Prop :=
  Bot.database w' = Bot.database w
  /\ Bot.utcnow w' = Bot.utcnow w
  /\ Bot.view_contexts w' = Bot.view_contexts w
  /\ Bot.fsm_data w' = Bot.fsm_data w
  /\ Bot.unreachable w' = Bot.unreachable w.

(** The answers of a user who edits a profile and keeps every field:
    [dash] at the five questions, [done] at the languages. *)
Definition keep_all (dash : Bot.message) (done : Bot.callback_query) : list Bot.dialog_step :=
  [ Bot.AtNickname dash; Bot.AtUid dash; Bot.AtRank dash; Bot.AtLanguages done;
    Bot.AtPlaytime dash; Bot.AtBio dash ].

(** The cursor [ctx] once its action bar is the message [n]. *)
Definition with_bar (ctx : Bot.view_context) (n : Z) : Bot.view_context :=
  {| Bot.server := Bot.server ctx;
     Bot.offset := Bot.offset ctx;
     Bot.total := Bot.total ctx;
     Bot.owner_id := Bot.owner_id ctx;
     Bot.profile_id := Bot.profile_id ctx;
     Bot.keyboard_message_id := n;
     Bot.profile_message_id := Bot.profile_message_id ctx |}.

(** What [handle_sending_message] appends to the letters for a text
    [txt] meant for [owner], the next identifier being [n]. *)
Definition letters_for (msg : Bot.message) (owner : Z) (n : Z) (b : Bot.world)
  : list Post.letter :=
  let user := Bot.user_id (Bot.from_user msg) in
  let txt := Py.strip (Bot.text msg) in
  if String.eqb txt "-" then [Post.Letter user n Post.SendingCancelled Post.NoKeyboard]
  else if bool_decide (owner ∈ Bot.unreachable b)
       then [Post.Letter user n Post.LetterNotSent Post.NoKeyboard]
       else [Post.Letter owner n (Post.Forwarded (Bot.liker_name (Bot.from_user msg)) txt)
                         Post.NoKeyboard;
             Post.Letter user (n + 1) Post.LetterSent Post.NoKeyboard].



(** The languages that are selected once the buttons of [codes] were
    pressed in order, nothing selected before. *)
Definition pressed (codes : list string) : gset string :=
  foldl (fun selected code => Bot.toggle code selected) ∅ codes.



(** A handler of [Post] that only talked: of [Bot.world], nothing but
    the conversation and the callback answers changed. *)
Definition only_talked (w w' : Post.world) : Prop :=
  Obs.same_state (Post.bot w) (Post.bot w').

(** The handlers of [Post] that neither store nor move the dialog, for
    a message and a callback query. *)
Definition talking_handlers (DEVELOPER_ID_INT : option Z) (msg : Bot.message)
           (cq : Bot.callback_query) : list (Post.M unit) :=
  [ Post.profile_view cq; Post.menu_my_profile msg; Post.cmd_myprofile msg;
    Post.profile_cancel cq; Post.profile_delete_request cq; Post.profile_delete_cancel cq;
    Post.handle_complain DEVELOPER_ID_INT cq; Post.process_languages_text_blocked msg;
    Post.cmd_search msg; Post.menu_watch_profiles msg ].

End View.

(** ** Tactics *)

(** Turn a goal about [Eff.exec m s] into one about [Eff.wp m]. *)
Ltac by_wp :=
  match goal with
  | |- context [Eff.exec ?m ?s] =>
      pattern (Eff.exec m s);
      match goal with
      | |- ?P _ => change (Eff.wp m (fun _ => P) s)
      end;
      cbv beta
  end.

(** Read the fields of a world through the setters around it. *)
Ltac fields :=
  cbn [Bot.database Bot.utcnow Bot.view_contexts Bot.fsm_state Bot.fsm_data Bot.chat
       Bot.last_message_id Bot.unreachable Bot.answered
       Bot.set_database Bot.set_view_contexts Bot.set_fsm_state Bot.set_fsm_data
       Bot.set_chat Bot.set_answered] in *.

(** The same through the two parts of a [Post.world]. *)
Ltac pfields :=
  cbn [Post.bot Post.outbox Post.set_bot] in *; fields.


(** * Properties *)

(** ** The built-ins on examples *)

Section Builtins.

Example int_examples :
  Py.int "55" = Some 55 /\ Py.int " +3 " = Some 3 /\ Py.int "-12" = Some (-12)
  /\ Py.int "1_0" = Some 10 /\ Py.int "007" = Some 7 /\ Py.int "-0" = Some 0
  /\ Py.int "1 0" = None /\ Py.int "+ 5" = None /\ Py.int "_1" = None
  /\ Py.int "1__0" = None /\ Py.int "5+" = None /\ Py.int "" = None
  /\ Py.int "--5" = None /\ Py.int "MSK" = None.
Proof. repeat split; reflexivity. Qed.

Example str_examples :
  Py.str 0 = "0" /\ Py.str 14 = "14" /\ Py.str (-12) = "-12".
Proof. repeat split; reflexivity. Qed.

Example split_examples :
  Py.split "," "a,b,,c" = ["a"; "b"; ""; "c"] /\ Py.split "," "" = [""]
  /\ Py.split "," "," = [""; ""] /\ Py.join "," ["a"; "b"] = "a,b"
  /\ Py.strip "  after work " = "after work"
  /\ Py.split_ws " /delete_profile   42 " = ["/delete_profile"; "42"].
Proof. repeat split; reflexivity. Qed.

Example parsed_offset_examples :
  map Bot.parsed_offset ["0"; "+3"; "-2"; "msk +3"; "MSK-12"; "MSK"; "MSK+"; "1 0"; "15";
                         "after work"; "5+"; ""]
  = [Some 0; Some 3; Some (-2); Some 3; Some (-12); Some 0; Some 0; Some 10; Some 15;
     None; None; None].
Proof. reflexivity. Qed.

Example selected_languages_examples :
  Bot.selected_languages "" = ∅
  /\ Py.sorted (Bot.selected_languages "ru, EN ,,ua") = ["EN"; "RU"; "UA"]
  /\ Py.join "," (Py.sorted (Bot.toggle "BY" (Bot.selected_languages "RU,EN"))) = "BY,EN,RU".
Proof. repeat split; vm_compute; reflexivity. Qed.

Example format_language_flags_examples :
  Bot.format_language_flags "" = ""
  /\ Bot.format_language_flags "ru, EN,xx" = "🇷🇺 🇬🇧 XX".
Proof. split; vm_compute; reflexivity. Qed.

(** Newest first, and rows of one instant in the order of their rowids. *)
Example order_by_examples :
  let row i tg t := Db.ProfileRow i tg (Some "Asia") None None None None None None None None t in
  map Db.tg_id
      (Db.order_by_created_at_desc
         [row 1 10 "2024-05-02"; row 2 11 "2024-05-01"; row 3 12 "2024-05-02";
          row 5 14 "2024-05-02"; row 7 16 "2024-04-30"])
  = [10; 12; 14; 11; 16].
Proof. reflexivity. Qed.

End Builtins.

(** ** The store *)

Section Store.

Implicit Types (db : Db.database) (cs : list Db.call).

Lemma add_like_eq viewer owner created db :
  Db.add_like viewer owner created db =
    if existsb (Db.is_edge owner viewer) (Db.likes db) then (Eff.Return false, db)
    else (Eff.Return true,
          Db.Database (Db.profiles db)
                      (Db.likes db ++ [Db.LikeRow owner viewer created])
                      (Db.sequence db)).
Proof.
  unfold Db.add_like, Eff.try_except, mbind, Eff.M_bind, Db.sql_insert_like; simpl.
  destruct (existsb _ _); reflexivity.
Qed.

Lemma is_edge_refl owner viewer created :
  Db.is_edge owner viewer (Db.LikeRow owner viewer created) = true.
Proof. unfold Db.is_edge; simpl. rewrite !Z.eqb_refl. reflexivity. Qed.

Lemma save_profile_likes tg data now db :
  Db.likes (Eff.exec (Db.save_profile tg data now) db) = Db.likes db.
Proof.
  unfold Eff.exec, Db.save_profile, mbind, Eff.M_bind, Eff.gets; simpl.
  unfold Db.sql_update_profile, Db.sql_insert_profile, Eff.modify.
  destruct (existsb _ _) eqn:E; simpl; [reflexivity|].
  rewrite E. reflexivity.
Qed.

Lemma delete_profile_likes tg db :
  Db.likes (Eff.exec (Db.delete_profile tg) db) = Db.likes db.
Proof. reflexivity. Qed.

(** The answers to one pair over a sequence of calls, from any file. *)
Lemma like_answers_from viewer owner cs db :
  Db.like_answers viewer owner cs db =
    let n := length (List.filter (Obs.is_add_like viewer owner) cs) in
    if existsb (Db.is_edge owner viewer) (Db.likes db) then repeat (Eff.Return false) n
    else take n (Eff.Return true :: repeat (Eff.Return false) n).
Proof.
  revert db. induction cs as [|c cs IH]; intros db.
  - simpl. destruct (existsb _ _); reflexivity.
  - destruct c as [tg data now|tg|v o created].
    + cbn [Db.like_answers Db.run_call List.filter Obs.is_add_like].
      rewrite IH, save_profile_likes. reflexivity.
    + cbn [Db.like_answers Db.run_call List.filter Obs.is_add_like].
      rewrite IH, delete_profile_likes. reflexivity.
    + cbn [Db.like_answers Db.run_call List.filter Obs.is_add_like].
      rewrite add_like_eq.
      destruct (existsb (Db.is_edge o v) (Db.likes db)) eqn:Ev.
      * destruct ((v =? viewer) && (o =? owner)) eqn:Epair.
        -- apply andb_true_iff in Epair as [->%Z.eqb_eq ->%Z.eqb_eq].
           rewrite IH, Ev. reflexivity.
        -- rewrite IH. reflexivity.
      * destruct ((v =? viewer) && (o =? owner)) eqn:Epair.
        -- apply andb_true_iff in Epair as [->%Z.eqb_eq ->%Z.eqb_eq].
           rewrite IH, Ev. cbn [Db.likes length take].
           rewrite existsb_app. cbn [existsb]. rewrite is_edge_refl, orb_true_r.
           cbn [orb]. f_equal.
           generalize (length (List.filter (Obs.is_add_like viewer owner) cs)).
           intros n. induction n as [|n IHn]; [reflexivity|].
           cbn [repeat take]. f_equal. exact IHn.
        -- rewrite IH. cbn [Db.likes].
           rewrite existsb_app. cbn [existsb]. rewrite orb_false_r.
           replace (Db.is_edge owner viewer (Db.LikeRow o v created)) with false; [|].
           ++ rewrite orb_false_r. reflexivity.
           ++ unfold Db.is_edge; simpl. rewrite andb_comm. symmetry. exact Epair.
Qed.

Lemma run_cons c cs db : Db.run (c :: cs) db = Db.run cs (snd (Db.run_call c db)).
Proof. reflexivity. Qed.

Lemma edges_app viewer owner db row :
  Obs.edges viewer owner
    (Db.Database (Db.profiles db) (Db.likes db ++ [row]) (Db.sequence db)) =
  (Obs.edges viewer owner db ++ (if Db.is_edge owner viewer row then [row] else []))%list.
Proof.
  unfold Obs.edges; simpl. rewrite List.filter_app. simpl.
  destruct (Db.is_edge owner viewer row); reflexivity.
Qed.

Lemma existsb_edges viewer owner db :
  existsb (Db.is_edge owner viewer) (Db.likes db) =
    negb (Nat.eqb (length (Obs.edges viewer owner db)) 0).
Proof.
  unfold Obs.edges. induction (Db.likes db) as [|l ls IH]; [reflexivity|].
  simpl. destruct (Db.is_edge owner viewer l); simpl; [reflexivity|exact IH].
Qed.

(** The rows of one pair after a sequence of calls, from any file. *)
Lemma edges_after viewer owner cs db :
  length (Obs.edges viewer owner (Db.run cs db)) =
    (length (Obs.edges viewer owner db) +
     if existsb (Db.is_edge owner viewer) (Db.likes db) then 0
     else Nat.min 1 (length (List.filter (Obs.is_add_like viewer owner) cs)))%nat.
Proof.
  revert db. induction cs as [|c cs IH]; intros db.
  - simpl. destruct (existsb _ _); lia.
  - rewrite run_cons.
    destruct c as [tg data now|tg|v o created];
      cbn [Db.run_call List.filter Obs.is_add_like snd].
    + rewrite IH. unfold Obs.edges. rewrite save_profile_likes. reflexivity.
    + rewrite IH. reflexivity.
    + rewrite add_like_eq.
      destruct (existsb (Db.is_edge o v) (Db.likes db)) eqn:Ev.
      * cbn [snd]. rewrite IH.
        destruct ((v =? viewer) && (o =? owner)) eqn:Epair; [|reflexivity].
        apply andb_true_iff in Epair as [->%Z.eqb_eq ->%Z.eqb_eq].
        rewrite Ev. reflexivity.
      * cbn [snd]. rewrite IH, edges_app.
        cbn [Db.likes]. rewrite existsb_app. cbn [existsb]. rewrite orb_false_r.
        destruct ((v =? viewer) && (o =? owner)) eqn:Epair.
        -- apply andb_true_iff in Epair as [->%Z.eqb_eq ->%Z.eqb_eq].
           rewrite is_edge_refl, orb_true_r, Ev, length_app. simpl. lia.
        -- replace (Db.is_edge owner viewer (Db.LikeRow o v created)) with false.
           ++ rewrite orb_false_r, app_nil_r. reflexivity.
           ++ unfold Db.is_edge; simpl. rewrite andb_comm. symmetry. exact Epair.
Qed.

(** C2. The first [add_like] of a pair answers [True] and adds the row;
    every later one answers [False], raises nothing and adds nothing:
    over any sequence of calls on a fresh file the answers to one pair
    are one [True] followed by [False]s, and the pair has at most one
    row. One call, on any file, answers the negation of [has_liked]
    and leaves the file alone when that is [False]. *)
Theorem add_like_true_once viewer owner cs :
  let n := length (List.filter (Obs.is_add_like viewer owner) cs) in
  Db.like_answers viewer owner cs Db.empty
    = take n (Eff.Return true :: repeat (Eff.Return false) n)
  /\ length (Obs.edges viewer owner (Db.run cs Db.empty)) = Nat.min 1 n
  /\ forall created db,
       exists liked,
         Db.has_liked viewer owner db = (Eff.Return liked, db)
         /\ Db.add_like viewer owner created db =
              (Eff.Return (negb liked),
               if liked then db
               else Db.Database (Db.profiles db)
                                (Db.likes db ++ [Db.LikeRow owner viewer created])
                                (Db.sequence db)).
Proof.
  cbv zeta. split; [|split].
  - rewrite like_answers_from. reflexivity.
  - rewrite edges_after. reflexivity.
  - intros created db. exists (existsb (Db.is_edge owner viewer) (Db.likes db)).
    split; [reflexivity|]. rewrite add_like_eq.
    destruct (existsb _ _); reflexivity.
Qed.

(** On a connection where the pragma is on, deleting an existing
    profile takes the likes it received with it. *)
Lemma cascade_with_foreign_keys tg db :
  existsb (Db.has_tg tg) (Db.profiles db) = true ->
  fst (Db.get_likes_count tg (Eff.exec (Db.sql_delete_profile (Db.Connection true) tg) db))
    = Eff.Return 0.
Proof.
  intros Hex. unfold Eff.exec, Db.sql_delete_profile, Eff.modify, Db.get_likes_count, Eff.gets.
  simpl. rewrite Hex. simpl. do 2 f_equal.
  induction (Db.likes db) as [|l ls IH]; [reflexivity|].
  simpl. destruct (Db.to_owner tg l) eqn:E; simpl; [exact IH|].
  rewrite E. exact IH.
Qed.

(** C1. What the code does where the claim fails: user 2 has a profile
    and a like from user 1; after [delete_profile(2)] the profile is
    gone and [get_likes_count(2)] still answers 1, whether the delete
    came from the owner's confirm button, from the developer's button
    or from the developer's command. *)
Theorem delete_profile_leaves_likes :
  let db := Db.run [Db.SaveProfile 2 ∅ "2024-05-01T10:00:00";
                    Db.AddLike 1 2 "2024-05-02T10:00:00"] Db.empty in
  let w := Bot.World db "2024-05-03T10:00:00" ∅ ∅ ∅ [] 0 ∅ [] in
  let owner := Bot.User 2 None "owner" in
  let developer := Bot.User 9 None "developer" in
  let likes_of_2 (w' : Bot.world) := fst (Db.get_likes_count 2 (Bot.database w')) in
  let profile_of_2 (w' : Bot.world) := fst (Db.get_profile_by_tg 2 (Bot.database w')) in
  fst (Db.get_likes_count 2 db) = Eff.Return 1
  /\ fst (Db.get_profile_by_tg 2 (Eff.exec (Db.delete_profile 2) db)) = Eff.Return None
  /\ fst (Db.get_likes_count 2 (Eff.exec (Db.delete_profile 2) db)) = Eff.Return 1
  /\ (let w' := Eff.exec (Bot.profile_delete_confirm
                            (Bot.CallbackQuery 1 owner "profile:delete_confirm" 1)) w in
      profile_of_2 w' = Eff.Return None /\ likes_of_2 w' = Eff.Return 1)
  /\ (let w' := Eff.exec (Bot.dev_delete_profile_callback (Some 9)
                            (Bot.CallbackQuery 1 developer "dev:delete:2" 1)) w in
      profile_of_2 w' = Eff.Return None /\ likes_of_2 w' = Eff.Return 1)
  /\ (let w' := Eff.exec (Bot.cmd_delete_profile (Some 9)
                            (Bot.Message developer "/delete_profile 2")) w in
      profile_of_2 w' = Eff.Return None /\ likes_of_2 w' = Eff.Return 1).
Proof. vm_compute. repeat split; reflexivity. Qed.

(** *** [save_profile] on an existing profile *)

Section Edit.

Variable f : Db.profile_row -> Db.profile_row.
Hypothesis f_created_at : forall r, Db.created_at (f r) = Db.created_at r.

Lemma insert_desc_map r l :
  Db.insert_desc (f r) (map f l) = map f (Db.insert_desc r l).
Proof.
  induction l as [|x l IH]; [reflexivity|].
  simpl. rewrite !f_created_at.
  destruct (String.leb _ _); simpl; [reflexivity|].
  rewrite IH. reflexivity.
Qed.

Lemma order_by_map l :
  Db.order_by_created_at_desc (map f l) = map f (Db.order_by_created_at_desc l).
Proof.
  induction l as [|x l IH]; [reflexivity|].
  simpl. fold (Db.order_by_created_at_desc (map f l)).
  fold (Db.order_by_created_at_desc l).
  rewrite IH. apply insert_desc_map.
Qed.

End Edit.

Lemma filter_map_commute {A} (p : A -> bool) (f : A -> A) (l : list A) :
  (forall x, In x l -> p (f x) = p x) ->
  List.filter p (map f l) = map f (List.filter p l).
Proof.
  induction l as [|x l IH]; intros Hp; [reflexivity|].
  simpl. rewrite Hp by (left; reflexivity).
  rewrite IH by (intros y Hy; apply Hp; right; exact Hy).
  destruct (p x); reflexivity.
Qed.

Lemma limit_offset_map {A B} (f : A -> B) limit offset (l : list A) :
  Db.limit_offset limit offset (map f l) = map f (Db.limit_offset limit offset l).
Proof.
  unfold Db.limit_offset.
  change (map f l) with (f <$> l).
  rewrite <- fmap_drop. destruct (limit <? 0); [reflexivity|].
  rewrite <- fmap_take. reflexivity.
Qed.

Lemma save_profile_existing tg data now db :
  existsb (Db.has_tg tg) (Db.profiles db) = true ->
  Db.save_profile tg data now db =
    (Eff.Return tt,
     Db.Database (map (fun r => if Db.has_tg tg r then Db.set_fields data r else r)
                      (Db.profiles db))
                 (Db.likes db) (Db.sequence db)).
Proof.
  intros Hex. unfold Db.save_profile, mbind, Eff.M_bind, Eff.gets.
  rewrite Hex. reflexivity.
Qed.

(** On an existing profile whose server the data repeat, every page of
    [list_profiles] lists the same owners before and after. *)
Lemma save_profile_pages tg data now db :
  existsb (Db.has_tg tg) (Db.profiles db) = true ->
  (forall r, In r (Db.profiles db) -> Db.tg_id r = tg ->
             Db.server r = Db.bind_text (Py.get data "server" (Py.VStr ""))) ->
  forall srv limit offset,
    Obs.owners_listed srv limit offset (Eff.exec (Db.save_profile tg data now) db)
    = Obs.owners_listed srv limit offset db.
Proof.
  intros Hex Hsrv srv limit offset. unfold Eff.exec.
  rewrite (save_profile_existing _ _ _ _ Hex). cbn [snd].
  set (f := fun r => if Db.has_tg tg r then Db.set_fields data r else r).
  assert (Hca : forall r, Db.created_at (f r) = Db.created_at r).
  { intros r. unfold f. destruct (Db.has_tg tg r); reflexivity. }
  assert (Htg : forall r, Db.tg_id (f r) = Db.tg_id r).
  { intros r. unfold f. destruct (Db.has_tg tg r); reflexivity. }
  unfold Obs.owners_listed, Obs.listing, Db.list_profiles, Eff.gets.
  cbn [fst Db.profiles].
  rewrite filter_map_commute.
  2:{ intros r Hr. unfold f, Db.has_tg, Db.on_server.
      destruct (Z.eqb_spec (Db.tg_id r) tg) as [E|E]; [|reflexivity].
      rewrite (Hsrv r Hr E). reflexivity. }
  rewrite (order_by_map f Hca), limit_offset_map.
  change (@fmap list _) with (@map) at 1 2.
  rewrite !map_map. apply map_ext. intros r.
  unfold Db.row_dict. cbn [list_to_map foldr].
  rewrite Htg. reflexivity.
Qed.

(** C10. [save_profile] on an owner who has a profile raises nothing,
    rewrites no [id], [tg_id] or [created_at], touches neither the rows
    of other owners nor the likes, and leaves every owner where it
    was in the order of creation, newest first; when the data carry the
    server the profile already has, as they do in the edit dialog, which
    never asks for it, every page [list_profiles] serves lists the same
    owners in the same places. *)
Theorem save_profile_keeps_created_at tg data now db :
  existsb (Db.has_tg tg) (Db.profiles db) = true ->
  let db' := Eff.exec (Db.save_profile tg data now) db in
  fst (Db.save_profile tg data now db) = Eff.Return tt
  /\ Forall2 (Obs.same_identity tg) (Db.profiles db) (Db.profiles db')
  /\ Db.likes db' = Db.likes db
  /\ map Db.tg_id (Db.order_by_created_at_desc (Db.profiles db'))
     = map Db.tg_id (Db.order_by_created_at_desc (Db.profiles db))
  /\ ((forall r, In r (Db.profiles db) -> Db.tg_id r = tg ->
                 Db.server r = Db.bind_text (Py.get data "server" (Py.VStr ""))) ->
      forall srv limit offset,
        Obs.owners_listed srv limit offset db' = Obs.owners_listed srv limit offset db).
Proof.
  intros Hex db'. subst db'. unfold Eff.exec.
  rewrite (save_profile_existing _ _ _ _ Hex). cbn [fst snd Db.profiles Db.likes].
  set (f := fun r => if Db.has_tg tg r then Db.set_fields data r else r).
  assert (Hca : forall r, Db.created_at (f r) = Db.created_at r).
  { intros r. unfold f. destruct (Db.has_tg tg r); reflexivity. }
  assert (Htg : forall r, Db.tg_id (f r) = Db.tg_id r).
  { intros r. unfold f. destruct (Db.has_tg tg r); reflexivity. }
  split; [reflexivity|]. split; [|split; [reflexivity|split]].
  - clear Hex. induction (Db.profiles db) as [|r l IH]; simpl; constructor; [|exact IH].
    unfold Obs.same_identity, f, Db.has_tg.
    destruct (Z.eqb_spec (Db.tg_id r) tg) as [E|E]; simpl; repeat split; congruence.
  - rewrite (order_by_map f Hca), map_map.
    apply map_ext. exact Htg.
  - intros Hsrv srv limit offset.
    pose proof (save_profile_pages tg data now db Hex Hsrv srv limit offset) as H.
    unfold Eff.exec in H. rewrite (save_profile_existing _ _ _ _ Hex) in H. exact H.
Qed.

(** *** The constraint UNIQUE on [tg_id] *)

Lemma existsb_has_tg tg (l : list Db.profile_row) :
  existsb (Db.has_tg tg) l = false -> tg ∉ map Db.tg_id l.
Proof.
  induction l as [|x l IH]; simpl; intros H.
  - apply not_elem_of_nil.
  - apply orb_false_iff in H as [Hx Hl]. apply not_elem_of_cons. split; [|auto].
    unfold Db.has_tg in Hx. apply Z.eqb_neq in Hx. congruence.
Qed.

Lemma filter_tg_unique (p : Db.profile_row -> bool) (l : list Db.profile_row) :
  NoDup (map Db.tg_id l) -> NoDup (map Db.tg_id (List.filter p l)).
Proof.
  induction l as [|x l IH]; simpl; intros H; [exact H|].
  apply NoDup_cons in H as [Hx Hl]. destruct (p x); [|auto].
  simpl. apply NoDup_cons. split; [|auto].
  intros Hin. apply Hx. apply list_elem_of_In, in_map_iff in Hin as (y & Hy & Hin).
  apply list_elem_of_In, in_map_iff. exists y. split; [exact Hy|].
  apply filter_In in Hin. tauto.
Qed.

Lemma run_call_tg_unique c db : Obs.tg_unique db -> Obs.tg_unique (snd (Db.run_call c db)).
Proof.
  unfold Obs.tg_unique. intros H. destruct c as [tg data now|tg|viewer owner created]; simpl.
  - unfold Eff.exec, Db.save_profile, mbind, Eff.M_bind, Eff.gets.
    destruct (existsb (Db.has_tg tg) (Db.profiles db)) eqn:Hex; simpl.
    + rewrite map_map. erewrite map_ext; [exact H|].
      intros r. destruct (Db.has_tg tg r); reflexivity.
    + unfold Db.sql_insert_profile. rewrite Hex. simpl.
      rewrite map_app. simpl. apply NoDup_app. split; [exact H|]. split.
      * intros x Hx Hin. apply list_elem_of_singleton in Hin. subst x.
        revert Hx. apply existsb_has_tg. exact Hex.
      * apply NoDup_singleton.
  - apply filter_tg_unique. exact H.
  - rewrite add_like_eq. destruct (existsb _ _); exact H.
Qed.

(** Every file that the calls of [db.py] build from a fresh one keeps
    [tg_id] unique. *)
Lemma run_tg_unique cs db : Obs.tg_unique db -> Obs.tg_unique (Db.run cs db).
Proof.
  revert db. induction cs as [|c cs IH]; intros db H; [exact H|].
  rewrite run_cons. apply IH, run_call_tg_unique, H.
Qed.

End Store.

(** ** Rules for computations *)

Section Rules.

Context {S : Type}.
Implicit Types (s : S).

Lemma wp_ret {A} (a : A) (Q : Eff.outcome A -> S -> Prop) s :
  Q (Eff.Return a) s -> Eff.wp (mret a) Q s.
Proof. exact (fun H => H). Qed.

Lemma wp_raise {A} e (Q : Eff.outcome A -> S -> Prop) s :
  Q (Eff.Raise e) s -> Eff.wp (Eff.raise e) Q s.
Proof. exact (fun H => H). Qed.

Lemma wp_gets {A} (f : S -> A) (Q : Eff.outcome A -> S -> Prop) s :
  Q (Eff.Return (f s)) s -> Eff.wp (Eff.gets f) Q s.
Proof. exact (fun H => H). Qed.

Lemma wp_modify (f : S -> S) (Q : Eff.outcome unit -> S -> Prop) s :
  Q (Eff.Return tt) (f s) -> Eff.wp (Eff.modify f) Q s.
Proof. exact (fun H => H). Qed.

Lemma wp_bind {A B} (m : Eff.M S A) (k : A -> Eff.M S B) (Q : Eff.outcome B -> S -> Prop) s :
  Eff.wp m (fun r s' => match r with
                        | Eff.Return a => Eff.wp (k a) Q s'
                        | Eff.Raise e => Q (Eff.Raise e) s'
                        end) s ->
  Eff.wp (m ≫= k) Q s.
Proof.
  unfold Eff.wp, mbind, Eff.M_bind. destruct (m s) as [[a|e] s']; simpl; auto.
Qed.

Lemma wp_try_except {A} (m : Eff.M S A) (h : Py.exn -> Eff.M S A)
      (Q : Eff.outcome A -> S -> Prop) s :
  Eff.wp m (fun r s' => match r with
                        | Eff.Return a => Q (Eff.Return a) s'
                        | Eff.Raise e => Eff.wp (h e) Q s'
                        end) s ->
  Eff.wp (Eff.try_except m h) Q s.
Proof.
  unfold Eff.wp, Eff.try_except. destruct (m s) as [[a|e] s']; simpl; auto.
Qed.

Lemma wp_mono {A} (m : Eff.M S A) (Q Q' : Eff.outcome A -> S -> Prop) s :
  (forall r s', Q r s' -> Q' r s') -> Eff.wp m Q s -> Eff.wp m Q' s.
Proof. unfold Eff.wp. auto. Qed.

Lemma wp_exec {A} (m : Eff.M S A) (P : S -> Prop) s :
  Eff.wp m (fun _ s' => P s') s -> P (Eff.exec m s).
Proof. exact (fun H => H). Qed.

Lemma wp_intro {A} (m : Eff.M S A) (Q : Eff.outcome A -> S -> Prop) s :
  Q (fst (m s)) (snd (m s)) -> Eff.wp m Q s.
Proof. exact (fun H => H). Qed.


Lemma wp_zoom {T A} (proj : T -> S) (inj : S -> T -> T) (m : Eff.M S A)
      (Q : Eff.outcome A -> T -> Prop) (t : T) :
  Eff.wp m (fun r s' => Q r (inj s' t)) (proj t) -> Eff.wp (Eff.zoom proj inj m) Q t.
Proof. unfold Eff.wp, Eff.zoom. destruct (m (proj t)); simpl; auto. Qed.

End Rules.

Section Preservation.

Context {S : Type} (R : S -> S -> Prop) `{!Reflexive R} `{!Transitive R}.

Lemma preserves_ret {A} (a : A) : Eff.preserves R (mret a).
Proof. intros s. apply wp_ret. reflexivity. Qed.

Lemma preserves_raise {A} e : Eff.preserves R (Eff.raise e : Eff.M S A).
Proof. intros s. apply wp_raise. reflexivity. Qed.

Lemma preserves_gets {A} (f : S -> A) : Eff.preserves R (Eff.gets f).
Proof. intros s. apply wp_gets. reflexivity. Qed.

Lemma preserves_modify (f : S -> S) : (forall s, R s (f s)) -> Eff.preserves R (Eff.modify f).
Proof. intros H s. apply wp_modify. apply H. Qed.

Lemma preserves_bind {A B} (m : Eff.M S A) (k : A -> Eff.M S B) :
  Eff.preserves R m -> (forall a, Eff.preserves R (k a)) -> Eff.preserves R (m ≫= k).
Proof.
  intros Hm Hk s. apply wp_bind. eapply wp_mono; [|apply Hm].
  intros [a|e] s' Hs; [|exact Hs].
  eapply wp_mono; [|apply Hk]. intros r s'' Hs'. cbv beta in Hs'.
  etransitivity; eassumption.
Qed.

Lemma preserves_try_except {A} (m : Eff.M S A) (h : Py.exn -> Eff.M S A) :
  Eff.preserves R m -> (forall e, Eff.preserves R (h e)) -> Eff.preserves R (Eff.try_except m h).
Proof.
  intros Hm Hh s. apply wp_try_except. eapply wp_mono; [|apply Hm].
  intros [a|e] s' Hs; [exact Hs|].
  eapply wp_mono; [|apply Hh]. intros r s'' Hs'. cbv beta in Hs'.
  etransitivity; eassumption.
Qed.

Lemma preserves_exec {A} (m : Eff.M S A) s : Eff.preserves R m -> R s (Eff.exec m s).
Proof. intros H. apply (H s). Qed.

End Preservation.


(** ** The transport and the dialog storage *)

Section Primitives.

Implicit Types (w : Bot.world).

Lemma set_chat_same w : Bot.set_chat (Bot.chat w) (Bot.last_message_id w) w = w.
Proof. destruct w; reflexivity. Qed.

Lemma same_state_refl w : Obs.same_state w w.
Proof. repeat split. Qed.

Lemma same_state_trans w1 w2 w3 :
  Obs.same_state w1 w2 -> Obs.same_state w2 w3 -> Obs.same_state w1 w3.
Proof.
  unfold Obs.same_state. intros (?&?&?&?&?&?) (?&?&?&?&?&?).
  repeat split; congruence.
Qed.

Lemma same_state_set_chat w c n : Obs.same_state w (Bot.set_chat c n w).
Proof. repeat split. Qed.

Lemma same_state_set_answered w a : Obs.same_state w (Bot.set_answered a w).
Proof. repeat split. Qed.

(** A send either raises on an unreachable chat, leaving the world as
    it is, or appends the message under a fresh identifier. *)
Lemma wp_send_message chat_id body kb (Q : Eff.outcome Bot.sent -> Bot.world -> Prop) w :
  (chat_id ∈ Bot.unreachable w -> Q (Eff.Raise Py.TelegramAPIError) w) ->
  (chat_id ∉ Bot.unreachable w ->
   let m := Bot.Sent chat_id (Bot.last_message_id w + 1) body kb in
   Q (Eff.Return m) (Bot.set_chat (Bot.chat w ++ [m]) (Bot.last_message_id w + 1) w)) ->
  Eff.wp (Bot.send_message chat_id body kb) Q w.
Proof.
  intros Hbad Hok. unfold Eff.wp, Bot.send_message.
  destruct (bool_decide_reflect (chat_id ∈ Bot.unreachable w)); simpl; auto.
Qed.

(** Whatever it does, a send changes nothing but the conversation. *)
Lemma wp_send_message_any chat_id body kb (Q : Eff.outcome Bot.sent -> Bot.world -> Prop) w :
  (forall r c n, Q r (Bot.set_chat c n w)) ->
  Eff.wp (Bot.send_message chat_id body kb) Q w.
Proof.
  intros H. apply wp_send_message; intros _.
  - rewrite <- (set_chat_same w). apply H.
  - apply H.
Qed.

Lemma wp_try_delete_message chat_id mid (Q : Eff.outcome unit -> Bot.world -> Prop) w :
  (forall c, Q (Eff.Return tt) (Bot.set_chat c (Bot.last_message_id w) w)) ->
  Eff.wp (Bot.try_delete_message chat_id mid) Q w.
Proof.
  intros H. unfold Eff.wp, Bot.try_delete_message, Eff.try_except, Bot.delete_message.
  destruct (existsb _ _); simpl; [apply H|].
  rewrite <- (set_chat_same w). apply H.
Qed.

Lemma wp_edit_message_text chat_id mid body kb (Q : Eff.outcome unit -> Bot.world -> Prop) w :
  (forall r c, Q r (Bot.set_chat c (Bot.last_message_id w) w)) ->
  Eff.wp (Bot.edit_message_text chat_id mid body kb) Q w.
Proof.
  intros H. unfold Eff.wp, Bot.edit_message_text.
  destruct (existsb _ _); simpl; [apply H|].
  rewrite <- (set_chat_same w). apply H.
Qed.

Lemma wp_db {A} (m : Eff.M Db.database A) (Q : Eff.outcome A -> Bot.world -> Prop) w :
  Eff.wp m (fun r d => Q r (Bot.set_database d w)) (Bot.database w) ->
  Eff.wp (Bot.db m) Q w.
Proof. apply wp_zoom. Qed.

End Primitives.

(** ** The dialog *)

Section Dialog.

Implicit Types (w : Bot.world) (msg : Bot.message).


(** A handler that answers [n] and returns has turned the input down. *)
Lemma wp_reject msg n (w : Bot.world) :
  Eff.wp (Bot.answer msg n Bot.NoMarkup;; mret tt)
         (fun _ w' => Obs.reprompted (Bot.user_id (Bot.from_user msg)) n w w') w.
Proof.
  apply wp_bind. unfold Bot.answer. apply wp_send_message.
  - intros Hin. split; [apply same_state_refl|]. intros Hout. contradiction.
  - intros _. cbv zeta. apply wp_ret. split; [apply same_state_set_chat|].
    intros _. reflexivity.
Qed.








(** *** Strings: [split], [join], [strip], [upper] *)

Lemma split_without c x : Obs.occurs c x = false -> Py.split c x = [x].
Proof.
  induction x as [|d x IH]; [reflexivity|].
  simpl. intros H. apply orb_false_iff in H as [Hd Hx].
  rewrite Hd, (IH Hx). reflexivity.
Qed.

Lemma split_append c x rest :
  Obs.occurs c x = false ->
  Py.split c (x ++ String c rest) = x :: Py.split c rest.
Proof.
  induction x as [|d x IH]; simpl; intros H.
  - rewrite Ascii.eqb_refl. reflexivity.
  - apply orb_false_iff in H as [Hd Hx]. rewrite Hd, (IH Hx). reflexivity.
Qed.

Lemma split_join c (l : list string) :
  l <> [] -> Forall (fun x => Obs.occurs c x = false) l ->
  Py.split c (Py.join (String c "") l) = l.
Proof.
  intros Hne Hall. induction Hall as [|x l Hx Hl IH]; [contradiction|].
  destruct l as [|y l].
  - simpl. apply split_without. exact Hx.
  - change (Py.join (String c "") (x :: y :: l))
      with (x ++ String c (Py.join (String c "") (y :: l))).
    rewrite (split_append _ _ _ Hx), IH by discriminate. reflexivity.
Qed.

Lemma split_pieces c s p : In p (Py.split c s) -> Obs.occurs c p = false.
Proof.
  revert p. induction s as [|d s IH]; simpl; intros p Hp.
  - destruct Hp as [<-|[]]. reflexivity.
  - destruct (Ascii.eqb d c) eqn:Hd.
    + destruct Hp as [<-|Hp]; [reflexivity|]. apply IH. exact Hp.
    + destruct (Py.split c s) as [|q qs] eqn:Hs.
      * destruct Hp as [<-|[]]. simpl. rewrite Hd. reflexivity.
      * destruct Hp as [<-|Hp].
        -- simpl. rewrite Hd. apply IH. left. reflexivity.
        -- apply IH. right. exact Hp.
Qed.

Lemma occurs_lstrip sp c s :
  Obs.occurs c s = false -> Obs.occurs c (Py.lstrip_with sp s) = false.
Proof.
  induction s as [|d s IH]; [reflexivity|].
  intros H. simpl. destruct (sp d); [|exact H].
  apply IH. simpl in H. apply orb_false_iff in H as [_ H]. exact H.
Qed.

Lemma occurs_rstrip sp c s :
  Obs.occurs c s = false -> Obs.occurs c (Py.rstrip_with sp s) = false.
Proof.
  induction s as [|d s IH]; [reflexivity|].
  intros H. simpl in H. apply orb_false_iff in H as [Hd Hs].
  simpl. specialize (IH Hs).
  destruct (Py.rstrip_with sp s) as [|e r].
  - destruct (sp d); [reflexivity|]. simpl. rewrite Hd. reflexivity.
  - simpl in *. rewrite Hd. exact IH.
Qed.

Lemma upper_char_comma d : Ascii.eqb (Py.upper_char d) "," = Ascii.eqb d ",".
Proof. destruct d as [[] [] [] [] [] [] [] []]; reflexivity. Qed.

Lemma upper_char_space d : Py.isspace (Py.upper_char d) = Py.isspace d.
Proof. destruct d as [[] [] [] [] [] [] [] []]; reflexivity. Qed.

Lemma upper_char_twice d : Py.upper_char (Py.upper_char d) = Py.upper_char d.
Proof. destruct d as [[] [] [] [] [] [] [] []]; reflexivity. Qed.

Lemma occurs_upper s : Obs.occurs "," (Py.upper s) = Obs.occurs "," s.
Proof.
  induction s as [|d s IH]; [reflexivity|].
  simpl. rewrite upper_char_comma, IH. reflexivity.
Qed.

Lemma upper_twice s : Py.upper (Py.upper s) = Py.upper s.
Proof.
  induction s as [|d s IH]; [reflexivity|].
  simpl. rewrite upper_char_twice, IH. reflexivity.
Qed.

Lemma upper_empty s : Py.upper s = "" -> s = "".
Proof. destruct s; [reflexivity|discriminate]. Qed.

Lemma lstrip_upper s :
  Py.lstrip_with Py.isspace (Py.upper s) = Py.upper (Py.lstrip_with Py.isspace s).
Proof.
  induction s as [|d s IH]; [reflexivity|].
  simpl. rewrite upper_char_space. destruct (Py.isspace d); [exact IH|reflexivity].
Qed.

Lemma rstrip_upper s :
  Py.rstrip_with Py.isspace (Py.upper s) = Py.upper (Py.rstrip_with Py.isspace s).
Proof.
  induction s as [|d s IH]; [reflexivity|].
  simpl. rewrite IH, upper_char_space.
  destruct (Py.rstrip_with Py.isspace s); simpl.
  - destruct (Py.isspace d); reflexivity.
  - reflexivity.
Qed.

Lemma strip_upper s : Py.strip (Py.upper s) = Py.upper (Py.strip s).
Proof. unfold Py.strip. rewrite lstrip_upper, rstrip_upper. reflexivity. Qed.

Lemma lstrip_flush s : Obs.flush_left (Py.lstrip_with Py.isspace s).
Proof.
  induction s as [|d s IH]; [exact I|].
  simpl. destruct (Py.isspace d) eqn:Hd; [exact IH|exact Hd].
Qed.

Lemma lstrip_of_flush s : Obs.flush_left s -> Py.lstrip_with Py.isspace s = s.
Proof. destruct s as [|d s]; [reflexivity|]. simpl. intros ->. reflexivity. Qed.

Lemma rstrip_flush s : Obs.flush_left s -> Obs.flush_left (Py.rstrip_with Py.isspace s).
Proof.
  destruct s as [|d s]; [intros _; exact I|].
  simpl. intros Hd. destruct (Py.rstrip_with Py.isspace s).
  - rewrite Hd. exact Hd.
  - exact Hd.
Qed.

Lemma rstrip_twice s :
  Py.rstrip_with Py.isspace (Py.rstrip_with Py.isspace s) = Py.rstrip_with Py.isspace s.
Proof.
  induction s as [|d s IH]; [reflexivity|].
  simpl. destruct (Py.rstrip_with Py.isspace s) as [|e r] eqn:Hr.
  - destruct (Py.isspace d) eqn:Hd; [reflexivity|]. simpl. rewrite Hd. reflexivity.
  - cbn [Py.rstrip_with]. cbn [Py.rstrip_with] in IH. rewrite IH. reflexivity.
Qed.

Lemma strip_twice s : Py.strip (Py.strip s) = Py.strip s.
Proof.
  unfold Py.strip.
  rewrite (lstrip_of_flush _ (rstrip_flush _ (lstrip_flush s))).
  apply rstrip_twice.
Qed.

(** *** The language set *)

Lemma selected_join (l : list string) :
  Forall Obs.canonical l -> Bot.selected_languages (Py.join "," l) = list_to_set l.
Proof.
  intros Hall. unfold Bot.selected_languages.
  destruct l as [|x l]; [reflexivity|].
  rewrite split_join.
  - f_equal. induction Hall as [|y l' (Hne & _ & Hs & Hu) _ IH]; [reflexivity|].
    simpl. rewrite Hs. destruct (String.eqb_spec y "") as [E|_]; [contradiction|].
    simpl. rewrite Hs, Hu, IH. reflexivity.
  - discriminate.
  - eapply Forall_impl; [exact Hall|]. intros y (_ & H & _). exact H.
Qed.

Lemma selected_canonical raw x : x ∈ Bot.selected_languages raw -> Obs.canonical x.
Proof.
  unfold Bot.selected_languages. rewrite elem_of_list_to_set, list_elem_of_In, in_map_iff.
  intros (p & <- & Hp). apply filter_In in Hp as [Hp Hne].
  apply negb_true_iff in Hne. apply String.eqb_neq in Hne.
  pose proof (split_pieces _ _ _ Hp) as Hc.
  repeat split.
  - intros H. apply upper_empty in H. contradiction.
  - rewrite occurs_upper. unfold Py.strip. apply occurs_rstrip, occurs_lstrip. exact Hc.
  - rewrite strip_upper, strip_twice. reflexivity.
  - apply upper_twice.
Qed.

Lemma codes_canonical code : code ∈ Bot.codes -> Obs.canonical code.
Proof.
  unfold Bot.codes. rewrite elem_of_list_to_set, list_elem_of_In.
  simpl. intros H.
  repeat (destruct H as [<-|H]; [repeat split; discriminate || reflexivity|]).
  destruct H.
Qed.

Lemma toggle_canonical code (S : gset string) :
  Obs.canonical code -> (forall x, x ∈ S -> Obs.canonical x) ->
  forall x, x ∈ Bot.toggle code S -> Obs.canonical x.
Proof.
  intros Hc HS x. unfold Bot.toggle. case_bool_decide.
  - rewrite elem_of_difference. intros [Hx _]. auto.
  - rewrite elem_of_union, elem_of_singleton. intros [Hx| ->]; auto.
Qed.

Lemma toggle_toggle code (S : gset string) : Bot.toggle code (Bot.toggle code S) = S.
Proof.
  unfold Bot.toggle. destruct (bool_decide_reflect (code ∈ S)) as [Hin|Hout].
  - rewrite bool_decide_eq_false_2.
    2:{ rewrite elem_of_difference, elem_of_singleton. tauto. }
    apply set_eq. intros x. rewrite elem_of_union, elem_of_difference, elem_of_singleton.
    destruct (decide (x = code)) as [->|Hne]; tauto.
  - rewrite bool_decide_eq_true_2.
    2:{ rewrite elem_of_union, elem_of_singleton. tauto. }
    apply set_eq. intros x. rewrite elem_of_difference, elem_of_union, elem_of_singleton.
    destruct (decide (x = code)) as [->|Hne]; tauto.
Qed.

Lemma sorted_set (S : gset string) : list_to_set (Py.sorted S) = S.
Proof.
  unfold Py.sorted. apply set_eq. intros x.
  rewrite elem_of_list_to_set, merge_sort_Permutation, elem_of_elements. reflexivity.
Qed.

Lemma sorted_canonical (S : gset string) :
  (forall x, x ∈ S -> Obs.canonical x) -> Forall Obs.canonical (Py.sorted S).
Proof.
  intros H. apply Forall_forall. intros x Hx. apply H.
  rewrite <- (sorted_set S), elem_of_list_to_set. exact Hx.
Qed.

Lemma text_or_empty_str s : Py.text_or_empty (Py.VStr s) = Some s.
Proof.
  unfold Py.text_or_empty, Py.or_, Py.truthy.
  destruct (String.eqb_spec s "") as [->|_]; reflexivity.
Qed.

(** One press of a language button: the set that the next press, or the
    next step, reads back is the old one with the code flipped. *)
Lemma toggle_once q mid u code w (S : gset string) :
  code ∈ Bot.codes ->
  Obs.working_set w (Bot.user_id u) = Some S ->
  Obs.working_set
    (Eff.exec (Bot.process_lang_toggle (Bot.CallbackQuery q u ("lang:" ++ code) mid)) w)
    (Bot.user_id u)
  = Some (Bot.toggle code S).
Proof.
  intros Hcode HS. unfold Obs.working_set in HS.
  destruct (Py.text_or_empty _) as [raw|] eqn:Hraw; [|discriminate].
  injection HS as <-.
  by_wp. unfold Bot.process_lang_toggle.
  change (Py.after_first ":" (Bot.data (Bot.CallbackQuery q u ("lang:" ++ code) mid)))
    with (Some code).
  cbn [Bot.cq_from_user Bot.cq_id Bot.cq_message_id].
  apply wp_bind, wp_gets. rewrite Hraw.
  rewrite (bool_decide_eq_true_2 _ Hcode).
  assert (Hws : forall w', Bot.fsm_data w' =
                 <[Bot.user_id u :=
                     <["languages" := Py.VStr (Py.join ","
                         (Py.sorted (Bot.toggle code (Bot.selected_languages raw))))]>
                       (default ∅ (Bot.fsm_data w !! Bot.user_id u))]> (Bot.fsm_data w) ->
               Obs.working_set w' (Bot.user_id u)
               = Some (Bot.toggle code (Bot.selected_languages raw))).
  { intros w' Hw'. unfold Obs.working_set. rewrite Hw'.
    rewrite lookup_insert_eq. cbn [default from_option Datatypes.id]. unfold Py.get.
    rewrite lookup_insert_eq, text_or_empty_str. cbn [fmap option_fmap option_map].
    f_equal. rewrite selected_join.
    - apply sorted_set.
    - apply sorted_canonical, toggle_canonical.
      + apply codes_canonical, Hcode.
      + intros x. apply selected_canonical. }
  apply wp_bind. unfold Bot.update_data. apply wp_modify.
  apply wp_bind, wp_try_except, wp_edit_message_text.
  intros [[]|e] c.
  - unfold Bot.answer_callback_query. apply wp_modify. apply Hws. reflexivity.
  - apply wp_bind. unfold Bot.answer_callback_query at 1. apply wp_modify.
    apply wp_bind, wp_send_message_any. intros [m|e'] c' n.
    + apply wp_ret. unfold Bot.answer_callback_query. apply wp_modify.
      apply Hws. reflexivity.
    + apply Hws. reflexivity.
Qed.

(** C6. Pressing the button of a catalogue code twice gives back the set
    of selected languages that was there before the first press. *)
Theorem toggle_twice q1 mid1 q2 mid2 u code w (S : gset string) :
  code ∈ Bot.codes ->
  Obs.working_set w (Bot.user_id u) = Some S ->
  let press1 := Bot.CallbackQuery q1 u ("lang:" ++ code) mid1 in
  let press2 := Bot.CallbackQuery q2 u ("lang:" ++ code) mid2 in
  let w1 := Eff.exec (Bot.process_lang_toggle press1) w in
  let w2 := Eff.exec (Bot.process_lang_toggle press2) w1 in
  Obs.working_set w1 (Bot.user_id u) = Some (Bot.toggle code S)
  /\ Obs.working_set w2 (Bot.user_id u) = Some S.
Proof.
  intros Hcode HS press1 press2 w1 w2.
  assert (H1 : Obs.working_set w1 (Bot.user_id u) = Some (Bot.toggle code S)).
  { apply toggle_once; assumption. }
  split; [exact H1|].
  etransitivity; [exact (toggle_once q2 mid2 u code w1 _ Hcode H1)|].
  f_equal. apply toggle_toggle.
Qed.

Lemma toggle_twice_witness :
  let u := Bot.User 5 None "Aether" in
  let w := Obs.choosing_languages in
  let w1 := Eff.exec (Bot.process_lang_toggle (Bot.CallbackQuery 1 u "lang:RU" 7)) w in
  let w2 := Eff.exec (Bot.process_lang_toggle (Bot.CallbackQuery 2 u "lang:RU" 7)) w1 in
  "RU" ∈ Bot.codes
  /\ Obs.working_set w 5 = Some (Bot.selected_languages "en, ru")
  /\ Obs.working_set w1 5 = Some (Bot.toggle "RU" (Bot.selected_languages "en, ru"))
  /\ Obs.working_set w2 5 = Some (Bot.selected_languages "en, ru").
Proof.
  assert (Hcode : "RU" ∈ Bot.codes).
  { apply elem_of_list_to_set. simpl. left. }
  assert (Hset : Obs.working_set Obs.choosing_languages 5
                 = Some (Bot.selected_languages "en, ru")).
  { reflexivity. }
  split; [exact Hcode|]. split; [exact Hset|].
  exact (toggle_twice 1 7 2 7 (Bot.User 5 None "Aether") "RU" Obs.choosing_languages
                      (Bot.selected_languages "en, ru") Hcode Hset).
Defined.

End Dialog.

(** ** Browsing *)


Section Browsing.

Implicit Types (w : Bot.world) (msg : Bot.message) (ctx : Bot.view_context).

Lemma insert_desc_length r l : length (Db.insert_desc r l) = S (length l).
Proof.
  induction l as [|x l IH]; [reflexivity|].
  simpl. destruct (String.leb _ _); simpl; [reflexivity|]. rewrite IH. reflexivity.
Qed.

Lemma order_by_length l : length (Db.order_by_created_at_desc l) = length l.
Proof.
  induction l as [|x l IH]; [reflexivity|].
  simpl. fold (Db.order_by_created_at_desc l). rewrite insert_desc_length, IH. reflexivity.
Qed.

Lemma limit_offset_one {A} (l : list A) offset :
  0 <= offset < Z.of_nat (length l) -> Db.limit_offset 1 offset l <> [].
Proof.
  intros Hoff. unfold Db.limit_offset. cbn [Z.ltb Z.compare].
  change (Z.to_nat 1) with 1%nat.
  destruct (drop (Z.to_nat offset) l) as [|x r] eqn:Hd; [|discriminate].
  apply (f_equal length) in Hd. rewrite length_drop in Hd. simpl in Hd. lia.
Qed.

Lemma clamp_eq offset total :
  0 < total ->
  (if (if offset <? 0 then 0 else offset) >=? total then total - 1
   else if offset <? 0 then 0 else offset) = Obs.clamp offset total.
Proof.
  intros Ht. unfold Obs.clamp.
  destruct (Z.ltb_spec offset 0); rewrite Z.geb_leb.
  - destruct (Z.leb_spec total 0); lia.
  - destruct (Z.leb_spec total offset); lia.
Qed.

Lemma frame_refl w : Obs.frame w w.
Proof. repeat split. Qed.

Lemma count_nonneg server w : 0 <= Obs.count server w.
Proof. unfold Obs.count. lia. Qed.

(** Whatever the transport does, [send_profile_with_actions] leaves the
    cursors alone or renders a profile at the clamped offset. *)
Lemma render_any viewer server offset w :
  Eff.wp (Bot.send_profile_with_actions viewer server offset)
    (fun _ w' =>
       Obs.frame w w'
       /\ (Bot.view_contexts w' = Bot.view_contexts w
           \/ (0 < Obs.count server w /\ Obs.rendered viewer server offset w w'))) w.
Proof.
  unfold Bot.send_profile_with_actions.
  apply wp_bind, wp_db, wp_gets. fields. fold (Obs.count server w).
  pose proof (count_nonneg server w) as Hc.
  destruct (Z.eqb_spec (Obs.count server w) 0) as [Hz|Hnz].
  - apply wp_bind, wp_send_message_any. intros [m|e] c n.
    + apply wp_bind, wp_send_message_any. intros [m'|e'] c' n'.
      * apply wp_ret. fields. split; [repeat split|left; reflexivity].
      * fields. split; [repeat split|left; reflexivity].
    + fields. split; [repeat split|left; reflexivity].
  - cbv zeta. rewrite clamp_eq by lia.
    apply wp_bind, wp_db, wp_gets. fields.
    destruct (_ <$> _) as [|prof rest].
    + apply wp_bind, wp_send_message_any. intros [m|e] c n.
      * apply wp_ret. fields. split; [repeat split|left; reflexivity].
      * fields. split; [repeat split|left; reflexivity].
    + apply wp_bind.
      apply (wp_mono _ (fun r w1 => w1 = Bot.set_database (Bot.database w) w
                                     /\ exists n, r = Eff.Return n)).
      2:{ destruct (Bot.opt_truthy _).
          - apply wp_db, wp_gets. fields. split; [reflexivity|eauto].
          - apply wp_ret. split; [destruct w; reflexivity|eauto]. }
      intros r w1 [-> [like_num ->]].
      destruct (Py.text_or_empty _) as [langs_raw|].
      2:{ apply wp_raise. fields. split; [repeat split|left; reflexivity]. }
      apply wp_bind, wp_send_message_any. intros [profile_msg|e] c n.
      2:{ fields. split; [repeat split|left; reflexivity]. }
      apply wp_bind, wp_gets. fields.
      apply wp_bind, wp_send_message_any. intros [kb_msg|e] c' n'.
      2:{ fields. split; [repeat split|left; reflexivity]. }
      apply wp_bind.
      apply (wp_mono _ (fun r w1 => exists c'', r = Eff.Return tt /\
                                      w1 = Bot.set_chat c'' n' (Bot.set_database (Bot.database w) w))).
      2:{ destruct (Bot.opt_truthy _).
          - apply wp_try_delete_message. intros c''. fields. eauto.
          - apply wp_ret. fields. eauto. }
      intros r w1 (c'' & -> & ->).
      apply wp_modify. fields. split; [repeat split|right].
      split; [lia|]. eexists. repeat split.
Qed.



(** C9. A viewer who holds a cursor and picks a server without
    profiles is told so and shown the menu; the handler returns without
    touching [view_contexts], so the cursor is the one the next action
    will find. *)
Theorem empty_server_keeps_cursor q mid u server w ctx :
  let viewer := Bot.user_id u in
  let w' := Eff.exec (Bot.process_browse_server
                        (Bot.CallbackQuery q u ("browse_server:" ++ server) mid)) w in
  Db.count_profiles server (Bot.database w) = (Eff.Return 0, Bot.database w) ->
  Bot.view_contexts w !! viewer = Some ctx ->
  Obs.same_state w w'
  /\ Bot.view_contexts w' !! viewer = Some ctx
  /\ (viewer ∉ Bot.unreachable w ->
      Bot.chat w' =
        (Bot.chat w ++
         [ Bot.Sent viewer (Bot.last_message_id w + 1) (Bot.NoProfilesOnServer server)
                    Bot.NoMarkup;
           Bot.Sent viewer (Bot.last_message_id w + 1 + 1) Bot.MenuTitle
                    Bot.main_menu_keyboard ])%list).
Proof.
  intros viewer w' Hcount Hctx. subst w'.
  injection Hcount as Hcount.
  by_wp. unfold Bot.process_browse_server.
  change (Py.after_first ":" (Bot.data (Bot.CallbackQuery q u ("browse_server:" ++ server) mid)))
    with (Some server).
  cbn [Bot.cq_from_user Bot.cq_id]. fold viewer.
  apply wp_bind. unfold Bot.answer_callback_query. apply wp_modify.
  unfold Bot.send_profile_with_actions.
  apply wp_bind, wp_db, wp_gets. fields. rewrite Hcount. cbn [Z.eqb].
  apply wp_bind, wp_send_message; fields.
  - intros Hin. split; [repeat split|]. split; [exact Hctx|].
    intros Hout. contradiction.
  - intros Hout. cbv zeta.
    apply wp_bind, wp_send_message; fields; [contradiction|intros _; cbv zeta].
    apply wp_ret. fields. split; [repeat split|]. split; [exact Hctx|].
    intros _. rewrite <- app_assoc. reflexivity.
Qed.

(** *** The actions *)

Lemma caption_facts :
  String.eqb Bot.LIKE Bot.LIKE = true
  /\ String.eqb Bot.DISLIKE Bot.LIKE = false
  /\ String.eqb Bot.DISLIKE Bot.DISLIKE = true
  /\ String.eqb Bot.LETTER Bot.LIKE = false
  /\ String.eqb Bot.LETTER Bot.DISLIKE = false
  /\ String.eqb Bot.LETTER Bot.LETTER = true.
Proof. vm_compute. repeat split. Qed.

Lemma rendered_in_range viewer server offset w w' :
  0 < Obs.count server w -> Obs.rendered viewer server offset w w' ->
  exists ctx, Bot.view_contexts w' = <[viewer := ctx]> (Bot.view_contexts w)
              /\ Obs.cursor_in_range ctx.
Proof.
  intros Hpos (ctx & Hvc & _ & Ht & Ho). exists ctx. split; [exact Hvc|].
  unfold Obs.cursor_in_range. rewrite Ht, Ho. unfold Obs.clamp. lia.
Qed.

(** The closing block pops the cursor, whatever the transport does. *)
Lemma close_session_pops user ctx closing w :
  Eff.wp (Bot.close_session user ctx closing)
    (fun _ w' => Obs.frame w w'
                 /\ Bot.view_contexts w' = delete user (Bot.view_contexts w)) w.
Proof.
  unfold Bot.close_session. cbv zeta.
  apply wp_bind.
  apply (wp_mono _ (fun r w1 => exists c, r = Eff.Return tt
                                 /\ w1 = Bot.set_chat c (Bot.last_message_id w) w)).
  2:{ destruct (negb _).
      - apply wp_try_delete_message. intros c. eauto.
      - apply wp_ret. exists (Bot.chat w). split; [reflexivity|].
        symmetry. apply set_chat_same. }
  intros r w1 (c & -> & ->).
  apply wp_bind, wp_modify. fields.
  apply wp_bind, wp_send_message_any. intros [m|e] c' n.
  - apply wp_ret. fields. split; [repeat split|reflexivity].
  - fields. split; [repeat split|reflexivity].
Qed.



Lemma next_profile_any user ctx closing w :
  Eff.wp (Bot.next_profile user ctx closing)
    (fun _ w' => Obs.frame w w' /\ Obs.cursor_step user w w') w.
Proof.
  unfold Bot.next_profile. cbv zeta. destruct (_ >=? _).
  - eapply wp_mono; [|apply close_session_pops].
    intros r w' [Hf Hvc]. split; [exact Hf|]. right. left. exact Hvc.
  - eapply wp_mono; [|apply render_any].
    intros r w' [Hf [Hvc|[Hpos Hr]]]; (split; [exact Hf|]).
    + left. exact Hvc.
    + right. right. eapply rendered_in_range; eassumption.
Qed.


(** The same without knowing the transport: the handler stops at a
    failed answer, or goes on to the step forward. *)
Lemma wp_like_inserted_any msg ctx owner inserted
      (Q : Eff.outcome unit -> Bot.world -> Prop) w :
  (forall c n, Eff.wp (Bot.next_profile (Bot.user_id (Bot.from_user msg)) ctx
                                       Bot.NoMoreProfiles) Q (Bot.set_chat c n w)) ->
  (forall e c n, Q (Eff.Raise e) (Bot.set_chat c n w)) ->
  Eff.wp (Bot.like_inserted msg ctx owner inserted) Q w.
Proof.
  intros Hnext Hraise. unfold Bot.like_inserted, Bot.answer.
  apply wp_bind. destruct inserted.
  - apply wp_try_except, wp_bind, wp_send_message_any. intros [m|e] c n.
    + apply wp_bind, wp_send_message_any. intros [m'|e'] c' n'; fields.
      * apply wp_ret. apply Hnext.
      * apply wp_bind, wp_send_message_any. intros [m''|e''] c'' n''; fields.
        -- apply wp_ret. apply Hnext.
        -- apply Hraise.
    + apply wp_bind, wp_send_message_any. intros [m''|e''] c'' n''; fields.
      * apply wp_ret. apply Hnext.
      * apply Hraise.
  - apply wp_bind, wp_send_message_any. intros [m|e] c n.
    + apply wp_ret. apply Hnext.
    + apply Hraise.
Qed.

Lemma wp_answer_any msg n kb w :
  Eff.wp (Bot.answer msg n kb;; mret tt)
    (fun _ w' => exists c k, w' = Bot.set_chat c k w) w.
Proof.
  apply wp_bind. unfold Bot.answer. apply wp_send_message_any.
  intros [m|e] c k; [apply wp_ret|]; eauto.
Qed.

Lemma wp_add_like viewer owner (Q : Eff.outcome bool -> Bot.world -> Prop) w :
  (let db := Bot.database w in
   if existsb (Db.is_edge owner viewer) (Db.likes db) then Q (Eff.Return false) w
   else Q (Eff.Return true)
          (Bot.set_database
             (Db.Database (Db.profiles db)
                          (Db.likes db ++ [Db.LikeRow owner viewer (Bot.utcnow w)])
                          (Db.sequence db)) w)) ->
  Eff.wp (Bot.add_like viewer owner) Q w.
Proof.
  cbv zeta. intros H. unfold Bot.add_like.
  apply wp_bind, wp_gets, wp_db. unfold Eff.wp. rewrite add_like_eq.
  destruct (existsb _ _); cbn [fst snd]; [|exact H].
  replace (Bot.set_database (Bot.database w) w) with w by (destruct w; reflexivity).
  exact H.
Qed.

(** What any action does to the file and to the cursors. *)
Lemma handle_action_message_any msg w :
  let user := Bot.user_id (Bot.from_user msg) in
  Eff.wp (Bot.handle_action_message msg)
    (fun _ w' => Obs.store_step user w w' /\ Obs.cursor_step user w w') w.
Proof.
  intros user.
  assert (Hsame : forall (r : Eff.outcome unit) w',
             (exists c k, w' = Bot.set_chat c k w) ->
             Obs.store_step user w w' /\ Obs.cursor_step user w w').
  { intros _ w' (c & k & ->). split; left; reflexivity. }
  unfold Bot.handle_action_message. fold user.
  apply wp_bind, wp_gets.
  destruct (Bot.view_contexts w !! user) as [ctx|] eqn:Hctx.
  2:{ eapply wp_mono; [exact Hsame|apply wp_answer_any]. }
  destruct (String.eqb (Bot.text msg) Bot.LIKE).
  { destruct (Bot.owner_id ctx) as [owner|].
    2:{ eapply wp_mono; [exact Hsame|apply wp_answer_any]. }
    destruct (Z.eqb_spec owner 0).
    { eapply wp_mono; [exact Hsame|apply wp_answer_any]. }
    destruct (Z.eqb_spec owner user) as [|Hother].
    { eapply wp_mono; [exact Hsame|apply wp_answer_any]. }
    apply wp_bind, wp_db, wp_gets.
    replace (Bot.set_database (Bot.database w) w) with w by (destruct w; reflexivity).
    destruct (existsb _ _) eqn:Hedge.
    { eapply wp_mono; [exact Hsame|apply wp_answer_any]. }
    apply wp_bind, wp_add_like. cbv zeta. rewrite Hedge.
    apply wp_like_inserted_any.
    - intros c k. eapply wp_mono; [|apply next_profile_any].
      intros r w' [(Hdb & _) Hvc]. fields. split.
      + right. exists owner, (Bot.utcnow w). split; [exact Hother|exact Hdb].
      + exact Hvc.
    - intros e c k. fields. split.
      + right. exists owner, (Bot.utcnow w). split; [exact Hother|reflexivity].
      + left. reflexivity. }
  destruct (String.eqb (Bot.text msg) Bot.DISLIKE).
  { eapply wp_mono; [|apply next_profile_any].
    intros r w' [(Hdb & _) Hvc]. split; [left; exact Hdb|exact Hvc]. }
  destruct (String.eqb (Bot.text msg) Bot.LETTER).
  { destruct (Bot.owner_id ctx) as [owner|].
    2:{ eapply wp_mono; [exact Hsame|apply wp_answer_any]. }
    destruct (owner =? user).
    { eapply wp_mono; [exact Hsame|apply wp_answer_any]. }
    apply wp_bind. unfold Bot.update_data. apply wp_modify.
    apply wp_bind. unfold Bot.answer. apply wp_send_message_any.
    intros [m|e] c k; fields.
    - unfold Bot.set_state. apply wp_modify. fields. split; left; reflexivity.
    - split; left; reflexivity. }
  destruct (String.eqb (Bot.text msg) Bot.STOP).
  { eapply wp_mono; [|apply close_session_pops].
    intros r w' [(Hdb & _) Hvc]. split; [left; exact Hdb|right; left; exact Hvc]. }
  apply wp_ret. split; left; reflexivity.
Qed.


(** A Like that passes its four checks goes on with a fresh row in
    [likes] and [inserted = True]. *)
Lemma wp_like msg w ctx owner (Q : Eff.outcome unit -> Bot.world -> Prop) :
  let user := Bot.user_id (Bot.from_user msg) in
  Bot.view_contexts w !! user = Some ctx ->
  Bot.text msg = Bot.LIKE ->
  Bot.owner_id ctx = Some owner -> owner <> 0 -> owner <> user ->
  Db.has_liked user owner (Bot.database w) = (Eff.Return false, Bot.database w) ->
  Eff.wp (Bot.like_inserted msg ctx owner true) Q
    (Bot.set_database
       (Db.Database (Db.profiles (Bot.database w))
                    (Db.likes (Bot.database w) ++ [Db.LikeRow owner user (Bot.utcnow w)])
                    (Db.sequence (Bot.database w))) w) ->
  Eff.wp (Bot.handle_action_message msg) Q w.
Proof.
  intros user Hctx Hcmd Hown Hnz Hother Hliked Hnext.
  injection Hliked as Hedge.
  unfold Bot.handle_action_message. fold user.
  apply wp_bind, wp_gets. rewrite Hctx, Hcmd, (proj1 caption_facts), Hown.
  destruct (Z.eqb_spec owner 0); [contradiction|].
  destruct (Z.eqb_spec owner user); [contradiction|].
  apply wp_bind, wp_db, wp_gets. rewrite Hedge.
  replace (Bot.set_database (Bot.database w) w) with w by (destruct w; reflexivity).
  apply wp_bind, wp_add_like. cbv zeta. rewrite Hedge. exact Hnext.
Qed.





(** C7. With a cursor whose owner is the viewer, Like and Message are
    turned down: the file, the cursors and the dialog storage stay as
    they were, and the viewer is told why. And whatever the cursor
    holds, no action adds a like from a user to that same user. *)
Theorem own_profile_turned_down msg w :
  let user := Bot.user_id (Bot.from_user msg) in
  let w' := Eff.exec (Bot.handle_action_message msg) w in
  (forall ctx,
      Bot.view_contexts w !! user = Some ctx ->
      Bot.owner_id ctx = Some user ->
      Bot.text msg = Bot.LIKE \/ Bot.text msg = Bot.LETTER ->
      exists n, In n [Bot.LikeNoOwner; Bot.LikeOwnProfile; Bot.MessageToSelf]
                /\ Obs.reprompted user n w w')
  /\ (forall v, Obs.edges v v (Bot.database w') = Obs.edges v v (Bot.database w)).
Proof.
  intros user w'. subst w'. split.
  - intros ctx Hctx Hown Hcmd.
    destruct caption_facts as (Hll & _ & _ & Hml & Hmd & Hmm).
    unfold Bot.handle_action_message. fold user.
    destruct Hcmd as [Hcmd|Hcmd]; rewrite Hcmd.
    + rewrite Hll. destruct (Z.eqb_spec user 0) as [Hz|Hnz].
      * exists Bot.LikeNoOwner. split; [simpl; tauto|].
        by_wp. apply wp_bind, wp_gets. rewrite Hctx, Hown.
        destruct (Z.eqb_spec user 0); [|contradiction]. apply wp_reject.
      * exists Bot.LikeOwnProfile. split; [simpl; tauto|].
        by_wp. apply wp_bind, wp_gets. rewrite Hctx, Hown.
        destruct (Z.eqb_spec user 0); [contradiction|].
        rewrite Z.eqb_refl. apply wp_reject.
    + rewrite Hml, Hmd, Hmm.
      exists Bot.MessageToSelf. split; [simpl; tauto|].
      by_wp. apply wp_bind, wp_gets. rewrite Hctx, Hown.
      rewrite Z.eqb_refl. apply wp_reject.
  - by_wp. eapply wp_mono; [|apply handle_action_message_any].
    intros r w' [[Hdb|(owner & created & Hother & Hdb)] _] v; rewrite Hdb; [reflexivity|].
    rewrite edges_app. destruct (Db.is_edge v v _) eqn:E; [|apply app_nil_r].
    exfalso. unfold Db.is_edge in E. simpl in E.
    apply andb_true_iff in E as [->%Z.eqb_eq E]. apply Z.eqb_eq in E.
    apply Hother. symmetry. exact E.
Qed.

End Browsing.

(** ** The edit dialog *)

Section EditDialog.

Implicit Types (w : Bot.world) (msg : Bot.message) (cq : Bot.callback_query).

Lemma keeps_server_refl : Reflexive Obs.keeps_server.
Proof. intros w. repeat split. Qed.

Lemma keeps_server_trans : Transitive Obs.keeps_server.
Proof.
  intros w1 w2 w3 (Hd & Hn & Hs) (Hd' & Hn' & Hs'). split; [congruence|]. split; [congruence|].
  intros user. rewrite Hs', Hs. reflexivity.
Qed.

#[local] Existing Instance keeps_server_refl.
#[local] Existing Instance keeps_server_trans.

Lemma keeps_send chat_id body kb : Eff.preserves Obs.keeps_server (Bot.send_message chat_id body kb).
Proof. intros w. apply wp_send_message_any. intros r c n. repeat split. Qed.

Lemma keeps_answer msg body kb : Eff.preserves Obs.keeps_server (Bot.answer msg body kb).
Proof. apply keeps_send. Qed.

Lemma keeps_edit chat_id mid body kb :
  Eff.preserves Obs.keeps_server (Bot.edit_message_text chat_id mid body kb).
Proof. intros w. apply wp_edit_message_text. intros r c. repeat split. Qed.

Lemma keeps_callback q txt : Eff.preserves Obs.keeps_server (Bot.answer_callback_query q txt).
Proof. apply preserves_modify. intros w. repeat split. Qed.

Lemma keeps_set_state user st : Eff.preserves Obs.keeps_server (Bot.set_state user st).
Proof. apply preserves_modify. intros w. repeat split. Qed.

Lemma keeps_get_data user : Eff.preserves Obs.keeps_server (Bot.get_data user).
Proof. apply preserves_gets. exact _. Qed.

Lemma keeps_update_data user key v :
  key <> "server" -> Eff.preserves Obs.keeps_server (Bot.update_data user key v).
Proof.
  intros Hkey. apply preserves_modify. intros w. split; [reflexivity|]. split; [reflexivity|].
  intros u. fields. destruct (decide (user = u)) as [->|Hne].
  - rewrite lookup_insert_eq. cbn [default from_option Datatypes.id].
    apply lookup_insert_ne. exact Hkey.
  - rewrite lookup_insert_ne by exact Hne. reflexivity.
Qed.

(** Between the nickname and the preview no handler writes to the file
    or to the server of a session. *)
Lemma run_step_keeps_server step : Eff.preserves Obs.keeps_server (Bot.run_step step).
Proof.
  destruct step as [msg|msg|msg|cq|msg|msg]; cbn [Bot.run_step].
  - unfold Bot.process_nickname.
    apply preserves_bind; [exact _|apply keeps_get_data|intros data].
    apply preserves_bind; [exact _| |intros _].
    { destruct (negb _); [apply keeps_update_data; discriminate|apply preserves_ret; exact _]. }
    apply preserves_bind; [exact _|apply keeps_answer|intros _]. apply keeps_set_state.
  - unfold Bot.process_uid.
    apply preserves_bind; [exact _|apply keeps_get_data|intros data].
    apply preserves_bind; [exact _| |intros _].
    { destruct (negb _); [apply keeps_update_data; discriminate|apply preserves_ret; exact _]. }
    apply preserves_bind; [exact _|apply keeps_answer|intros _]. apply keeps_set_state.
  - unfold Bot.process_ar.
    apply preserves_bind; [exact _|apply keeps_get_data|intros data]. cbv zeta.
    assert (Hask : Eff.preserves Obs.keeps_server
              match Py.text_or_empty (Py.get data "languages" (Py.VStr "")) with
              | Some langs_raw =>
                  Bot.answer msg
                    (Bot.ChooseLanguages (Py.truthy (Py.get data "editing" (Py.VBool false))))
                    (Bot.languages_keyboard (Bot.selected_languages langs_raw));;
                  Bot.set_state (Bot.user_id (Bot.from_user msg)) Bot.Form.languages
              | None => Eff.raise Py.AttributeError
              end).
    { destruct (Py.text_or_empty _); [|apply preserves_raise; exact _].
      apply preserves_bind; [exact _|apply keeps_answer|intros _]. apply keeps_set_state. }
    destruct (negb _); [|exact Hask].
    destruct (String.eqb _ _).
    { apply preserves_bind; [exact _|apply keeps_update_data; discriminate|intros _]. exact Hask. }
    destruct (Py.int _) as [ar|].
    2:{ apply preserves_bind; [exact _|apply keeps_answer|intros _]. apply preserves_ret; exact _. }
    destruct (negb _).
    { apply preserves_bind; [exact _|apply keeps_answer|intros _]. apply preserves_ret; exact _. }
    apply preserves_bind; [exact _|apply keeps_update_data; discriminate|intros _]. exact Hask.
  - unfold Bot.process_lang_toggle.
    destruct (Py.after_first _ _) as [action|]; [|apply preserves_raise; exact _].
    apply preserves_bind; [exact _|apply keeps_get_data|intros data].
    destruct (Py.text_or_empty _) as [langs_raw|]; [|apply preserves_raise; exact _].
    destruct (bool_decide _).
    { apply preserves_bind; [exact _|apply keeps_update_data; discriminate|intros _].
      apply preserves_bind; [exact _| |intros _; apply keeps_callback].
      apply preserves_try_except; [exact _|apply keeps_edit|intros _].
      apply preserves_bind; [exact _|apply keeps_callback|intros _].
      apply preserves_bind; [exact _|apply keeps_send|intros _]. apply preserves_ret; exact _. }
    destruct (String.eqb _ _); [|apply preserves_ret; exact _].
    apply preserves_bind; [exact _|apply keeps_callback|intros _].
    apply preserves_bind; [exact _|apply keeps_send|intros _]. apply keeps_set_state.
  - unfold Bot.process_playtime.
    apply preserves_bind; [exact _|apply keeps_get_data|intros data]. cbv zeta.
    assert (Hask : Eff.preserves Obs.keeps_server
              (Bot.answer msg Bot.AskBio Bot.NoMarkup;;
               Bot.set_state (Bot.user_id (Bot.from_user msg)) Bot.Form.bio)).
    { apply preserves_bind; [exact _|apply keeps_answer|intros _]. apply keeps_set_state. }
    destruct (negb _); [|exact Hask].
    destruct (String.eqb _ _).
    { apply preserves_bind; [exact _|apply keeps_update_data; discriminate|intros _]. exact Hask. }
    destruct (Bot.parsed_offset _) as [n|].
    + destruct (negb _).
      { apply preserves_bind; [exact _|apply keeps_answer|intros _]. apply preserves_ret; exact _. }
      apply preserves_bind; [exact _|apply keeps_update_data; discriminate|intros _]. exact Hask.
    + destruct (_ && _).
      { apply preserves_bind; [exact _|apply keeps_update_data; discriminate|intros _].
        exact Hask. }
      apply preserves_bind; [exact _|apply keeps_answer|intros _]. apply preserves_ret; exact _.
  - unfold Bot.process_bio.
    apply preserves_bind; [exact _|apply keeps_get_data|intros data].
    apply preserves_bind; [exact _| |intros _].
    { destruct (negb _); [apply keeps_update_data; discriminate|apply preserves_ret; exact _]. }
    apply preserves_bind; [exact _|apply keeps_get_data|intros data'].
    destruct (Py.text_or_empty _); [|apply preserves_raise; exact _].
    apply preserves_bind; [exact _|apply keeps_answer|intros _]. apply keeps_set_state.
Qed.

Lemma run_steps_keeps_server steps w : Obs.keeps_server w (Bot.run_steps steps w).
Proof.
  revert w. induction steps as [|step steps IH]; intros w; [reflexivity|].
  unfold Bot.run_steps. cbn [foldl]. fold (Bot.run_steps steps).
  etransitivity; [|apply IH].
  apply preserves_exec. apply run_step_keeps_server.
Qed.

Lemma head_filter_existsb {A} (p : A -> bool) (l : list A) :
  existsb p l = true -> exists r, head (List.filter p l) = Some r /\ In r l /\ p r = true.
Proof.
  induction l as [|x l IH]; [discriminate|].
  simpl. destruct (p x) eqn:Hx.
  - intros _. exists x. simpl. auto.
  - simpl. intros H. destruct (IH H) as (r & Hr & Hin & Hp). exists r. auto.
Qed.

Lemma unique_row (l : list Db.profile_row) x r :
  NoDup (map Db.tg_id l) -> In x l -> In r l -> Db.tg_id x = Db.tg_id r -> x = r.
Proof.
  induction l as [|y l IH]; [intros _ []|].
  simpl. intros Hnd Hx Hr Htg. apply NoDup_cons in Hnd as [Hy Hnd].
  destruct Hx as [->|Hx], Hr as [->|Hr]; [reflexivity| | |auto].
  - exfalso. apply Hy. rewrite Htg. apply list_elem_of_In, in_map. exact Hr.
  - exfalso. apply Hy. rewrite <- Htg. apply list_elem_of_In, in_map. exact Hx.
Qed.

Lemma bind_text_value c : Db.bind_text (Db.text_value c) = c.
Proof. destruct c; reflexivity. Qed.

(** [cmd_edit] loads the server of the profile into the session. *)
Lemma cmd_edit_loads msg w r :
  let user := Bot.user_id (Bot.from_user msg) in
  let w' := Eff.exec (Bot.cmd_edit msg) w in
  head (List.filter (Db.has_tg user) (Db.profiles (Bot.database w))) = Some r ->
  Bot.database w' = Bot.database w
  /\ Bot.utcnow w' = Bot.utcnow w
  /\ Obs.session w' user !! "server" = Some (Db.text_value (Db.server r)).
Proof.
  intros user w' Hr. subst w'. by_wp. unfold Bot.cmd_edit. fold user.
  apply wp_bind, wp_db, wp_gets. rewrite Hr. cbn [fmap option_fmap option_map].
  apply wp_bind. unfold Bot.update_data_all. apply wp_modify.
  assert (Hsrv : forall w',
             Bot.fsm_data w' =
               <[user := <["editing" := Py.VBool true]> (Db.row_dict r)
                         ∪ default ∅ (Bot.fsm_data w !! user)]> (Bot.fsm_data w) ->
             Obs.session w' user !! "server" = Some (Db.text_value (Db.server r))).
  { intros w' Hw'. unfold Obs.session. rewrite Hw', lookup_insert_eq.
    cbn [default from_option Datatypes.id].
    apply lookup_union_Some_l. rewrite lookup_insert_ne by discriminate.
    reflexivity. }
  apply wp_bind. unfold Bot.answer. apply wp_send_message_any. intros [m|e] c n; fields.
  - unfold Bot.set_state. apply wp_modify. fields.
    split; [reflexivity|]. split; [reflexivity|]. apply Hsrv. reflexivity.
  - split; [reflexivity|]. split; [reflexivity|]. apply Hsrv. reflexivity.
Qed.

Lemma data_to_save_server d : Bot.data_to_save d !! "server" = d !! "server".
Proof.
  unfold Bot.data_to_save. cbv zeta.
  repeat case_bool_decide; rewrite ?lookup_insert_ne by discriminate;
    apply lookup_delete_ne; discriminate.
Qed.

(** The Accept button saves the session, whatever the transport does. *)
Lemma process_confirm_saves q mid u w :
  Bot.database (Eff.exec (Bot.process_confirm (Bot.CallbackQuery q u "confirm:yes" mid)) w)
  = Eff.exec (Db.save_profile (Bot.user_id u) (Bot.data_to_save (Obs.session w (Bot.user_id u)))
                              (Bot.utcnow w))
             (Bot.database w).
Proof.
  by_wp. unfold Bot.process_confirm.
  change (Py.after_first ":" (Bot.data (Bot.CallbackQuery q u "confirm:yes" mid)))
    with (Some "yes").
  cbn [Bot.cq_from_user Bot.cq_id String.eqb Ascii.eqb Bool.eqb].
  apply wp_bind. unfold Bot.answer_callback_query. apply wp_modify.
  apply wp_bind, wp_gets. fields. fold (Obs.session w (Bot.user_id u)).
  apply wp_bind. unfold Bot.save_profile. apply wp_bind, wp_gets, wp_db. fields.
  apply wp_intro. unfold Eff.exec.
  destruct (Db.save_profile _ _ _ _) as [[[]|e] db']; cbn [fst snd]; [|reflexivity].
  apply wp_bind, wp_send_message_any. intros [m|e] c n; fields; [|reflexivity].
  unfold Bot.finish. apply wp_modify. reflexivity.
Qed.

(** An edit from [/edit] to the Accept button leaves every page of
    [list_profiles] as it was: the dialog starts at the nickname and
    carries the server of the profile to [save_profile]. *)
Lemma edit_dialog_keeps_pages msg steps q mid w :
  let user := Bot.user_id (Bot.from_user msg) in
  let w1 := Eff.exec (Bot.cmd_edit msg) w in
  let w2 := Bot.run_steps steps w1 in
  let w3 := Eff.exec (Bot.process_confirm
                        (Bot.CallbackQuery q (Bot.from_user msg) "confirm:yes" mid)) w2 in
  Obs.tg_unique (Bot.database w) ->
  existsb (Db.has_tg user) (Db.profiles (Bot.database w)) = true ->
  forall srv limit offset,
    Obs.owners_listed srv limit offset (Bot.database w3)
    = Obs.owners_listed srv limit offset (Bot.database w).
Proof.
  intros user w1 w2 w3 Huniq Hex srv limit offset.
  destruct (head_filter_existsb _ _ Hex) as (r & Hhead & Hin & Htg).
  destruct (cmd_edit_loads msg w r Hhead) as (Hdb1 & Hnow1 & Hsrv1).
  fold user in Hsrv1. fold w1 in Hdb1, Hnow1, Hsrv1.
  destruct (run_steps_keeps_server steps w1) as (Hdb2 & Hnow2 & Hsrv2).
  fold w2 in Hdb2, Hnow2, Hsrv2.
  subst w3. rewrite process_confirm_saves. fold user.
  rewrite Hdb2, Hdb1. apply save_profile_pages; [exact Hex|].
  intros x Hx Hxtg.
  assert (x = r) as ->.
  { apply (unique_row _ _ _ Huniq Hx Hin). apply Z.eqb_eq in Htg. congruence. }
  unfold Py.get. rewrite data_to_save_server. unfold Obs.session.
  rewrite Hsrv2. fold (Obs.session w1 user). rewrite Hsrv1.
  symmetry. apply bind_text_value.
Qed.

End EditDialog.

(** ** The properties at work *)

Section Scenarios.


(** A cursor that shows the viewer's own profile: the Like is refused. *)
Lemma own_profile_turned_down_witness :
  let ctx := Obs.cursor 0 2 1 in
  let w := Obs.browsing Obs.two_profiles 1 ctx in
  let msg := Bot.Message Obs.traveler Bot.LIKE in
  Bot.view_contexts w !! 1 = Some ctx
  /\ Bot.owner_id ctx = Some 1
  /\ (Bot.text msg = Bot.LIKE \/ Bot.text msg = Bot.LETTER)
  /\ (exists n, In n [Bot.LikeNoOwner; Bot.LikeOwnProfile; Bot.MessageToSelf]
                /\ Obs.reprompted 1 n w (Eff.exec (Bot.handle_action_message msg) w)).
Proof.
  assert (Hctx : Bot.view_contexts (Obs.browsing Obs.two_profiles 1 (Obs.cursor 0 2 1)) !! 1
                 = Some (Obs.cursor 0 2 1)) by reflexivity.
  split; [exact Hctx|]. split; [reflexivity|]. split; [left; reflexivity|].
  exact (proj1 (own_profile_turned_down (Bot.Message Obs.traveler Bot.LIKE) _) _
               Hctx eq_refl (or_introl eq_refl)).
Defined.


(** Browsing Asia, the viewer picks Europe, where nobody is. *)
Lemma empty_server_keeps_cursor_witness :
  let ctx := Obs.cursor 0 2 3 in
  let w := Obs.browsing Obs.two_profiles 1 ctx in
  let w' := Eff.exec (Bot.process_browse_server
                        (Bot.CallbackQuery 9 Obs.traveler "browse_server:Europe" 4)) w in
  Db.count_profiles "Europe" (Bot.database w) = (Eff.Return 0, Bot.database w)
  /\ Bot.view_contexts w !! 1 = Some ctx
  /\ Obs.same_state w w'
  /\ Bot.view_contexts w' !! 1 = Some ctx.
Proof.
  assert (Hcount : Db.count_profiles "Europe"
                     (Bot.database (Obs.browsing Obs.two_profiles 1 (Obs.cursor 0 2 3)))
                   = (Eff.Return 0,
                      Bot.database (Obs.browsing Obs.two_profiles 1 (Obs.cursor 0 2 3))))
    by reflexivity.
  assert (Hctx : Bot.view_contexts (Obs.browsing Obs.two_profiles 1 (Obs.cursor 0 2 3)) !! 1
                 = Some (Obs.cursor 0 2 3)) by reflexivity.
  split; [exact Hcount|]. split; [exact Hctx|].
  destruct (empty_server_keeps_cursor 9 4 Obs.traveler "Europe" _ _ Hcount Hctx) as (H1 & H2 & _).
  split; [exact H1|exact H2].
Defined.

(** User 2 edits the nickname: the page of Asia lists 3 and 2 as before. *)
Lemma save_profile_keeps_created_at_witness :
  let db := Obs.two_profiles in
  let db' := Eff.exec (Db.save_profile 2 (Obs.on_asia "Viator") "2024-06-01T10:00:00") db in
  existsb (Db.has_tg 2) (Db.profiles db) = true
  /\ Obs.owners_listed "Asia" 10 0 db' = Obs.owners_listed "Asia" 10 0 db
  /\ Obs.owners_listed "Asia" 10 0 db = [Some (Py.VInt 3); Some (Py.VInt 2)].
Proof.
  assert (Hex : existsb (Db.has_tg 2) (Db.profiles Obs.two_profiles) = true) by reflexivity.
  split; [exact Hex|]. split; [|reflexivity].
  destruct (save_profile_keeps_created_at 2 (Obs.on_asia "Viator") "2024-06-01T10:00:00"
                                          Obs.two_profiles Hex) as (_ & _ & _ & _ & Hlist).
  apply Hlist. intros r Hr Htg.
  destruct Hr as [<-|[<-|[]]]; [reflexivity|discriminate Htg].
Defined.

(** A server without profiles, and no cursor before: none is created. *)
Example first_choice_of_an_empty_server :
  let w := Eff.exec (Bot.process_browse_server
                       (Bot.CallbackQuery 9 Obs.traveler "browse_server:Europe" 4)) Obs.fresh in
  Bot.view_contexts w !! 1 = None
  /\ map Bot.body (Bot.chat w) = [Bot.NoProfilesOnServer "Europe"; Bot.MenuTitle].
Proof. vm_compute. split; reflexivity. Qed.

(** Two likes in a row through two profiles: the first moves the cursor
    to the second profile, the second ends the session; both are in the
    file. *)
Example like_through_the_list :
  let w0 := Obs.browsing Obs.two_profiles 1 (Obs.cursor 0 2 3) in
  let w1 := Eff.exec (Bot.handle_action_message (Bot.Message Obs.traveler Bot.LIKE)) w0 in
  let w2 := Eff.exec (Bot.handle_action_message (Bot.Message Obs.traveler Bot.LIKE)) w1 in
  Bot.view_contexts w1 !! 1 = Some (Bot.ViewContext "Asia" 1 2 (Some 2) (Py.VInt 2) 6 5)
  /\ Bot.view_contexts w2 !! 1 = None
  /\ map (fun l => (Db.viewer_id l, Db.owner_id l)) (Db.likes (Bot.database w2))
     = [(1, 3); (1, 2)]
  /\ map Bot.body (Bot.chat w2)
     = [ Bot.LikeReceived "@traveler"; Bot.LikeSentOwnerNotified;
         Bot.ProfileCard (Db.row_dict (Db.ProfileRow 1 2 (Some "Asia") (Some "Lumine") (Some "")
                                         (Some "") (Some "") (Some "") (Some "") (Some "")
                                         (Some "") "2024-05-01T10:00:00")) "" 0;
         Bot.LikeReceived "@traveler"; Bot.LikeSentOwnerNotified; Bot.NoMoreProfiles ].
Proof. vm_compute. repeat split; reflexivity. Qed.

End Scenarios.

(** * Further properties of the code *)

(** ** The store, call by call *)

Section StoreCalls.

Implicit Types (db : Db.database) (cs : list Db.call).

Lemma filter_none {A} (p : A -> bool) (l : list A) :
  existsb p l = false -> List.filter p l = [].
Proof.
  induction l as [|x l IH]; [reflexivity|].
  simpl. destruct (p x); [discriminate|]. exact IH.
Qed.

Lemma filter_some {A} (p : A -> bool) (l : list A) :
  List.filter p l = [] -> existsb p l = false.
Proof.
  induction l as [|x l IH]; [reflexivity|].
  simpl. destruct (p x); [discriminate|]. exact IH.
Qed.

Lemma head_filter_map {A} (p : A -> bool) (f : A -> A) (l : list A) :
  (forall x, p (f x) = p x) ->
  head (List.filter p (map f l)) = f <$> head (List.filter p l).
Proof.
  intros Hp. induction l as [|x l IH]; [reflexivity|].
  simpl. rewrite Hp. destruct (p x); [reflexivity|exact IH].
Qed.

Lemma has_tg_updated tg tg' data r :
  Db.has_tg tg' (if Db.has_tg tg r then Db.set_fields data r else r) = Db.has_tg tg' r.
Proof. destruct (Db.has_tg tg r); reflexivity. Qed.

(** The new row of [save_profile] for an owner who has none. *)
Lemma save_profile_fresh tg data now db :
  existsb (Db.has_tg tg) (Db.profiles db) = false ->
  exists rowid,
    Db.save_profile tg data now db =
      (Eff.Return tt,
       Db.Database
         (Db.profiles db ++
          [Db.set_fields data
             (Db.ProfileRow rowid tg None None None None None None None None None now)])
         (Db.likes db) rowid).
Proof.
  intros Hex. eexists. unfold Db.save_profile, mbind, Eff.M_bind, Eff.gets.
  rewrite Hex. unfold Db.sql_insert_profile. rewrite Hex. reflexivity.
Qed.

Lemma row_dict_read data r :
  Db.row_dict (Db.set_fields data r) !! "tg_id" = Some (Py.VInt (Db.tg_id r))
  /\ Db.row_dict (Db.set_fields data r) !! "created_at" = Some (Py.VStr (Db.created_at r))
  /\ Forall (fun k => Db.row_dict (Db.set_fields data r) !! k
                      = Some (Db.text_value (Db.bind_text (Py.get data k (Py.VStr "")))))
            View.FIELDS.
Proof. split; [reflexivity|]. split; [reflexivity|]. repeat constructor. Qed.

(** What [get_profile_by_tg] reads after [save_profile]. *)
Lemma save_profile_read tg data now db :
  let db' := Eff.exec (Db.save_profile tg data now) db in
  fst (Db.save_profile tg data now db) = Eff.Return tt
  /\ exists prof,
       Db.get_profile_by_tg tg db' = (Eff.Return (Some prof), db')
       /\ prof !! "tg_id" = Some (Py.VInt tg)
       /\ Forall (fun k => prof !! k
                           = Some (Db.text_value (Db.bind_text (Py.get data k (Py.VStr "")))))
                 View.FIELDS
       /\ prof !! "created_at" = Some (Py.VStr (default now (View.created tg db))).
Proof.
  intros db'. subst db'. unfold Eff.exec, View.created.
  destruct (existsb (Db.has_tg tg) (Db.profiles db)) eqn:Hex.
  - rewrite (save_profile_existing _ _ _ _ Hex). cbn [fst snd]. split; [reflexivity|].
    destruct (head_filter_existsb _ _ Hex) as (r & Hhead & _ & Htg).
    exists (Db.row_dict (Db.set_fields data r)).
    destruct (row_dict_read data r) as (Hid & Hcreated & Hfields).
    unfold Db.get_profile_by_tg, Eff.gets. cbn [Db.profiles].
    rewrite head_filter_map by (intros x; apply has_tg_updated).
    rewrite Hhead. cbn [fmap option_fmap option_map]. rewrite Htg.
    split; [reflexivity|]. split; [|split; [exact Hfields|exact Hcreated]].
    rewrite Hid. apply Z.eqb_eq in Htg. rewrite Htg. reflexivity.
  - destruct (save_profile_fresh tg data now db Hex) as (rowid & ->). cbn [fst snd].
    split; [reflexivity|].
    eexists. unfold Db.get_profile_by_tg, Eff.gets. cbn [Db.profiles].
    rewrite List.filter_app, (filter_none _ _ Hex). cbn [List.filter app].
    unfold Db.has_tg at 1. cbn [Db.tg_id Db.set_fields]. rewrite Z.eqb_refl.
    cbn [head fmap option_fmap option_map].
    split; [reflexivity|].
    match goal with |- context [Db.row_dict (Db.set_fields data ?r)] =>
      destruct (row_dict_read data r) as (Hid & Hcreated & Hfields) end.
    split; [exact Hid|]. split; [exact Hfields|]. exact Hcreated.
Qed.


(** The calls that write for one user leave the profiles of the others
    as [get_profile_by_tg] reads them. *)
Lemma head_filter_other tg tg' (l : list Db.profile_row) :
  tg' <> tg ->
  head (List.filter (Db.has_tg tg') (List.filter (fun r => negb (Db.has_tg tg r)) l))
  = head (List.filter (Db.has_tg tg') l).
Proof.
  intros Hne. f_equal. induction l as [|x l IH]; [reflexivity|].
  cbn [List.filter]. destruct (Db.has_tg tg x) eqn:E; cbn [negb List.filter].
  - assert (H : Db.has_tg tg' x = false).
    { unfold Db.has_tg in *. apply Z.eqb_eq in E. apply Z.eqb_neq. congruence. }
    rewrite H. exact IH.
  - destruct (Db.has_tg tg' x); [f_equal|]; exact IH.
Qed.

(** X2. Saving or deleting the profile of one user, and any like, leave
    the profile of every other user as [get_profile_by_tg] reads it. *)
Theorem other_profiles_are_untouched tg tg' db :
  tg' <> tg ->
  let read db1 := fst (Db.get_profile_by_tg tg' db1) in
  (forall data now, read (Eff.exec (Db.save_profile tg data now) db) = read db)
  /\ read (Eff.exec (Db.delete_profile tg) db) = read db
  /\ (forall viewer owner created,
        read (Eff.exec (Db.add_like viewer owner created) db) = read db).
Proof.
  intros Hne read. subst read. cbv beta. unfold Db.get_profile_by_tg, Eff.gets. cbn [fst].
  split; [|split].
  - intros data now. f_equal. f_equal. unfold Eff.exec.
    destruct (existsb (Db.has_tg tg) (Db.profiles db)) eqn:Hex.
    + rewrite (save_profile_existing _ _ _ _ Hex). cbn [snd Db.profiles].
      rewrite head_filter_map by (intros x; apply has_tg_updated).
      destruct (head (List.filter (Db.has_tg tg') (Db.profiles db))) as [r|] eqn:Hr;
        [|reflexivity].
      cbn [fmap option_fmap option_map]. f_equal.
      assert (Htg : Db.has_tg tg' r = true).
      { destruct (List.filter (Db.has_tg tg') (Db.profiles db)) as [|y l] eqn:Hf;
          [discriminate|].
        injection Hr as ->.
        assert (Hin : In r (List.filter (Db.has_tg tg') (Db.profiles db)))
          by (rewrite Hf; left; reflexivity).
        apply filter_In in Hin. tauto. }
      unfold Db.has_tg in *. apply Z.eqb_eq in Htg.
      replace (Db.tg_id r =? tg) with false by (symmetry; apply Z.eqb_neq; congruence).
      reflexivity.
    + destruct (save_profile_fresh tg data now db Hex) as (rowid & ->).
      cbn [snd Db.profiles]. rewrite List.filter_app. cbn [List.filter].
      unfold Db.has_tg at 2. cbn [Db.tg_id Db.set_fields].
      replace (tg =? tg') with false by (symmetry; apply Z.eqb_neq; congruence).
      rewrite app_nil_r. reflexivity.
  - f_equal. f_equal. apply head_filter_other, Hne.
  - intros viewer owner created. unfold Eff.exec. rewrite add_like_eq.
    destruct (existsb _ _); reflexivity.
Qed.

Lemma other_profiles_are_untouched_witness :
  3 <> 2
  /\ fst (Db.get_profile_by_tg 3 (Eff.exec (Db.delete_profile 2) Obs.two_profiles))
     = fst (Db.get_profile_by_tg 3 Obs.two_profiles).
Proof.
  split; [discriminate|].
  exact (proj1 (proj2 (other_profiles_are_untouched 2 3 Obs.two_profiles ltac:(discriminate)))).
Defined.


Lemma filter_filter_negb {A} (p : A -> bool) (l : list A) :
  List.filter p (List.filter (fun x => negb (p x)) l) = [].
Proof.
  induction l as [|x l IH]; [reflexivity|].
  simpl. destruct (p x) eqn:E; simpl; [exact IH|]. rewrite E. exact IH.
Qed.





(** One call and the rows of one user. *)
Lemma run_call_rows tg c db (b : bool) :
  length (List.filter (Db.has_tg tg) (Db.profiles db)) = (if b then 1 else 0)%nat ->
  length (List.filter (Db.has_tg tg) (Db.profiles (snd (Db.run_call c db))))
  = (if View.saved_last tg [c] b then 1 else 0)%nat.
Proof.
  intros Hb. destruct c as [t data now|t|viewer owner created]; cbn [Db.run_call snd View.saved_last].
  - unfold Eff.exec. destruct (existsb (Db.has_tg t) (Db.profiles db)) eqn:Hex.
    + rewrite (save_profile_existing _ _ _ _ Hex). cbn [snd Db.profiles].
      rewrite filter_map_commute by (intros x _; apply has_tg_updated).
      rewrite length_map, Hb.
      destruct (t =? tg) eqn:E; [|reflexivity].
      apply Z.eqb_eq in E. subst t. destruct b; [reflexivity|].
      apply length_zero_iff_nil, filter_some in Hb. congruence.
    + destruct (save_profile_fresh t data now db Hex) as (rowid & ->).
      cbn [snd Db.profiles]. rewrite List.filter_app, length_app. cbn [List.filter].
      unfold Db.has_tg at 2. cbn [Db.tg_id Db.set_fields].
      destruct (t =? tg) eqn:E; cbn [length]; [|lia].
      apply Z.eqb_eq in E. subst t. rewrite (filter_none _ _ Hex). reflexivity.
  - unfold Eff.exec, Db.delete_profile, Db.sql_delete_profile, Eff.modify.
    cbn [snd Db.profiles]. destruct (t =? tg) eqn:E.
    + apply Z.eqb_eq in E. subst t. rewrite filter_filter_negb. reflexivity.
    + rewrite <- Hb. f_equal. clear Hb. induction (Db.profiles db) as [|x l IH]; [reflexivity|].
      cbn [List.filter]. destruct (Db.has_tg t x) eqn:Ht; cbn [negb List.filter].
      * assert (H : Db.has_tg tg x = false).
        { unfold Db.has_tg in *. apply Z.eqb_eq in Ht. apply Z.eqb_neq in E.
          apply Z.eqb_neq. congruence. }
        rewrite H. exact IH.
      * destruct (Db.has_tg tg x); [f_equal|]; exact IH.
  - rewrite add_like_eq. destruct (existsb _ _); exact Hb.
Qed.

Lemma saved_last_app tg cs cs' b :
  View.saved_last tg (cs ++ cs') b = View.saved_last tg cs' (View.saved_last tg cs b).
Proof.
  revert b. induction cs as [|c cs IH]; intros b; [reflexivity|].
  destruct c; cbn [app View.saved_last]; apply IH.
Qed.

Lemma run_rows tg cs db (b : bool) :
  length (List.filter (Db.has_tg tg) (Db.profiles db)) = (if b then 1 else 0)%nat ->
  length (List.filter (Db.has_tg tg) (Db.profiles (Db.run cs db)))
  = (if View.saved_last tg cs b then 1 else 0)%nat.
Proof.
  revert db b. induction cs as [|c cs IH]; intros db b Hb; [exact Hb|].
  rewrite run_cons. change (c :: cs) with ([c] ++ cs)%list. rewrite saved_last_app.
  apply IH, run_call_rows, Hb.
Qed.

(** X4. Whatever calls were made on a fresh file, a user has one row in
    [profiles] when the last call that saved or deleted the profile of
    that user saved it, and none otherwise: [save_profile] never adds a
    second row for a user. *)
Theorem one_profile_per_user cs tg :
  length (List.filter (Db.has_tg tg) (Db.profiles (Db.run cs Db.empty)))
  = (if View.saved_last tg cs false then 1 else 0)%nat.
Proof. apply run_rows. reflexivity. Qed.

End StoreCalls.

(** ** The store: lists and counts *)

Section StoreLists.

Implicit Types (db : Db.database) (cs : list Db.call).

Lemma insert_desc_sorted r l :
  Sorted View.row_not_older l -> Sorted View.row_not_older (Db.insert_desc r l).
Proof.
  induction l as [|x l IH]; intros Hs; cbn [Db.insert_desc].
  - repeat constructor.
  - destruct (String.leb (Db.created_at x) (Db.created_at r)) eqn:E.
    + constructor; [exact Hs|]. constructor. exact E.
    + assert (Hxr : View.row_not_older x r).
      { unfold View.row_not_older.
        destruct (String.leb_total (Db.created_at x) (Db.created_at r)); congruence. }
      inversion Hs as [|? ? Hl Hhd]; subst. constructor; [apply IH, Hl|].
      destruct l as [|y l]; cbn [Db.insert_desc]; [constructor; exact Hxr|].
      destruct (String.leb (Db.created_at y) (Db.created_at r)); constructor;
        [exact Hxr|]. inversion Hhd; assumption.
Qed.

Lemma order_by_sorted l : Sorted View.row_not_older (Db.order_by_created_at_desc l).
Proof.
  induction l as [|x l IH]; [constructor|]. apply insert_desc_sorted, IH.
Qed.

Lemma insert_desc_perm r l : Db.insert_desc r l ≡ₚ r :: l.
Proof.
  induction l as [|x l IH]; [reflexivity|].
  cbn [Db.insert_desc]. destruct (String.leb _ _); [reflexivity|].
  rewrite IH. apply Permutation_swap.
Qed.

Lemma order_by_perm l : Db.order_by_created_at_desc l ≡ₚ l.
Proof.
  induction l as [|x l IH]; [reflexivity|].
  cbn [Db.order_by_created_at_desc foldr]. rewrite insert_desc_perm. f_equiv. exact IH.
Qed.

Lemma Sorted_drop {A} (R : A -> A -> Prop) n (l : list A) :
  Sorted R l -> Sorted R (drop n l).
Proof.
  revert l. induction n as [|n IH]; intros [|x l] H; cbn [drop]; try assumption.
  apply IH. inversion H; assumption.
Qed.

Lemma Sorted_take {A} (R : A -> A -> Prop) n (l : list A) :
  Sorted R l -> Sorted R (take n l).
Proof.
  revert n. induction l as [|x l IH]; intros [|n] H; cbn [take]; try constructor.
  - apply IH. inversion H; assumption.
  - inversion H as [|? ? Hl Hhd]; subst.
    destruct l as [|y l], n as [|n]; cbn [take]; constructor. inversion Hhd; assumption.
Qed.

Lemma Sorted_map {A B} (f : A -> B) (R : A -> A -> Prop) (R' : B -> B -> Prop) (l : list A) :
  (forall x y, R x y -> R' (f x) (f y)) -> Sorted R l -> Sorted R' (map f l).
Proof.
  intros Hf. induction 1 as [|x l Hl IH Hhd]; cbn [map]; constructor; [exact IH|].
  destruct Hhd; cbn [map]; constructor. auto.
Qed.

Lemma limit_offset_sorted {A} (R : A -> A -> Prop) limit offset (l : list A) :
  Sorted R l -> Sorted R (Db.limit_offset limit offset l).
Proof.
  intros H. unfold Db.limit_offset. destruct (limit <? 0).
  - apply Sorted_drop, H.
  - apply Sorted_take, Sorted_drop, H.
Qed.

Lemma limit_offset_Forall {A} (P : A -> Prop) limit offset (l : list A) :
  Forall P l -> Forall P (Db.limit_offset limit offset l).
Proof.
  intros H. unfold Db.limit_offset. destruct (limit <? 0).
  - apply Forall_drop, H.
  - apply Forall_take, Forall_drop, H.
Qed.

Lemma listing_eq srv limit offset db :
  Obs.listing srv limit offset db
  = map Db.row_dict (Db.limit_offset limit offset (View.ordered srv db)).
Proof. reflexivity. Qed.

(** X5. Every page of [list_profiles] holds profiles of the server that
    was asked for only, and each one was created no earlier than the one
    after it. *)
Theorem list_profiles_newest_first srv limit offset db :
  let page := Obs.listing srv limit offset db in
  Forall (fun d : gmap string Py.value => d !! "server" = Some (Py.VStr srv)) page
  /\ Sorted View.not_older page.
Proof.
  intros page. subst page. rewrite listing_eq. split.
  - apply Forall_map. apply limit_offset_Forall. unfold View.ordered.
    rewrite order_by_perm. apply Forall_forall. intros r Hr.
    apply list_elem_of_In, filter_In in Hr as [_ Hr]. unfold Db.on_server in Hr.
    destruct r as [i tg [s|] ? ? ? ? ? ? ? ? ?]; cbn in Hr; [|discriminate].
    apply String.eqb_eq in Hr. subst s. reflexivity.
  - apply (Sorted_map _ View.row_not_older); [intros x y H; exact H|].
    apply limit_offset_sorted, order_by_sorted.
Qed.

Lemma chunks {A} (k m : nat) (l : list A) :
  (0 < k)%nat -> (length l <= m * k)%nat ->
  concat (map (fun i => take k (drop (i * k) l)) (seq 0 m)) = l.
Proof.
  intros Hk. revert l. induction m as [|m IH]; intros l Hl.
  - cbn in Hl. destruct l; [reflexivity|cbn in Hl; lia].
  - cbn [seq map concat]. rewrite <- seq_shift, map_map. cbn [Nat.mul drop].
    etransitivity; [|apply (take_drop k l)]. f_equal.
    erewrite map_ext; [apply IH|].
    + rewrite length_drop. lia.
    + intros i. cbv beta. rewrite drop_drop. reflexivity.
Qed.

(** X6. Read one page after the other from offset 0, [list_profiles]
    returns every profile of the server exactly once: the pages put
    together are the whole list, which holds the rows of the server and
    as many as [count_profiles] counts; from an offset at or past that
    count on, a page is empty. *)
Theorem pages_cover_the_server srv limit db :
  let n := length (View.whole_list srv db) in
  concat (View.pages srv limit n db) = View.whole_list srv db
  /\ View.whole_list srv db ≡ₚ map Db.row_dict (List.filter (Db.on_server srv) (Db.profiles db))
  /\ Db.count_profiles srv db = (Eff.Return (Z.of_nat n), db)
  /\ (forall lim offset, Z.of_nat n <= offset -> Obs.listing srv lim offset db = []).
Proof.
  intros n. subst n. unfold View.whole_list, View.pages.
  assert (Hall : Obs.listing srv (-1) 0 db = map Db.row_dict (View.ordered srv db)).
  { rewrite listing_eq. reflexivity. }
  rewrite Hall, length_map.
  split; [|split; [|split]].
  - erewrite map_ext.
    2:{ intros i. rewrite listing_eq. unfold Db.limit_offset. cbn [Z.ltb Z.compare].
        replace (Z.to_nat (Z.of_nat i * Z.pos limit)) with (i * Pos.to_nat limit)%nat by lia.
        change (Z.to_nat (Z.pos limit)) with (Pos.to_nat limit). reflexivity. }
    rewrite <- (map_map (fun i => take (Pos.to_nat limit)
                                   (drop (i * Pos.to_nat limit) (View.ordered srv db)))
                        (map Db.row_dict)).
    rewrite <- concat_map. f_equal.
    apply chunks; [lia|]. nia.
  - unfold View.ordered. rewrite order_by_perm. reflexivity.
  - unfold Db.count_profiles, Eff.gets, View.ordered. rewrite order_by_length. reflexivity.
  - intros lim offset Hoff. rewrite listing_eq. unfold Db.limit_offset.
    rewrite drop_ge by lia. destruct (lim <? 0); [reflexivity|]. rewrite take_nil. reflexivity.
Qed.

Lemma pages_cover_the_server_witness :
  Z.of_nat (length (View.whole_list "Asia" Obs.two_profiles)) <= 2
  /\ Obs.listing "Asia" 1 2 Obs.two_profiles = [].
Proof.
  split; [vm_compute; discriminate|].
  apply (proj2 (proj2 (proj2 (pages_cover_the_server "Asia" 1 Obs.two_profiles)))).
  vm_compute. discriminate.
Defined.


Lemma likes_after_add viewer owner created db :
  Db.likes (Eff.exec (Db.add_like viewer owner created) db)
  = (Db.likes db ++
     if existsb (Db.is_edge owner viewer) (Db.likes db) then []
     else [Db.LikeRow owner viewer created])%list
  /\ Db.profiles (Eff.exec (Db.add_like viewer owner created) db) = Db.profiles db.
Proof.
  unfold Eff.exec. rewrite add_like_eq.
  destruct (existsb _ _); cbn [snd Db.likes Db.profiles]; rewrite ?app_nil_r; auto.
Qed.

(** X7. One [add_like(viewer, owner)] raises the count of [owner] by
    one when the viewer had not liked this owner and leaves it alone
    when the viewer had; the counts of the other owners and what
    [has_liked] answers for the other pairs stay as they were, the
    profiles too, and [has_liked(viewer, owner)] is true afterwards. *)
Theorem add_like_counts_one viewer owner created db :
  let db' := Eff.exec (Db.add_like viewer owner created) db in
  exists liked,
    Db.has_liked viewer owner db = (Eff.Return liked, db)
    /\ Db.has_liked viewer owner db' = (Eff.Return true, db')
    /\ Db.profiles db' = Db.profiles db
    /\ (forall o, exists n,
          Db.get_likes_count o db = (Eff.Return n, db)
          /\ Db.get_likes_count o db'
             = (Eff.Return (n + if (o =? owner) && negb liked then 1 else 0), db'))
    /\ (forall v o, exists b,
          Db.has_liked v o db = (Eff.Return b, db)
          /\ Db.has_liked v o db'
             = (Eff.Return (b || (v =? viewer) && (o =? owner)), db')).
Proof.
  intros db'. destruct (likes_after_add viewer owner created db) as [Hlikes Hprofiles].
  fold db' in Hlikes, Hprofiles.
  exists (existsb (Db.is_edge owner viewer) (Db.likes db)).
  unfold Db.has_liked, Db.get_likes_count, Eff.gets. rewrite Hlikes.
  split; [reflexivity|]. split; [|split; [exact Hprofiles|split]].
  - f_equal. f_equal. rewrite existsb_app.
    destruct (existsb (Db.is_edge owner viewer) (Db.likes db)) eqn:E; [reflexivity|].
    cbn [existsb]. rewrite is_edge_refl. reflexivity.
  - intros o. eexists. split; [reflexivity|]. f_equal. f_equal.
    rewrite List.filter_app, length_app, Nat2Z.inj_add. f_equal.
    destruct (existsb (Db.is_edge owner viewer) (Db.likes db));
      cbn [negb andb List.filter length]; rewrite ?andb_false_r; [reflexivity|].
    unfold Db.to_owner. cbn [Db.owner_id]. rewrite andb_true_r, (Z.eqb_sym owner o).
    destruct (o =? owner); reflexivity.
  - intros v o. eexists. split; [reflexivity|]. f_equal. f_equal.
    rewrite existsb_app.
    destruct (existsb (Db.is_edge owner viewer) (Db.likes db)) eqn:E; cbn [existsb].
    + rewrite orb_false_r.
      destruct ((v =? viewer) && (o =? owner)) eqn:Hvo; [|rewrite orb_false_r; reflexivity].
      apply andb_true_iff in Hvo as [Hv Ho]. apply Z.eqb_eq in Hv, Ho. subst v o.
      rewrite E. reflexivity.
    + rewrite orb_false_r. f_equal. unfold Db.is_edge. cbn [Db.owner_id Db.viewer_id].
      rewrite (Z.eqb_sym owner o), (Z.eqb_sym viewer v). apply andb_comm.
Qed.

Lemma not_liked_not_in owner viewer (l : list Db.like_row) :
  existsb (Db.is_edge owner viewer) l = false -> (owner, viewer) ∉ map View.like_key l.
Proof.
  induction l as [|x l IH]; simpl; intros H; [apply not_elem_of_nil|].
  apply orb_false_iff in H as [Hx Hl]. apply not_elem_of_cons. split; [|auto].
  unfold View.like_key. intros Heq. injection Heq as Ho Hv.
  unfold Db.is_edge in Hx. rewrite <- Ho, <- Hv, !Z.eqb_refl in Hx. discriminate.
Qed.

Lemma run_call_keys c db :
  NoDup (map View.like_key (Db.likes db)) ->
  NoDup (map View.like_key (Db.likes (snd (Db.run_call c db)))).
Proof.
  intros H. destruct c as [tg data now|tg|viewer owner created]; cbn [Db.run_call snd].
  - rewrite save_profile_likes. exact H.
  - rewrite delete_profile_likes. exact H.
  - rewrite add_like_eq. destruct (existsb _ _) eqn:E; cbn [snd Db.likes]; [exact H|].
    rewrite map_app. apply NoDup_app. split; [exact H|]. split; [|apply NoDup_singleton].
    intros k Hk Hin. apply list_elem_of_singleton in Hin. subst k.
    revert Hk. apply not_liked_not_in, E.
Qed.

Lemma run_keys cs db :
  NoDup (map View.like_key (Db.likes db)) ->
  NoDup (map View.like_key (Db.likes (Db.run cs db))).
Proof.
  revert db. induction cs as [|c cs IH]; intros db H; [exact H|].
  rewrite run_cons. apply IH, run_call_keys, H.
Qed.

Lemma viewers_of_owner owner (l : list Db.like_row) :
  NoDup (map View.like_key l) ->
  NoDup (map Db.viewer_id (List.filter (Db.to_owner owner) l)).
Proof.
  induction l as [|x l IH]; cbn [map List.filter]; intros H; [constructor|].
  apply NoDup_cons in H as [Hx Hl]. destruct (Db.to_owner owner x) eqn:Ho; [|auto].
  cbn [map]. apply NoDup_cons. split; [|auto].
  intros Hin. apply Hx. apply list_elem_of_In, in_map_iff in Hin as (y & Hy & Hin).
  apply filter_In in Hin as [Hin Hyo]. apply list_elem_of_In, in_map_iff.
  exists y. split; [|exact Hin]. unfold View.like_key, Db.to_owner in *.
  apply Z.eqb_eq in Ho, Hyo. congruence.
Qed.

Lemma liked_is_liker viewer owner (l : list Db.like_row) :
  existsb (Db.is_edge owner viewer) l
  = bool_decide (viewer ∈ map Db.viewer_id (List.filter (Db.to_owner owner) l)).
Proof.
  induction l as [|x l IH]; [reflexivity|].
  cbn [existsb List.filter]. unfold Db.is_edge at 1. fold (Db.to_owner owner x).
  destruct (Db.to_owner owner x); cbn [andb orb map]; [|exact IH].
  rewrite IH. destruct (Db.viewer_id x =? viewer) eqn:E.
  - apply Z.eqb_eq in E. symmetry. apply bool_decide_eq_true. rewrite E. apply list_elem_of_here.
  - apply Z.eqb_neq in E. cbn [orb]. apply bool_decide_ext. rewrite elem_of_cons.
    split; [auto|]. intros [?|?]; [congruence|assumption].
Qed.

(** X8. In every file built by calls on a fresh one, no pair (owner,
    viewer) has two rows in [likes]; so [get_likes_count(owner)] is the
    number of users who like the owner, and [has_liked] tells who they
    are. *)
Theorem likes_count_counts_likers cs owner :
  let db := Db.run cs Db.empty in
  NoDup (map View.like_key (Db.likes db))
  /\ Db.get_likes_count owner db = (Eff.Return (Z.of_nat (size (View.likers owner db))), db)
  /\ (forall viewer,
        Db.has_liked viewer owner db
        = (Eff.Return (bool_decide (viewer ∈ View.likers owner db)), db)).
Proof.
  intros db.
  assert (Hkeys : NoDup (map View.like_key (Db.likes db))) by (apply run_keys; constructor).
  split; [exact Hkeys|]. unfold View.likers, Db.get_likes_count, Db.has_liked, Eff.gets.
  split.
  - rewrite size_list_to_set by (apply viewers_of_owner, Hkeys).
    rewrite length_map. reflexivity.
  - intros viewer. rewrite liked_is_liker. f_equal. f_equal.
    apply bool_decide_ext. rewrite elem_of_list_to_set. reflexivity.
Qed.

(** X9. A profile saved again after [delete_profile] is a new row, with
    the clock of the new call as [created_at], and yet has the likes of
    the deleted one: [get_likes_count] and [has_liked] answer as before
    the deletion, and [add_like] from a user who liked the old profile
    returns False. *)
Theorem new_profile_inherits_likes tg data now db :
  let db' := Eff.exec (Db.save_profile tg data now) (Eff.exec (Db.delete_profile tg) db) in
  (exists prof,
      Db.get_profile_by_tg tg db' = (Eff.Return (Some prof), db')
      /\ prof !! "created_at" = Some (Py.VStr now))
  /\ fst (Db.get_likes_count tg db') = fst (Db.get_likes_count tg db)
  /\ (forall viewer,
        fst (Db.has_liked viewer tg db') = fst (Db.has_liked viewer tg db))
  /\ (forall viewer created,
        fst (Db.add_like viewer tg created db')
        = Eff.Return (negb (existsb (Db.is_edge tg viewer) (Db.likes db)))).
Proof.
  intros db'.
  assert (Hlikes : Db.likes db' = Db.likes db).
  { subst db'. rewrite save_profile_likes, delete_profile_likes. reflexivity. }
  split; [|split; [|split]].
  - assert (Hno : existsb (Db.has_tg tg) (Db.profiles (Eff.exec (Db.delete_profile tg) db))
                  = false).
    { apply filter_some. apply filter_filter_negb. }
    destruct (save_profile_fresh tg data now _ Hno) as (rowid & Hsave).
    subst db'. unfold Eff.exec at 1 3. rewrite Hsave. cbn [snd].
    eexists. unfold Db.get_profile_by_tg, Eff.gets. cbn [Db.profiles].
    rewrite List.filter_app, (filter_none _ _ Hno). cbn [List.filter app].
    unfold Db.has_tg at 1. cbn [Db.tg_id Db.set_fields]. rewrite Z.eqb_refl.
    cbn [head fmap option_fmap option_map]. split; reflexivity.
  - unfold Db.get_likes_count, Eff.gets. cbn [fst]. rewrite Hlikes. reflexivity.
  - intros viewer. unfold Db.has_liked, Eff.gets. cbn [fst]. rewrite Hlikes. reflexivity.
  - intros viewer created. rewrite add_like_eq, Hlikes. destruct (existsb _ _); reflexivity.
Qed.

End StoreLists.

(** ** The card and the cursor *)

Section Cards.

Implicit Types (w : Bot.world) (msg : Bot.message) (ctx : Bot.view_context).

Lemma get_owner_id_row r :
  Bot.get_owner_id (Db.row_dict r) = if Db.tg_id r =? 0 then None else Some (Db.tg_id r).
Proof.
  unfold Bot.get_owner_id. cbn [foldr]. unfold Py.get.
  change (Db.row_dict r !! "tg_id") with (Some (Py.VInt (Db.tg_id r))).
  change (Db.row_dict r !! "owner_id") with (@None Py.value).
  change (Db.row_dict r !! "user_id") with (@None Py.value).
  change (Db.row_dict r !! "id") with (@None Py.value).
  cbn [Py.truthy Py.int_of_value]. destruct (Db.tg_id r =? 0); reflexivity.
Qed.

Lemma profile_id_row r :
  Py.or_ (Py.or_ (Py.get (Db.row_dict r) "id" Py.VNone)
                 (Bot.owner_value (Bot.get_owner_id (Db.row_dict r))))
         (Py.VStr "")
  = if Db.tg_id r =? 0 then Py.VStr "" else Py.VInt (Db.tg_id r).
Proof.
  rewrite get_owner_id_row. unfold Py.get.
  change (Db.row_dict r !! "id") with (@None Py.value).
  destruct (Db.tg_id r =? 0) eqn:E; [reflexivity|].
  unfold Py.or_. cbn [Py.truthy Bot.owner_value]. rewrite E. reflexivity.
Qed.

Lemma row_languages r :
  Py.text_or_empty (Py.get (Db.row_dict r) "languages" (Py.VStr ""))
  = Some (default "" (Db.languages r)).
Proof.
  unfold Py.get.
  change (Db.row_dict r !! "languages") with (Some (Db.text_value (Db.languages r))).
  destruct (Db.languages r) as [s|]; [apply text_or_empty_str|reflexivity].
Qed.

Lemma limit_offset_head {A} (l : list A) offset x rest :
  0 <= offset -> Db.limit_offset 1 offset l = x :: rest ->
  l !! Z.to_nat offset = Some x.
Proof.
  intros Hoff. unfold Db.limit_offset. cbn [Z.ltb Z.compare].
  change (Z.to_nat 1) with 1%nat. intros H.
  destruct (drop (Z.to_nat offset) l) as [|y l'] eqn:Hd; [discriminate|].
  cbn [take] in H. injection H as <- _.
  rewrite <- (Nat.add_0_r (Z.to_nat offset)), <- lookup_drop, Hd. reflexivity.
Qed.

(** [try: delete_message / except: pass], step by step. *)
Lemma try_delete_message_eq chat_id mid w :
  Bot.try_delete_message chat_id mid w
  = (Eff.Return tt,
     if existsb (Bot.shows chat_id mid) (Bot.chat w)
     then Bot.set_chat (List.filter (fun m => negb (Bot.shows chat_id mid m)) (Bot.chat w))
                       (Bot.last_message_id w) w
     else w).
Proof.
  unfold Bot.try_delete_message, Eff.try_except, Bot.delete_message.
  destruct (existsb _ _); reflexivity.
Qed.

(** What is left of a conversation once an old action bar is deleted
    from it: the two messages just sent stay. *)
Lemma delete_old_bar viewer old (c : list Bot.sent) m1 m2 :
  old < Bot.message_id m1 -> old < Bot.message_id m2 ->
  exists c0,
    List.filter (fun m => negb (Bot.shows viewer old m)) (c ++ [m1; m2]) = (c0 ++ [m1; m2])%list
    /\ Forall (fun m => In m c) c0.
Proof.
  intros H1 H2. exists (List.filter (fun m => negb (Bot.shows viewer old m)) c).
  split.
  - rewrite List.filter_app. f_equal. cbn [List.filter]. unfold Bot.shows.
    replace (Bot.message_id m1 =? old) with false by (symmetry; apply Z.eqb_neq; lia).
    replace (Bot.message_id m2 =? old) with false by (symmetry; apply Z.eqb_neq; lia).
    rewrite !andb_false_r. reflexivity.
  - apply Forall_forall. intros m Hm. apply list_elem_of_In, filter_In in Hm. tauto.
Qed.

(** The render of a profile for a viewer who can be written to, in
    full. *)
Lemma render_card viewer server offset w :
  viewer ∉ Bot.unreachable w -> 0 < Obs.count server w -> View.keyboard_issued viewer w ->
  Eff.wp (Bot.send_profile_with_actions viewer server offset)
    (fun res w' =>
       res = Eff.Return tt
       /\ exists r ctx chat0,
            View.ordered server (Bot.database w)
              !! Z.to_nat (Obs.clamp offset (Obs.count server w)) = Some r
            /\ Bot.view_contexts w' = <[viewer := ctx]> (Bot.view_contexts w)
            /\ Bot.owner_id ctx = (if Db.tg_id r =? 0 then None else Some (Db.tg_id r))
            /\ Bot.profile_id ctx
               = (if Db.tg_id r =? 0 then Py.VStr "" else Py.VInt (Db.tg_id r))
            /\ Bot.keyboard_message_id ctx = Bot.last_message_id w'
            /\ Bot.last_message_id w < Bot.profile_message_id ctx < Bot.last_message_id w'
            /\ Bot.chat w'
               = (chat0 ++ [View.card viewer r ctx (Bot.database w); View.action_bar viewer ctx])%list
            /\ Forall (fun m => In m (Bot.chat w)) chat0) w.
Proof.
  intros Hreach Hpos Hissued. unfold Bot.send_profile_with_actions.
  apply wp_bind, wp_db, wp_gets. fields. fold (Obs.count server w).
  destruct (Z.eqb_spec (Obs.count server w) 0) as [Hz|Hnz]; [lia|].
  cbv zeta. rewrite clamp_eq by lia.
  apply wp_bind, wp_db, wp_gets. fields.
  destruct (_ <$> _) as [|prof rest] eqn:Hlist.
  { exfalso. apply fmap_nil_inv in Hlist. revert Hlist. apply limit_offset_one.
    rewrite order_by_length. fold (Obs.count server w). unfold Obs.clamp. lia. }
  apply fmap_cons_inv in Hlist as (row & rows & -> & _ & Hrow).
  apply limit_offset_head in Hrow; [|unfold Obs.clamp; lia].
  fold (View.ordered server (Bot.database w)) in Hrow.
  rewrite profile_id_row, get_owner_id_row, row_languages.
  apply wp_bind.
  apply (wp_mono _ (fun r w1 => w1 = Bot.set_database (Bot.database w) w
                                 /\ r = Eff.Return (View.likes_shown row (Bot.database w)))).
  2:{ unfold View.likes_shown, Bot.opt_truthy. destruct (Db.tg_id row =? 0) eqn:E.
      - apply wp_ret. split; [destruct w; reflexivity|reflexivity].
      - rewrite E. apply wp_db, wp_gets. fields. split; reflexivity. }
  intros r w1 [-> ->].
  apply wp_bind, wp_send_message; fields; [contradiction|intros _; cbv zeta].
  apply wp_bind, wp_gets. fields.
  apply wp_bind, wp_send_message; fields; [contradiction|intros _; cbv zeta].
  apply wp_bind. apply wp_intro.
  match goal with
  | |- context [if ?b then _ else _] => destruct b eqn:Hprev
  end.
  - rewrite try_delete_message_eq. cbn [fst snd]. fields.
    unfold View.keyboard_issued in Hissued. unfold Bot.opt_truthy in Hprev.
    destruct (Bot.view_contexts w !! viewer) as [prev|]; [|discriminate].
    cbn [fmap option_fmap option_map default from_option Datatypes.id] in *.
    destruct (existsb _ _).
    + apply wp_modify. fields. split; [reflexivity|].
      rewrite <- !app_assoc. cbn [app].
      match goal with
      | |- context [List.filter _ (_ ++ [?m1; ?m2])] =>
          destruct (delete_old_bar viewer (Bot.keyboard_message_id prev) (Bot.chat w) m1 m2)
            as (c0 & -> & Hc0); [cbn; lia|cbn; lia|]
      end.
      eexists row, _, c0. cbn [Bot.owner_id Bot.profile_id Bot.keyboard_message_id
                                 Bot.profile_message_id Bot.message_id].
      split; [exact Hrow|]. do 4 (split; [reflexivity|]). split; [fields; cbn [Bot.message_id Bot.profile_message_id]; lia|].
      split; [reflexivity|exact Hc0].
    + apply wp_modify. fields. split; [reflexivity|].
      rewrite <- !app_assoc. cbn [app].
      eexists row, _, (Bot.chat w). cbn [Bot.owner_id Bot.profile_id Bot.keyboard_message_id
                                           Bot.profile_message_id Bot.message_id].
      split; [exact Hrow|]. do 4 (split; [reflexivity|]). split; [fields; cbn [Bot.message_id Bot.profile_message_id]; lia|].
      split; [reflexivity|].
      apply Forall_forall. intros m Hm. apply list_elem_of_In. exact Hm.
  - unfold mret, Eff.M_ret. cbn [fst snd]. apply wp_modify. fields. split; [reflexivity|].
    rewrite <- !app_assoc. cbn [app].
    eexists row, _, (Bot.chat w). cbn [Bot.owner_id Bot.profile_id Bot.keyboard_message_id
                                         Bot.profile_message_id Bot.message_id].
    split; [exact Hrow|]. do 4 (split; [reflexivity|]). split; [fields; cbn [Bot.message_id Bot.profile_message_id]; lia|].
    split; [reflexivity|].
    apply Forall_forall. intros m Hm. apply list_elem_of_In. exact Hm.
Qed.

Lemma render_card_witness_world :
  (1 ∉ Bot.unreachable (Obs.browsing Obs.two_profiles 1 (Obs.cursor 0 2 3)))
  /\ 0 < Obs.count "Asia" (Obs.browsing Obs.two_profiles 1 (Obs.cursor 0 2 3))
  /\ View.keyboard_issued 1 (Obs.browsing Obs.two_profiles 1 (Obs.cursor 0 2 3)).
Proof.
  split; [apply not_elem_of_empty|]. split; [reflexivity|].
  unfold View.keyboard_issued. cbn. rewrite lookup_singleton_eq. cbn. lia.
Qed.

(** X10. For a viewer who can be written to, on a server that has
    profiles, [send_profile_with_actions] shows the profile that stands
    at the clamped offset of the list of the server, with the likes that
    [get_likes_count] counts for it, and leaves a cursor whose
    [owner_id] is the [tg_id] of that very profile; [profile_id]
    repeats the owner, since no SELECT reads the column [id]. The card
    and the action bar are the last two messages of the conversation. *)
Theorem card_shows_the_profile_under_the_cursor viewer server offset w :
  let w' := Eff.exec (Bot.send_profile_with_actions viewer server offset) w in
  viewer ∉ Bot.unreachable w -> 0 < Obs.count server w -> View.keyboard_issued viewer w ->
  exists r ctx chat0,
    View.ordered server (Bot.database w)
      !! Z.to_nat (Obs.clamp offset (Obs.count server w)) = Some r
    /\ Bot.view_contexts w' !! viewer = Some ctx
    /\ Bot.owner_id ctx = (if Db.tg_id r =? 0 then None else Some (Db.tg_id r))
    /\ Bot.profile_id ctx = (if Db.tg_id r =? 0 then Py.VStr "" else Py.VInt (Db.tg_id r))
    /\ Bot.chat w'
       = (chat0 ++ [View.card viewer r ctx (Bot.database w); View.action_bar viewer ctx])%list
    /\ View.keyboard_issued viewer w'.
Proof.
  intros w' Hreach Hpos Hissued. subst w'. by_wp.
  eapply wp_mono; [|apply render_card; assumption].
  intros res w' (_ & r & ctx & chat0 & Hr & Hvc & Ho & Hp & Hk & _ & Hchat & _).
  exists r, ctx, chat0. split; [exact Hr|].
  split; [rewrite Hvc; apply lookup_insert_eq|].
  split; [exact Ho|]. split; [exact Hp|]. split; [exact Hchat|].
  unfold View.keyboard_issued. rewrite Hvc, lookup_insert_eq. lia.
Qed.

Lemma card_shows_the_profile_under_the_cursor_witness :
  let w := Obs.browsing Obs.two_profiles 1 (Obs.cursor 0 2 3) in
  let w' := Eff.exec (Bot.send_profile_with_actions 1 "Asia" 1) w in
  exists r ctx chat0,
    View.ordered "Asia" (Bot.database w) !! Z.to_nat (Obs.clamp 1 (Obs.count "Asia" w)) = Some r
    /\ Bot.view_contexts w' !! 1 = Some ctx
    /\ Bot.owner_id ctx = (if Db.tg_id r =? 0 then None else Some (Db.tg_id r))
    /\ Bot.profile_id ctx = (if Db.tg_id r =? 0 then Py.VStr "" else Py.VInt (Db.tg_id r))
    /\ Bot.chat w'
       = (chat0 ++ [View.card 1 r ctx (Bot.database w); View.action_bar 1 ctx])%list
    /\ View.keyboard_issued 1 w'.
Proof.
  intros w.
  exact (card_shows_the_profile_under_the_cursor 1 "Asia" 1 w
           (proj1 render_card_witness_world)
           (proj1 (proj2 render_card_witness_world))
           (proj2 (proj2 render_card_witness_world))).
Defined.

End Cards.

(** ** What the conversation gains *)

Section Adds.

Context (P : Bot.notice -> Prop).

Implicit Types (w : Bot.world).












End Adds.

Section Loads.

Implicit Types (w : Bot.world).




End Loads.

(** ** What stays in the conversation *)

Section Stays.

Context (K : Bot.sent -> Prop).

Implicit Types (w : Bot.world).

Lemma stays_refl : Reflexive (View.stays K).
Proof. intros w m _ Hm. exact Hm. Qed.

Lemma stays_trans : Transitive (View.stays K).
Proof. intros w1 w2 w3 H12 H23 m HK Hm. apply H23, H12; assumption. Qed.

Lemma stays_ret {A} (a : A) : Eff.preserves (View.stays K) (mret a).
Proof. apply preserves_ret, stays_refl. Qed.

Lemma stays_bind {A B} (m : Bot.M A) (k : A -> Bot.M B) :
  Eff.preserves (View.stays K) m ->
  (forall a, Eff.preserves (View.stays K) (k a)) ->
  Eff.preserves (View.stays K) (m ≫= k).
Proof. apply preserves_bind, stays_trans. Qed.

Lemma stays_same_chat w w' : Bot.chat w' = Bot.chat w -> View.stays K w w'.
Proof. intros H m _ Hm. rewrite H. exact Hm. Qed.

Lemma stays_send chat_id body kb :
  Eff.preserves (View.stays K) (Bot.send_message chat_id body kb).
Proof.
  intros w. apply wp_send_message.
  - intros _. apply stays_refl.
  - intros _ m m' _ Hm'. fields. apply in_or_app. left. exact Hm'.
Qed.

Lemma stays_filtered chat_id mid (c : list Bot.sent) :
  (forall m, K m -> Bot.shows chat_id mid m = false) ->
  forall m, K m -> In m c -> In m (List.filter (fun m => negb (Bot.shows chat_id mid m)) c).
Proof.
  intros HK m Hm Hin. apply filter_In. split; [exact Hin|]. rewrite (HK m Hm). reflexivity.
Qed.

Lemma stays_try_delete chat_id mid :
  (forall m, K m -> Bot.shows chat_id mid m = false) ->
  Eff.preserves (View.stays K) (Bot.try_delete_message chat_id mid).
Proof.
  intros HK w. apply wp_intro. rewrite try_delete_message_eq. cbn [fst snd].
  destruct (existsb _ _); [|apply stays_refl].
  intros m Hm Hin. fields. apply stays_filtered; assumption.
Qed.

Lemma stays_modify (f : Bot.world -> Bot.world) :
  (forall w, Bot.chat (f w) = Bot.chat w) ->
  Eff.preserves (View.stays K) (Eff.modify f).
Proof. intros Hf w. apply wp_modify, stays_same_chat, Hf. Qed.

(** A render deletes nothing but the action bar of the cursor that it
    replaces. *)
Lemma render_stays viewer server offset w :
  (forall prev, Bot.view_contexts w !! viewer = Some prev ->
                forall m, K m -> Bot.shows viewer (Bot.keyboard_message_id prev) m = false) ->
  Eff.wp (Bot.send_profile_with_actions viewer server offset)
         (fun _ w' => View.stays K w w') w.
Proof.
  intros Hbar. unfold Bot.send_profile_with_actions.
  apply wp_bind, wp_db, wp_gets. fields.
  replace (Bot.set_database (Bot.database w) w) with w by (destruct w; reflexivity).
  destruct (_ =? 0).
  { apply stays_bind; [apply stays_send|intros _].
    apply stays_bind; [apply stays_send|intros _]. apply stays_ret. }
  cbv zeta. apply wp_bind, wp_db, wp_gets. fields.
  replace (Bot.set_database (Bot.database w) w) with w by (destruct w; reflexivity).
  destruct (_ <$> _) as [|prof rest].
  { apply stays_bind; [apply stays_send|intros _]. apply stays_ret. }
  apply wp_bind.
  apply (wp_mono _ (fun r w1 => w1 = w /\ exists n, r = Eff.Return n)).
  2:{ destruct (Bot.opt_truthy _).
      - apply wp_db, wp_gets. fields. split; [destruct w; reflexivity|eauto].
      - apply wp_ret. eauto. }
  intros r w1 [-> [like_num ->]].
  destruct (Py.text_or_empty _) as [langs_raw|]; [|apply wp_raise, stays_refl].
  apply wp_bind, wp_send_message; [intros _; apply stays_refl|intros _; cbv zeta].
  apply wp_bind, wp_gets. fields.
  apply wp_bind, wp_send_message; fields; intros _; cbv zeta.
  { intros m _ Hm. fields. apply in_or_app. left. exact Hm. }
  apply wp_bind, wp_intro.
  destruct (Bot.view_contexts w !! viewer) as [prev|] eqn:Hprev;
    cbn [fmap option_fmap option_map Bot.opt_truthy default from_option Datatypes.id].
  - destruct (negb (Bot.keyboard_message_id prev =? 0)).
    + rewrite try_delete_message_eq. cbn [fst snd]. fields.
      destruct (existsb _ _); apply wp_modify; fields; intros m HK Hm.
      * apply stays_filtered; [exact (Hbar prev eq_refl)|exact HK|].
        apply in_or_app. left. apply in_or_app. left. exact Hm.
      * apply in_or_app. left. apply in_or_app. left. exact Hm.
    + unfold mret, Eff.M_ret. cbn [fst snd]. apply wp_modify. fields. intros m HK Hm.
      apply in_or_app. left. apply in_or_app. left. exact Hm.
  - unfold mret, Eff.M_ret. cbn [fst snd]. apply wp_modify. fields. intros m HK Hm.
    apply in_or_app. left. apply in_or_app. left. exact Hm.
Qed.

Lemma close_session_stays user ctx closing :
  (forall m, K m -> Bot.shows user (Bot.keyboard_message_id ctx) m = false) ->
  Eff.preserves (View.stays K) (Bot.close_session user ctx closing).
Proof.
  intros Hbar. unfold Bot.close_session. cbv zeta.
  apply stays_bind.
  { destruct (negb _); [apply stays_try_delete, Hbar|apply stays_ret]. }
  intros _. apply stays_bind; [apply stays_modify; reflexivity|intros _].
  apply stays_bind; [apply stays_send|intros _]. apply stays_ret.
Qed.

Lemma next_profile_stays user ctx closing w :
  Bot.view_contexts w !! user = Some ctx ->
  (forall m, K m -> Bot.shows user (Bot.keyboard_message_id ctx) m = false) ->
  Eff.wp (Bot.next_profile user ctx closing) (fun _ w' => View.stays K w w') w.
Proof.
  intros Hctx Hbar. unfold Bot.next_profile. cbv zeta. destruct (_ >=? _).
  - apply close_session_stays, Hbar.
  - apply render_stays. intros prev Hprev. rewrite Hctx in Hprev. injection Hprev as <-.
    exact Hbar.
Qed.

End Stays.

(** ** The four actions *)

Section Actions.

Implicit Types (w : Bot.world) (msg : Bot.message) (ctx : Bot.view_context).

Lemma wp_and {S A} (m : Eff.M S A) (Q1 Q2 : Eff.outcome A -> S -> Prop) (s : S) :
  Eff.wp m Q1 s -> Eff.wp m Q2 s -> Eff.wp m (fun r s' => Q1 r s' /\ Q2 r s') s.
Proof. intros H1 H2. split; assumption. Qed.

Lemma later_not_bar user ctx n :
  Bot.keyboard_message_id ctx <= n ->
  forall m, View.later_than n m -> Bot.shows user (Bot.keyboard_message_id ctx) m = false.
Proof.
  intros Hk m Hm. unfold View.later_than in Hm. unfold Bot.shows.
  replace (Bot.message_id m =? Bot.keyboard_message_id ctx) with false
    by (symmetry; apply Z.eqb_neq; lia).
  apply andb_false_r.
Qed.

Lemma stop_facts :
  String.eqb Bot.STOP Bot.LIKE = false
  /\ String.eqb Bot.STOP Bot.DISLIKE = false
  /\ String.eqb Bot.STOP Bot.LETTER = false
  /\ String.eqb Bot.STOP Bot.STOP = true.
Proof. repeat split. Qed.

(** X12. A Like that passes the checks of the handler is stored as a
    row of [likes] with the clock of the call, whether or not the owner
    can be told. An owner who can be written to receives the notice that
    names the liker, and the viewer the confirmation; when the owner
    cannot be written to, the viewer is told that the like counts but
    the owner was not notified. *)
Theorem like_is_stored_and_announced msg w ctx owner :
  let user := Bot.user_id (Bot.from_user msg) in
  let w' := Eff.exec (Bot.handle_action_message msg) w in
  let db := Bot.database w in
  let n := Bot.last_message_id w in
  Bot.view_contexts w !! user = Some ctx ->
  Bot.text msg = Bot.LIKE ->
  Bot.owner_id ctx = Some owner -> owner <> 0 -> owner <> user ->
  Db.has_liked user owner db = (Eff.Return false, db) ->
  user ∉ Bot.unreachable w ->
  View.keyboard_issued user w ->
  Bot.database w'
  = Db.Database (Db.profiles db) (Db.likes db ++ [Db.LikeRow owner user (Bot.utcnow w)])
                (Db.sequence db)
  /\ if bool_decide (owner ∈ Bot.unreachable w)
     then In (Bot.Sent user (n + 1) Bot.LikeSentOwnerNotNotified Bot.ReplyKeyboardRemove)
             (Bot.chat w')
     else In (Bot.Sent owner (n + 1) (Bot.LikeReceived (Bot.liker_name (Bot.from_user msg)))
                       Bot.NoMarkup) (Bot.chat w')
          /\ In (Bot.Sent user (n + 1 + 1) Bot.LikeSentOwnerNotified Bot.ReplyKeyboardRemove)
                (Bot.chat w').
Proof.
  intros user w' db n Hctx Hlike Howner Hnz Hother Hfresh Hreach Hissued.
  subst w'. by_wp.
  apply (wp_like msg w ctx owner); try assumption.
  fold user db.
  unfold View.keyboard_issued in Hissued. rewrite Hctx in Hissued. fold n in Hissued.
  set (w1 := Bot.set_database _ w).
  assert (Hnext : forall c k,
             Bot.view_contexts (Bot.set_chat c k w1) !! user = Some ctx) by (intros; exact Hctx).
  assert (Hgo : forall c k,
             Eff.wp (Bot.next_profile user ctx Bot.NoMoreProfiles)
               (fun _ w' => Bot.database w' = Bot.database w1
                            /\ View.stays (View.later_than n) (Bot.set_chat c k w1) w')
               (Bot.set_chat c k w1)).
  { intros c k. apply wp_and.
    - eapply wp_mono; [|apply next_profile_any]. intros r w' [(Hdb & _) _]. exact Hdb.
    - apply next_profile_stays; [apply Hnext|]. apply later_not_bar, Hissued. }
  unfold Bot.like_inserted. fold user. apply wp_bind, wp_try_except, wp_bind.
  apply wp_send_message; subst w1; fields; fold n.
  - intros Hgone. apply wp_bind. unfold Bot.answer. fold user.
    apply wp_send_message; fields; [contradiction|intros _; cbv zeta]. fold n.
    apply wp_ret. eapply wp_mono; [|apply Hgo]. intros r w' [Hdb Hstay].
    split; [exact Hdb|]. rewrite bool_decide_eq_true_2 by exact Hgone.
    apply Hstay; [unfold View.later_than; cbn; lia|].
    fields. apply in_or_app. right. left. reflexivity.
  - intros Hthere. cbv zeta. apply wp_bind. unfold Bot.answer. fold user.
    apply wp_send_message; fields; [contradiction|intros _; cbv zeta]. fold n.
    apply wp_ret. eapply wp_mono; [|apply Hgo]. intros r w' [Hdb Hstay].
    split; [exact Hdb|]. rewrite bool_decide_eq_false_2 by exact Hthere.
    split; (apply Hstay; [unfold View.later_than; cbn; lia|]); fields.
    + apply in_or_app. left. apply in_or_app. right. left. reflexivity.
    + apply in_or_app. right. left. reflexivity.
Qed.

Lemma browsing_world_facts :
  let w := Obs.browsing Obs.two_profiles 1 (Obs.cursor 0 2 3) in
  Bot.view_contexts w !! 1 = Some (Obs.cursor 0 2 3)
  /\ (1 ∉ Bot.unreachable w)
  /\ View.keyboard_issued 1 w.
Proof.
  cbv zeta. split; [apply lookup_singleton_eq|]. split; [apply not_elem_of_empty|].
  unfold View.keyboard_issued. cbn. rewrite lookup_singleton_eq. cbn. lia.
Qed.

Lemma like_is_stored_and_announced_witness :
  let w := Obs.browsing Obs.two_profiles 1 (Obs.cursor 0 2 3) in
  let w' := Eff.exec (Bot.handle_action_message (Bot.Message Obs.traveler Bot.LIKE)) w in
  Db.has_liked 1 3 (Bot.database w) = (Eff.Return false, Bot.database w)
  /\ Bot.database w'
     = Db.Database (Db.profiles (Bot.database w))
                   (Db.likes (Bot.database w) ++ [Db.LikeRow 3 1 (Bot.utcnow w)])
                   (Db.sequence (Bot.database w))
  /\ In (Bot.Sent 3 3 (Bot.LikeReceived "@traveler") Bot.NoMarkup) (Bot.chat w').
Proof.
  intros w w'. split; [reflexivity|].
  destruct (like_is_stored_and_announced (Bot.Message Obs.traveler Bot.LIKE) w
              (Obs.cursor 0 2 3) 3
              (proj1 browsing_world_facts) eq_refl eq_refl ltac:(discriminate)
              ltac:(discriminate) eq_refl
              (proj1 (proj2 browsing_world_facts)) (proj2 (proj2 browsing_world_facts)))
    as [Hdb Hchat].
  split; [exact Hdb|]. exact (proj1 Hchat).
Defined.

(** X13. A Like on a profile that the viewer has liked before is turned
    down with the notice of an earlier like, and the viewer stays on
    that profile: the file, the cursor and the dialog storage are not
    touched. *)
Theorem a_second_like_does_not_move_on msg w ctx owner :
  let user := Bot.user_id (Bot.from_user msg) in
  let w' := Eff.exec (Bot.handle_action_message msg) w in
  Bot.view_contexts w !! user = Some ctx ->
  Bot.text msg = Bot.LIKE ->
  Bot.owner_id ctx = Some owner -> owner <> 0 -> owner <> user ->
  Db.has_liked user owner (Bot.database w) = (Eff.Return true, Bot.database w) ->
  Obs.reprompted user Bot.AlreadyLiked w w'.
Proof.
  intros user w' Hctx Hlike Howner Hnz Hother Hliked. subst w'. by_wp.
  unfold Bot.handle_action_message. fold user.
  apply wp_bind, wp_gets. rewrite Hctx, Hlike, Howner.
  destruct caption_facts as (-> & _).
  destruct (Z.eqb_spec owner 0); [contradiction|].
  destruct (Z.eqb_spec owner user); [contradiction|].
  apply wp_bind, wp_db. unfold Eff.wp. rewrite Hliked. cbn [fst snd].
  replace (Bot.set_database (Bot.database w) w) with w by (destruct w; reflexivity).
  apply wp_reject.
Qed.

Lemma a_second_like_does_not_move_on_witness :
  let w := Obs.browsing Obs.liked_already 1 (Obs.cursor 0 2 3) in
  Db.has_liked 1 3 (Bot.database w) = (Eff.Return true, Bot.database w)
  /\ Obs.reprompted 1 Bot.AlreadyLiked w
       (Eff.exec (Bot.handle_action_message (Bot.Message Obs.traveler Bot.LIKE)) w).
Proof.
  intros w. split; [reflexivity|].
  apply (a_second_like_does_not_move_on (Bot.Message Obs.traveler Bot.LIKE) w
           (Obs.cursor 0 2 3) 3).
  - apply lookup_singleton_eq.
  - reflexivity.
  - reflexivity.
  - discriminate.
  - discriminate.
  - reflexivity.
Defined.

Lemma bar_removed_filter user ctx (c : list Bot.sent) :
  Forall (fun m => Bot.shows user (Bot.keyboard_message_id ctx) m = false)
         (List.filter (fun m => negb (Bot.shows user (Bot.keyboard_message_id ctx) m)) c).
Proof.
  apply Forall_forall. intros m Hm. apply list_elem_of_In, filter_In in Hm as [_ Hm].
  destruct (Bot.shows _ _ m); [discriminate|reflexivity].
Qed.

Lemma bar_removed_absent user ctx (c : list Bot.sent) :
  existsb (Bot.shows user (Bot.keyboard_message_id ctx)) c = false ->
  Forall (fun m => Bot.shows user (Bot.keyboard_message_id ctx) m = false) c.
Proof.
  intros H. apply Forall_forall. intros m Hm. apply list_elem_of_In in Hm.
  destruct (Bot.shows _ _ m) eqn:E; [|reflexivity].
  assert (Hex : existsb (Bot.shows user (Bot.keyboard_message_id ctx)) c = true)
    by (apply existsb_exists; eauto).
  congruence.
Qed.

(** X14. Without a cursor, whatever the action, the handler answers
    that there is no profile on display and changes nothing. With a
    cursor, Stop removes it and touches neither the file nor the
    dialog; for a user who can be written to, whose action bar is a
    message that was sent, the bar is gone from the conversation, whose
    last message is the closing text with the main menu. The next
    action of the user after a Stop therefore finds no cursor. *)
Theorem stop_ends_the_session msg w :
  let user := Bot.user_id (Bot.from_user msg) in
  let w' := Eff.exec (Bot.handle_action_message msg) w in
  match Bot.view_contexts w !! user with
  | None => Obs.reprompted user Bot.NoCurrentProfile w w'
  | Some ctx =>
      Bot.text msg = Bot.STOP ->
      Bot.view_contexts w' = delete user (Bot.view_contexts w)
      /\ Obs.frame w w'
      /\ (user ∉ Bot.unreachable w -> View.keyboard_issued user w ->
          Bot.keyboard_message_id ctx <> 0 ->
          View.bar_removed user ctx w'
          /\ exists chat0,
               Bot.chat w'
               = (chat0 ++ [Bot.Sent user (Bot.last_message_id w + 1) Bot.BrowsingStopped
                                     Bot.main_menu_keyboard])%list)
      /\ (forall msg2,
             Bot.user_id (Bot.from_user msg2) = user ->
             Obs.reprompted user Bot.NoCurrentProfile w'
               (Eff.exec (Bot.handle_action_message msg2) w'))
  end.
Proof.
  intros user w'.
  assert (Hnone : forall msg0 w0,
             Bot.view_contexts w0 !! Bot.user_id (Bot.from_user msg0) = None ->
             Obs.reprompted (Bot.user_id (Bot.from_user msg0)) Bot.NoCurrentProfile w0
               (Eff.exec (Bot.handle_action_message msg0) w0)).
  { intros msg0 w0 H0. by_wp. unfold Bot.handle_action_message.
    apply wp_bind, wp_gets. rewrite H0. apply wp_reject. }
  destruct (Bot.view_contexts w !! user) as [ctx|] eqn:Hctx; [|apply Hnone, Hctx].
  intros Hstop.
  assert (Hvc : Bot.view_contexts w' = delete user (Bot.view_contexts w)
                /\ Obs.frame w w'
                /\ (user ∉ Bot.unreachable w -> View.keyboard_issued user w ->
                    Bot.keyboard_message_id ctx <> 0 ->
                    View.bar_removed user ctx w'
                    /\ exists chat0,
                         Bot.chat w'
                         = (chat0 ++ [Bot.Sent user (Bot.last_message_id w + 1)
                                               Bot.BrowsingStopped
                                               Bot.main_menu_keyboard])%list)).
  { subst w'. by_wp. unfold Bot.handle_action_message. fold user.
    apply wp_bind, wp_gets. rewrite Hctx, Hstop.
    destruct stop_facts as (-> & -> & -> & ->).
    unfold Bot.close_session. cbv zeta. apply wp_bind, wp_intro.
    destruct (Z.eqb_spec (Bot.keyboard_message_id ctx) 0) as [Hz|Hnz]; cbn [negb].
    - unfold mret at 1, Eff.M_ret at 1. cbn [fst snd].
      apply wp_bind, wp_modify, wp_bind, wp_send_message_any. intros [m|e] c k; fields.
      + apply wp_ret. fields. split; [reflexivity|]. split; [repeat split|]. intros; contradiction.
      + split; [reflexivity|]. split; [repeat split|]. intros; contradiction.
    - rewrite try_delete_message_eq. cbn [fst snd].
      assert (Hsend : forall c,
                 Forall (fun m => Bot.shows user (Bot.keyboard_message_id ctx) m = false) c ->
                 Eff.wp
                   (Eff.modify
                      (fun w0 => Bot.set_view_contexts (delete user (Bot.view_contexts w0)) w0) ≫=
                    (fun _ => Bot.send_message user Bot.BrowsingStopped Bot.main_menu_keyboard ≫=
                              (fun _ => mret tt)))
                   (fun _ w' =>
                      Bot.view_contexts w' = delete user (Bot.view_contexts w)
                      /\ Obs.frame w w'
                      /\ (user ∉ Bot.unreachable w -> View.keyboard_issued user w ->
                          Bot.keyboard_message_id ctx <> 0 ->
                          View.bar_removed user ctx w'
                          /\ exists chat0,
                               Bot.chat w'
                               = (chat0 ++ [Bot.Sent user (Bot.last_message_id w + 1)
                                                     Bot.BrowsingStopped
                                                     Bot.main_menu_keyboard])%list))
                   (Bot.set_chat c (Bot.last_message_id w) w)).
      { intros c Hc. apply wp_bind, wp_modify, wp_bind. apply wp_send_message; fields.
        - intros Hgone. split; [reflexivity|]. split; [repeat split|]. intros; contradiction.
        - intros _. cbv zeta. apply wp_ret. fields.
          split; [reflexivity|]. split; [repeat split|].
          intros _ Hissued _. unfold View.keyboard_issued in Hissued. rewrite Hctx in Hissued.
          split; [|eauto].
          unfold View.bar_removed. fields. apply Forall_app. split; [exact Hc|].
          constructor; [|constructor]. unfold Bot.shows. cbn [Bot.message_id Bot.chat_id].
          replace (Bot.last_message_id w + 1 =? Bot.keyboard_message_id ctx) with false
            by (symmetry; apply Z.eqb_neq; lia).
          apply andb_false_r. }
      destruct (existsb _ _) eqn:Hshown.
      + apply Hsend, bar_removed_filter.
      + pose proof (Hsend (Bot.chat w) (bar_removed_absent _ _ _ Hshown)) as H.
        rewrite set_chat_same in H. exact H. }
  destruct Hvc as (Hvc & Hframe & Hbar).
  split; [exact Hvc|]. split; [exact Hframe|]. split; [exact Hbar|].
  intros msg2 Huser. rewrite <- Huser. apply Hnone.
  rewrite Huser, Hvc. apply lookup_delete_eq.
Qed.

Lemma stop_ends_the_session_witness :
  let w := Obs.browsing Obs.two_profiles 1 (Obs.cursor 0 2 3) in
  let w' := Eff.exec (Bot.handle_action_message (Bot.Message Obs.traveler Bot.STOP)) w in
  Bot.view_contexts w' = delete 1 (Bot.view_contexts w)
  /\ Obs.reprompted 1 Bot.NoCurrentProfile w'
       (Eff.exec (Bot.handle_action_message (Bot.Message Obs.traveler Bot.LIKE)) w').
Proof.
  intros w w'.
  pose proof (stop_ends_the_session (Bot.Message Obs.traveler Bot.STOP) w) as H.
  cbv zeta in H.
  change (Bot.view_contexts w
            !! Bot.user_id (Bot.from_user (Bot.Message Obs.traveler Bot.STOP)))
    with (Some (Obs.cursor 0 2 3)) in H.
  destruct (H eq_refl) as (Hvc & _ & _ & Hnext).
  split; [exact Hvc|]. exact (Hnext (Bot.Message Obs.traveler Bot.LIKE) eq_refl).
Defined.

(** X15. The Letter action on the profile of another user stores the
    owner under [message_target] in the dialog data of the viewer and,
    for a viewer who can be written to, asks for the text and moves to
    [Form.sending_message]; the file and the cursor stay as they
    were. *)
Theorem letter_names_the_owner msg w ctx owner :
  let user := Bot.user_id (Bot.from_user msg) in
  let w' := Eff.exec (Bot.handle_action_message msg) w in
  Bot.view_contexts w !! user = Some ctx ->
  Bot.text msg = Bot.LETTER ->
  Bot.owner_id ctx = Some owner -> owner <> user ->
  Bot.fsm_data w' !! user = Some (<["message_target" := Py.VInt owner]> (Obs.session w user))
  /\ Bot.database w' = Bot.database w
  /\ Bot.view_contexts w' = Bot.view_contexts w
  /\ (user ∉ Bot.unreachable w ->
      Bot.fsm_state w' !! user = Some Bot.Form.sending_message
      /\ Bot.chat w'
         = (Bot.chat w ++ [Bot.Sent user (Bot.last_message_id w + 1) Bot.AskMessageText
                                    Bot.ReplyKeyboardRemove])%list).
Proof.
  intros user w' Hctx Hletter Howner Hother. subst w'. by_wp.
  unfold Bot.handle_action_message. fold user.
  apply wp_bind, wp_gets. rewrite Hctx, Hletter, Howner.
  destruct caption_facts as (_ & _ & _ & -> & -> & ->).
  destruct (Z.eqb_spec owner user); [contradiction|].
  apply wp_bind. unfold Bot.update_data. apply wp_modify.
  apply wp_bind. unfold Bot.answer. fold user. apply wp_send_message; fields.
  - intros Hgone. split; [apply lookup_insert_eq|]. do 2 (split; [reflexivity|]).
    intros; contradiction.
  - intros _. cbv zeta. unfold Bot.set_state. apply wp_modify. fields.
    split; [apply lookup_insert_eq|]. do 2 (split; [reflexivity|]).
    intros _. split; [apply lookup_insert_eq|reflexivity].
Qed.

Lemma letter_names_the_owner_witness :
  let w := Obs.browsing Obs.two_profiles 1 (Obs.cursor 0 2 3) in
  let w' := Eff.exec (Bot.handle_action_message (Bot.Message Obs.traveler Bot.LETTER)) w in
  Bot.fsm_data w' !! 1 = Some (<["message_target" := Py.VInt 3]> (Obs.session w 1))
  /\ Bot.fsm_state w' !! 1 = Some Bot.Form.sending_message.
Proof.
  intros w w'.
  destruct (letter_names_the_owner (Bot.Message Obs.traveler Bot.LETTER) w (Obs.cursor 0 2 3) 3
              (proj1 browsing_world_facts) eq_refl eq_refl ltac:(discriminate))
    as (Hdata & _ & _ & Hstate).
  split; [exact Hdata|]. exact (proj1 (Hstate (proj1 (proj2 browsing_world_facts)))).
Defined.

End Actions.

(** ** The form, step by step *)

Section Form.

Implicit Types (w : Bot.world) (msg : Bot.message) (cq : Bot.callback_query).

Lemma data_to_save_field d k :
  In k View.FIELDS -> Py.get (Bot.data_to_save d) k (Py.VStr "") = Py.get d k (Py.VStr "").
Proof.
  intros Hk. unfold Py.get, Bot.data_to_save. cbv zeta.
  assert (Hne : k <> "editing").
  { intros ->. cbn in Hk. intuition discriminate. }
  destruct (decide (k = "platforms")) as [->|Hpf];
    [|destruct (decide (k = "playstyle")) as [->|Hps]].
  - repeat case_bool_decide;
      rewrite ?lookup_insert_eq, ?(lookup_insert_ne _ "playstyle") by discriminate;
      rewrite ?lookup_insert_eq, ?lookup_delete_ne by discriminate; try reflexivity.
    all: match goal with
         | H : ¬ is_Some (_ !! "platforms") |- _ =>
             rewrite lookup_delete_ne in H by discriminate;
             apply eq_None_not_Some in H; rewrite H; reflexivity
         end.
  - repeat case_bool_decide;
      rewrite ?lookup_insert_eq, ?(lookup_insert_ne _ "platforms") by discriminate;
      rewrite ?lookup_delete_ne by discriminate; try reflexivity.
    all: match goal with
         | H : ¬ is_Some (_ !! "playstyle") |- _ =>
             rewrite ?(lookup_insert_ne _ "platforms") in H by discriminate;
             rewrite lookup_delete_ne in H by discriminate;
             apply eq_None_not_Some in H; rewrite H; reflexivity
         end.
  - repeat case_bool_decide; rewrite ?lookup_insert_ne by congruence;
      rewrite lookup_delete_ne by congruence; reflexivity.
Qed.

(** X16. The Accept button saves the dialog data of the user, and no
    other choice saves anything: after [confirm:yes],
    [get_profile_by_tg] reads back, for each of the nine columns, what
    the dialog held under that key (the empty text for a key it never
    wrote); after any other choice the file is as it was. Either way a
    user who can be written to leaves the dialog with no state and no
    data, and the cursors are untouched. *)
Theorem confirm_saves_only_on_yes q mid u choice w :
  let user := Bot.user_id u in
  let w' := Eff.exec (Bot.process_confirm (Bot.CallbackQuery q u ("confirm:" ++ choice) mid)) w in
  (if String.eqb choice "yes" then
     exists prof,
       Db.get_profile_by_tg user (Bot.database w') = (Eff.Return (Some prof), Bot.database w')
       /\ prof !! "tg_id" = Some (Py.VInt user)
       /\ Forall (fun k => prof !! k
                           = Some (Db.text_value
                                     (Db.bind_text (Py.get (Obs.session w user) k (Py.VStr "")))))
                 View.FIELDS
   else Bot.database w' = Bot.database w)
  /\ Bot.view_contexts w' = Bot.view_contexts w
  /\ (user ∉ Bot.unreachable w ->
      Bot.fsm_state w' !! user = None /\ Bot.fsm_data w' !! user = Some ∅).
Proof.
  intros user w'. split; [|split].
  - destruct (String.eqb_spec choice "yes") as [->|Hno].
    + subst w'. change ("confirm:" ++ "yes") with "confirm:yes".
      rewrite process_confirm_saves. fold user.
      destruct (save_profile_read user (Bot.data_to_save (Obs.session w user)) (Bot.utcnow w)
                  (Bot.database w)) as (_ & prof & Hget & Hid & Hfields & _).
      exists prof. split; [exact Hget|]. split; [exact Hid|].
      apply Forall_forall. intros k Hk. rewrite Forall_forall in Hfields.
      rewrite (Hfields k Hk). rewrite data_to_save_field by (apply list_elem_of_In, Hk).
      reflexivity.
    + subst w'. by_wp. unfold Bot.process_confirm.
      change (Py.after_first ":" (Bot.data (Bot.CallbackQuery q u ("confirm:" ++ choice) mid)))
        with (Some choice).
      apply wp_bind. unfold Bot.answer_callback_query. apply wp_modify.
      apply String.eqb_neq in Hno. rewrite Hno.
      apply wp_bind, wp_send_message_any. intros [m|e] c n; fields; [|reflexivity].
      unfold Bot.finish. apply wp_modify. reflexivity.
  - subst w'. by_wp. unfold Bot.process_confirm.
    change (Py.after_first ":" (Bot.data (Bot.CallbackQuery q u ("confirm:" ++ choice) mid)))
      with (Some choice).
    apply wp_bind. unfold Bot.answer_callback_query. apply wp_modify.
    destruct (String.eqb choice "yes").
    + apply wp_bind, wp_gets. apply wp_bind. unfold Bot.save_profile.
      apply wp_bind, wp_gets, wp_db, wp_intro.
      destruct (Db.save_profile _ _ _ _) as [[[]|e] db']; cbn [fst snd]; [|reflexivity].
      apply wp_bind, wp_send_message_any. intros [m|e] c n; fields; [|reflexivity].
      unfold Bot.finish. apply wp_modify. reflexivity.
    + apply wp_bind, wp_send_message_any. intros [m|e] c n; fields; [|reflexivity].
      unfold Bot.finish. apply wp_modify. reflexivity.
  - intros Hreach. subst w'. by_wp. unfold Bot.process_confirm.
    change (Py.after_first ":" (Bot.data (Bot.CallbackQuery q u ("confirm:" ++ choice) mid)))
      with (Some choice).
    cbn [Bot.cq_from_user Bot.cq_id]. fold user.
    apply wp_bind. unfold Bot.answer_callback_query. apply wp_modify.
    destruct (String.eqb choice "yes").
    + apply wp_bind, wp_gets. apply wp_bind. unfold Bot.save_profile.
      apply wp_bind, wp_gets, wp_db, wp_intro. fields.
      destruct (save_profile_read user
                  (Bot.data_to_save (default ∅ (Bot.fsm_data w !! user))) (Bot.utcnow w)
                  (Bot.database w)) as (Hret & _).
      destruct (Db.save_profile _ _ _ _) as [r db']. cbn [fst snd] in *. subst r.
      apply wp_bind, wp_send_message; fields; [contradiction|intros _; cbv zeta].
      unfold Bot.finish. apply wp_modify. fields.
      split; [apply lookup_delete_eq|apply lookup_insert_eq].
    + apply wp_bind, wp_send_message; fields; [contradiction|intros _; cbv zeta].
      unfold Bot.finish. apply wp_modify. fields.
      split; [apply lookup_delete_eq|apply lookup_insert_eq].
Qed.

Lemma confirm_saves_only_on_yes_witness :
  let u := Bot.User 5 None "Aether" in
  let w := Obs.choosing_languages in
  let w' := Eff.exec (Bot.process_confirm (Bot.CallbackQuery 1 u "confirm:yes" 7)) w in
  (5 ∉ Bot.unreachable w)
  /\ Bot.fsm_state w' !! 5 = None /\ Bot.fsm_data w' !! 5 = Some ∅.
Proof.
  intros u w w'. split; [apply not_elem_of_empty|].
  apply (proj2 (proj2 (confirm_saves_only_on_yes 1 7 u "yes" w))).
  apply not_elem_of_empty.
Defined.






(** What one press does to the set of selected languages, whatever the
    callback data. *)
Lemma lang_step cq w (S : gset string) :
  let user := Bot.user_id (Bot.cq_from_user cq) in
  Obs.working_set w user = Some S ->
  Obs.working_set (Eff.exec (Bot.process_lang_toggle cq) w) user
  = Some (match Py.after_first ":" (Bot.data cq) with
          | Some action => if bool_decide (action ∈ Bot.codes) then Bot.toggle action S else S
          | None => S
          end).
Proof.
  intros user HS. unfold Obs.working_set in HS.
  destruct (Py.text_or_empty _) as [raw|] eqn:Hraw; [|discriminate].
  injection HS as <-.
  assert (Hsame : forall w', Bot.fsm_data w' = Bot.fsm_data w ->
                             Obs.working_set w' user = Some (Bot.selected_languages raw)).
  { intros w' Hw'. unfold Obs.working_set. rewrite Hw', Hraw. reflexivity. }
  by_wp. unfold Bot.process_lang_toggle. fold user.
  destruct (Py.after_first ":" (Bot.data cq)) as [action|];
    [|apply wp_raise, Hsame; reflexivity].
  apply wp_bind, wp_gets. rewrite Hraw.
  destruct (bool_decide (action ∈ Bot.codes)) eqn:Hcode.
  - apply bool_decide_eq_true in Hcode.
    assert (Hws : forall w', Bot.fsm_data w' =
                   <[user :=
                       <["languages" := Py.VStr (Py.join ","
                           (Py.sorted (Bot.toggle action (Bot.selected_languages raw))))]>
                         (default ∅ (Bot.fsm_data w !! user))]> (Bot.fsm_data w) ->
                 Obs.working_set w' user
                 = Some (Bot.toggle action (Bot.selected_languages raw))).
    { intros w' Hw'. unfold Obs.working_set. rewrite Hw'.
      rewrite lookup_insert_eq. cbn [default from_option Datatypes.id]. unfold Py.get.
      rewrite lookup_insert_eq, text_or_empty_str. cbn [fmap option_fmap option_map].
      f_equal. rewrite selected_join.
      - apply sorted_set.
      - apply sorted_canonical, toggle_canonical.
        + apply codes_canonical, Hcode.
        + intros x. apply selected_canonical. }
    apply wp_bind. unfold Bot.update_data. apply wp_modify.
    apply wp_bind, wp_try_except, wp_edit_message_text.
    intros [[]|e] c.
    + unfold Bot.answer_callback_query. apply wp_modify. apply Hws. reflexivity.
    + apply wp_bind. unfold Bot.answer_callback_query at 1. apply wp_modify.
      apply wp_bind, wp_send_message_any. intros [m|e'] c' n.
      * apply wp_ret. unfold Bot.answer_callback_query. apply wp_modify.
        apply Hws. reflexivity.
      * apply Hws. reflexivity.
  - destruct (String.eqb action "DONE"); [|apply wp_ret, Hsame; reflexivity].
    apply wp_bind. unfold Bot.answer_callback_query. apply wp_modify.
    apply wp_bind, wp_send_message_any. intros [m|e] c n; fields;
      [|apply Hsame; reflexivity].
    unfold Bot.set_state. apply wp_modify. apply Hsame. reflexivity.
Qed.

Lemma code_has_flag code :
  code ∈ Bot.codes ->
  exists em, Bot.LANG_EMOJI !! code = Some em /\ String.eqb em "" = false.
Proof.
  unfold Bot.codes. rewrite elem_of_list_to_set, list_elem_of_In.
  simpl. intros H.
  repeat (destruct H as [<-|H]; [eexists; split; reflexivity|]).
  destruct H.
Qed.

Lemma join_not_empty sep x (l : list string) : x <> "" -> Py.join sep (x :: l) <> "".
Proof.
  intros Hx. unfold Py.join. destruct l as [|y l]; cbn [String.concat]; [exact Hx|].
  destruct x as [|c x]; [contradiction|]. discriminate.
Qed.

Lemma canonical_parts (l : list string) :
  Forall Obs.canonical l ->
  map (fun p => Py.upper (Py.strip p))
      (List.filter (fun p => negb (String.eqb (Py.strip p) "")) l) = l.
Proof.
  induction 1 as [|y l' (Hne & _ & Hs & Hu) _ IH]; [reflexivity|].
  simpl. rewrite Hs. destruct (String.eqb_spec y "") as [E|_]; [contradiction|].
  simpl. rewrite Hs, Hu, IH. reflexivity.
Qed.

Lemma flags_of_codes (l : list string) :
  Forall (fun c => c ∈ Bot.codes) l ->
  map (fun p => match Bot.LANG_EMOJI !! p with
                | Some em => if String.eqb em "" then p else em
                | None => p
                end) l = View.flags l
  /\ length (View.flags l) = length l.
Proof.
  induction 1 as [|c l Hc _ [IH1 IH2]]; [split; reflexivity|].
  destruct (code_has_flag c Hc) as (em & Hem & Hne).
  unfold View.flags in *. cbn [map omap list_omap]. rewrite Hem, Hne. cbn [length].
  split; [f_equal; exact IH1|f_equal; exact IH2].
Qed.

Lemma sorted_length (S : gset string) : length (Py.sorted S) = size S.
Proof.
  unfold Py.sorted. rewrite merge_sort_Permutation. reflexivity.
Qed.

(** X19. A set of selected languages that holds codes of [LANG_BUTTONS]
    only still does after any press that [process_lang_toggle]
    handles, whatever the callback data; and what the handler stores
    for such a set, the codes in order joined by commas, is shown by
    [format_language_flags] as one flag for each selected code, in the
    same order, joined by spaces. *)
Theorem chosen_languages_are_shown_as_flags cq w (S : gset string) :
  let user := Bot.user_id (Bot.cq_from_user cq) in
  let w' := Eff.exec (Bot.process_lang_toggle cq) w in
  Obs.working_set w user = Some S -> S ⊆ Bot.codes ->
  exists S',
    Obs.working_set w' user = Some S'
    /\ S' ⊆ Bot.codes
    /\ Bot.format_language_flags (Py.join "," (Py.sorted S'))
       = Py.join " " (View.flags (Py.sorted S'))
    /\ length (View.flags (Py.sorted S')) = size S'.
Proof.
  intros user w' HS Hsub. eexists. split; [apply lang_step, HS|].
  set (S' := match Py.after_first ":" (Bot.data cq) with
             | Some action => if bool_decide (action ∈ Bot.codes) then Bot.toggle action S else S
             | None => S
             end).
  assert (Hsub' : S' ⊆ Bot.codes).
  { subst S'. destruct (Py.after_first _ _) as [action|]; [|exact Hsub].
    destruct (bool_decide (action ∈ Bot.codes)) eqn:Hcode; [|exact Hsub].
    apply bool_decide_eq_true in Hcode. unfold Bot.toggle.
    case_bool_decide; intros x Hx.
    - apply elem_of_difference in Hx as [Hx _]. apply Hsub, Hx.
    - apply elem_of_union in Hx as [Hx|Hx]; [apply Hsub, Hx|].
      apply elem_of_singleton in Hx. subst x. exact Hcode. }
  split; [exact Hsub'|].
  assert (Hcodes : Forall (fun c => c ∈ Bot.codes) (Py.sorted S')).
  { apply Forall_forall. intros x Hx. apply Hsub'.
    rewrite <- (sorted_set S'), elem_of_list_to_set. exact Hx. }
  assert (Hcanon : Forall Obs.canonical (Py.sorted S')).
  { eapply Forall_impl; [exact Hcodes|]. intros x. apply codes_canonical. }
  destruct (flags_of_codes _ Hcodes) as [Hflags Hlen].
  split; [|rewrite Hlen; apply sorted_length].
  unfold Bot.format_language_flags.
  destruct (Py.sorted S') as [|x l] eqn:Hl; [reflexivity|].
  assert (Hx : x <> "").
  { apply Forall_inv in Hcanon. destruct Hcanon as [Hne _]. exact Hne. }
  destruct (String.eqb_spec (Py.join "," (x :: l)) "") as [E|_];
    [exfalso; exact (join_not_empty _ _ _ Hx E)|].
  rewrite split_join.
  - rewrite (canonical_parts _ Hcanon), Hflags. reflexivity.
  - discriminate.
  - eapply Forall_impl; [exact Hcanon|]. intros y (_ & H & _). exact H.
Qed.

Lemma chosen_languages_are_shown_as_flags_witness :
  let u := Bot.User 5 None "Aether" in
  let w := Obs.choosing_languages in
  let w' := Eff.exec (Bot.process_lang_toggle (Bot.CallbackQuery 1 u "lang:UA" 7)) w in
  Obs.working_set w 5 = Some (Bot.selected_languages "en, ru")
  /\ Bot.selected_languages "en, ru" ⊆ Bot.codes
  /\ exists S',
       Obs.working_set w' 5 = Some S'
       /\ S' ⊆ Bot.codes
       /\ Bot.format_language_flags (Py.join "," (Py.sorted S'))
          = Py.join " " (View.flags (Py.sorted S'))
       /\ length (View.flags (Py.sorted S')) = size S'.
Proof.
  intros u w w'.
  assert (Hset : Obs.working_set w 5 = Some (Bot.selected_languages "en, ru")) by reflexivity.
  assert (Hsub : Bot.selected_languages "en, ru" ⊆ Bot.codes).
  { apply (bool_decide_unpack (Bot.selected_languages "en, ru" ⊆ Bot.codes)).
    vm_compute. exact I. }
  split; [exact Hset|]. split; [exact Hsub|].
  exact (chosen_languages_are_shown_as_flags (Bot.CallbackQuery 1 u "lang:UA" 7) w
           (Bot.selected_languages "en, ru") Hset Hsub).
Defined.

(** *** An edit that keeps every field *)

Lemma talked_refl : Reflexive View.talked.
Proof. intros w. repeat split. Qed.

Lemma talked_trans : Transitive View.talked.
Proof.
  intros w1 w2 w3 (Ha & Hb & Hc & Hd & He) (Ha' & Hb' & Hc' & Hd' & He').
  repeat split; congruence.
Qed.

Lemma talked_bind {A B} (m : Bot.M A) (k : A -> Bot.M B) :
  Eff.preserves View.talked m -> (forall a, Eff.preserves View.talked (k a)) ->
  Eff.preserves View.talked (m ≫= k).
Proof. apply preserves_bind, talked_trans. Qed.

Lemma talked_ret {A} (a : A) : Eff.preserves View.talked (mret a).
Proof. apply preserves_ret, talked_refl. Qed.

Lemma talked_send chat_id body kb : Eff.preserves View.talked (Bot.send_message chat_id body kb).
Proof. intros w. apply wp_send_message_any. intros r c n. repeat split. Qed.

Lemma talked_set_state user st : Eff.preserves View.talked (Bot.set_state user st).
Proof. intros w. apply wp_modify. repeat split. Qed.

Lemma talked_callback q txt : Eff.preserves View.talked (Bot.answer_callback_query q txt).
Proof. intros w. apply wp_modify. repeat split. Qed.

(** The session of a user who keeps a field. *)
Lemma keeps_field (data : gmap string Py.value) txt :
  txt = "-" -> Py.truthy (Py.get data "editing" (Py.VBool false)) = true ->
  negb (String.eqb txt "-" && Py.truthy (Py.get data "editing" (Py.VBool false))) = false.
Proof. intros -> ->. reflexivity. Qed.

Lemma keep_all_talked dash done raw w :
  let user := Bot.user_id (Bot.from_user dash) in
  Py.strip (Bot.text dash) = "-" ->
  Bot.cq_from_user done = Bot.from_user dash -> Bot.data done = "lang:DONE" ->
  Py.truthy (Py.get (Obs.session w user) "editing" (Py.VBool false)) = true ->
  Py.text_or_empty (Py.get (Obs.session w user) "languages" (Py.VStr "")) = Some raw ->
  View.talked w (Bot.run_steps (View.keep_all dash done) w).
Proof.
  intros user Hdash Hfrom Hdone.
  assert (Hstep : forall step, In step (View.keep_all dash done) ->
             forall w0,
               Py.truthy (Py.get (Obs.session w0 user) "editing" (Py.VBool false)) = true ->
               Py.text_or_empty (Py.get (Obs.session w0 user) "languages" (Py.VStr ""))
               = Some raw ->
               View.talked w0 (Eff.exec (Bot.run_step step) w0)).
  { intros step Hin w0 Hed Hlang. by_wp. cbn in Hin.
    destruct Hin as [<-|[<-|[<-|[<-|[<-|[<-|[]]]]]]]; cbn [Bot.run_step].
    - unfold Bot.process_nickname. fold user. rewrite Hdash.
      apply wp_bind, wp_gets. fold (Obs.session w0 user).
      rewrite (keeps_field _ _ eq_refl Hed).
      apply talked_bind; [apply talked_ret|intros _].
      apply talked_bind; [apply talked_send|intros _]. apply talked_set_state.
    - unfold Bot.process_uid. fold user. rewrite Hdash.
      apply wp_bind, wp_gets. fold (Obs.session w0 user).
      rewrite (keeps_field _ _ eq_refl Hed).
      apply talked_bind; [apply talked_ret|intros _].
      apply talked_bind; [apply talked_send|intros _]. apply talked_set_state.
    - unfold Bot.process_ar. fold user. rewrite Hdash.
      apply wp_bind, wp_gets. fold (Obs.session w0 user). cbv zeta.
      rewrite (keeps_field _ _ eq_refl Hed), Hlang.
      apply talked_bind; [apply talked_send|intros _]. apply talked_set_state.
    - unfold Bot.process_lang_toggle. rewrite Hdone, Hfrom. fold user.
      change (Py.after_first ":" "lang:DONE") with (Some "DONE").
      apply wp_bind, wp_gets. fold (Obs.session w0 user). rewrite Hlang.
      replace (bool_decide ("DONE" ∈ Bot.codes)) with false by (vm_compute; reflexivity).
      cbn [String.eqb Ascii.eqb Bool.eqb].
      apply talked_bind; [apply talked_callback|intros _].
      apply talked_bind; [apply talked_send|intros _]. apply talked_set_state.
    - unfold Bot.process_playtime. fold user. rewrite Hdash.
      apply wp_bind, wp_gets. fold (Obs.session w0 user). cbv zeta.
      rewrite (keeps_field _ _ eq_refl Hed).
      apply talked_bind; [apply talked_send|intros _]. apply talked_set_state.
    - unfold Bot.process_bio. fold user. rewrite Hdash.
      apply wp_bind, wp_gets. fold (Obs.session w0 user).
      rewrite (keeps_field _ _ eq_refl Hed).
      apply wp_bind, wp_ret, wp_bind, wp_gets. fold (Obs.session w0 user). rewrite Hlang.
      apply talked_bind; [apply talked_send|intros _]. apply talked_set_state. }
  intros Hed Hlang.
  assert (Hrun : forall steps, (forall s, In s steps -> In s (View.keep_all dash done)) ->
             forall w0,
               Py.truthy (Py.get (Obs.session w0 user) "editing" (Py.VBool false)) = true ->
               Py.text_or_empty (Py.get (Obs.session w0 user) "languages" (Py.VStr ""))
               = Some raw ->
               View.talked w0 (Bot.run_steps steps w0)).
  { induction steps as [|s steps IH]; intros Hsub w0 Hed0 Hlang0; [apply talked_refl|].
    unfold Bot.run_steps. cbn [foldl]. fold (Bot.run_steps steps).
    pose proof (Hstep s (Hsub s (or_introl eq_refl)) w0 Hed0 Hlang0) as H1.
    eapply talked_trans; [exact H1|]. apply IH.
    - intros s' Hs'. apply Hsub. right. exact Hs'.
    - destruct H1 as (_ & _ & _ & Hdata & _). unfold Obs.session. rewrite Hdata. exact Hed0.
    - destruct H1 as (_ & _ & _ & Hdata & _). unfold Obs.session. rewrite Hdata. exact Hlang0. }
  apply Hrun; [auto|exact Hed|exact Hlang].
Qed.

(** What [/edit] loads into the dialog of a user who has a profile. *)
Lemma cmd_edit_session msg w r :
  let user := Bot.user_id (Bot.from_user msg) in
  let w' := Eff.exec (Bot.cmd_edit msg) w in
  head (List.filter (Db.has_tg user) (Db.profiles (Bot.database w))) = Some r ->
  Bot.database w' = Bot.database w
  /\ Bot.utcnow w' = Bot.utcnow w
  /\ Bot.unreachable w' = Bot.unreachable w
  /\ Bot.view_contexts w' = Bot.view_contexts w
  /\ Obs.session w' user = <["editing" := Py.VBool true]> (Db.row_dict r) ∪ Obs.session w user.
Proof.
  intros user w' Hr. subst w'. by_wp. unfold Bot.cmd_edit. fold user.
  apply wp_bind, wp_db, wp_gets. rewrite Hr. cbn [fmap option_fmap option_map].
  apply wp_bind. unfold Bot.update_data_all. apply wp_modify.
  apply wp_bind. unfold Bot.answer. apply wp_send_message_any. intros [m|e] c n; fields.
  - unfold Bot.set_state. apply wp_modify. fields. unfold Obs.session. fields.
    rewrite lookup_insert_eq. repeat split.
  - unfold Obs.session. fields. rewrite lookup_insert_eq. repeat split.
Qed.

Lemma loaded_field r (old : gmap string Py.value) k :
  In k View.FIELDS ->
  Db.bind_text (Py.get (<["editing" := Py.VBool true]> (Db.row_dict r) ∪ old) k (Py.VStr ""))
  = Db.bind_text (default Py.VNone (Db.row_dict r !! k)).
Proof.
  intros Hk. unfold Py.get.
  assert (Hsome : exists v, Db.row_dict r !! k = Some v).
  { cbn in Hk. repeat (destruct Hk as [<-|Hk]; [eexists; reflexivity|]). destruct Hk. }
  destruct Hsome as [v Hv].
  rewrite (lookup_union_Some_l _ _ _ v).
  - rewrite Hv. reflexivity.
  - rewrite lookup_insert_ne; [exact Hv|].
    intros <-. cbn in Hk. intuition discriminate.
Qed.

Lemma set_fields_same data r :
  (forall k, In k View.FIELDS ->
             Db.bind_text (Py.get data k (Py.VStr ""))
             = Db.bind_text (default Py.VNone (Db.row_dict r !! k))) ->
  Db.set_fields data r = r.
Proof.
  intros H. unfold Db.set_fields. destruct r. cbn [Db.id Db.tg_id Db.created_at].
  rewrite !H by (cbn; tauto).
  f_equal; apply bind_text_value.
Qed.

Lemma save_profile_same tg data now db r :
  Obs.tg_unique db ->
  head (List.filter (Db.has_tg tg) (Db.profiles db)) = Some r ->
  Db.set_fields data r = r ->
  Eff.exec (Db.save_profile tg data now) db = db.
Proof.
  intros Huniq Hr Hsame.
  assert (Hin : In r (Db.profiles db) /\ Db.has_tg tg r = true).
  { destruct (List.filter (Db.has_tg tg) (Db.profiles db)) as [|y l] eqn:Hf; [discriminate|].
    injection Hr as ->.
    assert (H : In r (List.filter (Db.has_tg tg) (Db.profiles db)))
      by (rewrite Hf; left; reflexivity).
    apply filter_In in H. exact H. }
  destruct Hin as [Hin Htg].
  assert (Hex : existsb (Db.has_tg tg) (Db.profiles db) = true)
    by (apply existsb_exists; eauto).
  unfold Eff.exec. rewrite (save_profile_existing _ _ _ _ Hex). cbn [snd].
  destruct db as [ps ls sq]. cbn [Db.profiles Db.likes Db.sequence] in *. f_equal.
  rewrite <- (map_id ps) at 2. apply map_ext_in. intros x Hx.
  destruct (Db.has_tg tg x) eqn:Hxtg; [|reflexivity].
  assert (x = r) as ->; [|exact Hsame].
  apply (unique_row _ _ _ Huniq Hx Hin). unfold Db.has_tg in *.
  apply Z.eqb_eq in Htg, Hxtg. congruence.
Qed.

(** X20. A user who has a profile, starts [/edit], answers "-" to the
    five questions, presses Done at the languages and then Accept,
    leaves the file exactly as it was, NULL columns included, and the
    dialog with no state and no data. *)
Theorem an_edit_that_keeps_every_field_changes_nothing msg dash done q mid w :
  let user := Bot.user_id (Bot.from_user msg) in
  let w1 := Eff.exec (Bot.cmd_edit msg) w in
  let w2 := Bot.run_steps (View.keep_all dash done) w1 in
  let w3 := Eff.exec (Bot.process_confirm
                        (Bot.CallbackQuery q (Bot.from_user msg) "confirm:yes" mid)) w2 in
  Bot.from_user dash = Bot.from_user msg -> Py.strip (Bot.text dash) = "-" ->
  Bot.cq_from_user done = Bot.from_user msg -> Bot.data done = "lang:DONE" ->
  user ∉ Bot.unreachable w ->
  Obs.tg_unique (Bot.database w) ->
  View.has_profile user (Bot.database w) = true ->
  Bot.database w3 = Bot.database w
  /\ Bot.fsm_state w3 !! user = None
  /\ Bot.fsm_data w3 !! user = Some ∅.
Proof.
  intros user w1 w2 w3 Hfrom Hdash Hdfrom Hdone Hreach Huniq Hex.
  destruct (head_filter_existsb _ _ Hex) as (r & Hhead & _ & _).
  destruct (cmd_edit_session msg w r Hhead) as (Hdb1 & Hnow1 & Hun1 & _ & Hs1).
  fold user in Hs1. fold w1 in Hdb1, Hnow1, Hun1, Hs1.
  assert (Hed : Py.truthy (Py.get (Obs.session w1 user) "editing" (Py.VBool false)) = true).
  { rewrite Hs1. unfold Py.get.
    rewrite (lookup_union_Some_l _ _ _ (Py.VBool true)); [reflexivity|].
    apply lookup_insert_eq. }
  assert (Hlang : Py.text_or_empty (Py.get (Obs.session w1 user) "languages" (Py.VStr ""))
                  = Some (default "" (Db.languages r))).
  { rewrite <- row_languages. f_equal. rewrite Hs1. unfold Py.get.
    rewrite (lookup_union_Some_l _ _ _ (Db.text_value (Db.languages r))); [reflexivity|].
    rewrite lookup_insert_ne by discriminate. reflexivity. }
  assert (Htalk : View.talked w1 w2).
  { subst w2. unfold user in Hed, Hlang. rewrite <- Hfrom in Hed, Hlang.
    apply (keep_all_talked dash done (default "" (Db.languages r)) w1 Hdash);
      [congruence|exact Hdone|exact Hed|exact Hlang]. }
  destruct Htalk as (Hdb2 & Hnow2 & _ & Hdata2 & Hun2).
  assert (Hs2 : Obs.session w2 user = Obs.session w1 user)
    by (unfold Obs.session; rewrite Hdata2; reflexivity).
  split.
  - subst w3. rewrite process_confirm_saves. fold user. rewrite Hdb2, Hdb1.
    apply (save_profile_same _ _ _ _ r Huniq Hhead).
    apply set_fields_same. intros k Hk.
    rewrite data_to_save_field by exact Hk. rewrite Hs2, Hs1. apply loaded_field, Hk.
  - assert (Hreach2 : user ∉ Bot.unreachable w2) by (rewrite Hun2, Hun1; exact Hreach).
    subst w3. by_wp. unfold Bot.process_confirm.
    change (Py.after_first ":" (Bot.data (Bot.CallbackQuery q (Bot.from_user msg)
                                                            "confirm:yes" mid)))
      with (Some "yes").
    cbn [Bot.cq_from_user Bot.cq_id String.eqb Ascii.eqb Bool.eqb]. fold user.
    apply wp_bind. unfold Bot.answer_callback_query. apply wp_modify.
    apply wp_bind, wp_gets. apply wp_bind. unfold Bot.save_profile.
    apply wp_bind, wp_gets, wp_db, wp_intro. fields.
    destruct (save_profile_read user
                (Bot.data_to_save (default ∅ (Bot.fsm_data w2 !! user))) (Bot.utcnow w2)
                (Bot.database w2)) as (Hret & _).
    destruct (Db.save_profile _ _ _ _) as [res db']. cbn [fst snd] in *. subst res.
    apply wp_bind, wp_send_message; fields; [contradiction|intros _; cbv zeta].
    unfold Bot.finish. apply wp_modify. fields.
    split; [apply lookup_delete_eq|apply lookup_insert_eq].
Qed.

Lemma an_edit_that_keeps_every_field_changes_nothing_witness :
  let lumine := Bot.User 2 None "Lumine" in
  let w := Bot.World Obs.two_profiles "2024-06-01T10:00:00" ∅ ∅ ∅ [] 0 ∅ [] in
  let dash := Bot.Message lumine " - " in
  let done := Bot.CallbackQuery 1 lumine "lang:DONE" 4 in
  let w1 := Eff.exec (Bot.cmd_edit (Bot.Message lumine "/edit")) w in
  let w2 := Bot.run_steps (View.keep_all dash done) w1 in
  let w3 := Eff.exec (Bot.process_confirm (Bot.CallbackQuery 2 lumine "confirm:yes" 9)) w2 in
  Py.strip (Bot.text dash) = "-"
  /\ Obs.tg_unique (Bot.database w)
  /\ View.has_profile 2 (Bot.database w) = true
  /\ Bot.database w3 = Bot.database w
  /\ Bot.fsm_state w3 !! 2 = None.
Proof.
  intros lumine w dash done w1 w2 w3.
  assert (Huniq : Obs.tg_unique (Bot.database w)).
  { apply (bool_decide_unpack (NoDup (map Db.tg_id (Db.profiles Obs.two_profiles)))).
    vm_compute. exact I. }
  split; [reflexivity|]. split; [exact Huniq|]. split; [reflexivity|].
  destruct (an_edit_that_keeps_every_field_changes_nothing
              (Bot.Message lumine "/edit") dash done 2 9 w
              eq_refl eq_refl eq_refl eq_refl
              (not_elem_of_empty (C := gset Z) 2) Huniq eq_refl) as (Hdb & Hstate & _).
  split; [exact Hdb|exact Hstate].
Defined.

End Form.

(** ** The buttons and the handlers behind them *)

From Stdlib Require DecimalPos DecimalZ.

Section Buttons.

(** *** Decimal numerals *)

Lemma digits_acc d acc :
  Py.digits (NilEmpty.string_of_uint d) (Z.pos acc) true
  = Some (Z.pos (Pos.of_uint_acc d acc)).
Proof.
  revert acc.
  induction d; intros acc; cbn [NilEmpty.string_of_uint Pos.of_uint_acc Py.digits];
    [reflexivity|..];
    (match goal with
     | |- context [Py.isdigit ?c] => change (Py.isdigit c) with true; cbv iota
     end;
     match goal with
     | |- Py.digits _ ?v true = Some (Z.pos (Pos.of_uint_acc _ ?p)) =>
         replace v with (Z.pos p) by (unfold Py.digit_value; cbn; lia)
     end; apply IHd).
Qed.

Lemma digits_uint d :
  Py.digits (NilEmpty.string_of_uint d) 0 true = Some (Z.of_N (Pos.of_uint d)).
Proof.
  induction d; cbn [NilEmpty.string_of_uint Pos.of_uint Py.digits]; [reflexivity|..];
    match goal with
    | |- context [Py.isdigit ?c] => change (Py.isdigit c) with true; cbv iota
    end;
    [exact IHd|..]; apply (digits_acc d).
Qed.

Lemma all_digits_uint d : Keys.all_digits (NilEmpty.string_of_uint d) = true.
Proof. induction d; cbn [NilEmpty.string_of_uint Keys.all_digits]; [reflexivity|..]; exact IHd. Qed.

(** A digit is no white space, no sign and no colon. *)
Lemma digit_plain c :
  Py.isdigit c = true ->
  Py.isspace_c c = false /\ Ascii.eqb c ":" = false /\ c <> "+"%char /\ c <> "-"%char.
Proof.
  destruct c as [[] [] [] [] [] [] [] []]; intros H; try discriminate H;
    repeat split; discriminate.
Qed.

Lemma rstrip_digits s :
  Keys.all_digits s = true -> Py.rstrip_with Py.isspace_c s = s.
Proof.
  induction s as [|c s IH]; [reflexivity|]. cbn [Keys.all_digits Py.rstrip_with].
  intros H. apply andb_true_iff in H as [Hc Hs]. rewrite (IH Hs).
  destruct (digit_plain c Hc) as (Hsp & _). rewrite Hsp. destruct s; reflexivity.
Qed.

Lemma int_of_digits s :
  Keys.isdigit s = true -> Py.int s = Py.digits s 0 true.
Proof.
  unfold Keys.isdigit. intros H. apply andb_true_iff in H as [Hne Hall].
  destruct s as [|c s]; [discriminate Hne|].
  pose proof Hall as Hc. cbn [Keys.all_digits] in Hc. apply andb_true_iff in Hc as [Hc _].
  destruct (digit_plain c Hc) as (Hsp & _ & Hplus & Hminus).
  unfold Py.int. cbn [Py.lstrip_with]. rewrite Hsp, (rstrip_digits _ Hall).
  transitivity (Py.digits (String c s) 0 false).
  - destruct c as [[] [] [] [] [] [] [] []]; try reflexivity;
      [exfalso; apply Hplus; reflexivity|exfalso; apply Hminus; reflexivity].
  - cbn [Py.digits]. rewrite Hc. reflexivity.
Qed.

Lemma digits_no_colon s : Keys.all_digits s = true -> Obs.occurs ":" s = false.
Proof.
  induction s as [|c s IH]; [reflexivity|]. cbn [Keys.all_digits Obs.occurs].
  intros H. apply andb_true_iff in H as [Hc Hs].
  destruct (digit_plain c Hc) as (_ & Hcolon & _). rewrite Hcolon, (IH Hs). reflexivity.
Qed.

(** [str] of a number that is not negative: its digits, which [int]
    reads back. *)
Lemma str_digits z :
  0 <= z -> Keys.isdigit (Py.str z) = true /\ Py.int (Py.str z) = Some z.
Proof.
  intros Hz.
  assert (H : exists d, Py.str z = NilEmpty.string_of_uint d
                        /\ d <> Decimal.Nil /\ Z.of_N (Pos.of_uint d) = z).
  { destruct z as [|p|p]; [exists (Decimal.D0 Decimal.Nil); repeat split; discriminate| |lia].
    exists (Pos.to_uint p). unfold Py.str. cbn [Z.to_int NilZero.string_of_int].
    pose proof (DecimalPos.Unsigned.to_uint_nonnil p) as Hnil.
    pose proof (DecimalZ.of_to (Z.pos p)) as Hof. cbn [Z.to_int Z.of_int] in Hof.
    unfold NilZero.string_of_uint.
    destruct (Pos.to_uint p); [contradiction|..]; repeat split; try discriminate; exact Hof. }
  destruct H as (d & Hstr & Hnil & Hval).
  assert (Hdig : Keys.isdigit (Py.str z) = true).
  { unfold Keys.isdigit. rewrite Hstr, all_digits_uint, andb_true_r.
    destruct d; [contradiction|..]; reflexivity. }
  split; [exact Hdig|].
  rewrite (int_of_digits _ Hdig), Hstr, digits_uint, Hval. reflexivity.
Qed.

(** *** Cutting at the colons *)

Lemma splitn_append c x rest n :
  Obs.occurs c x = false ->
  Keys.splitn c (x ++ String c rest) (S n) = x :: Keys.splitn c rest n.
Proof.
  induction x as [|d x IH]; simpl; intros H.
  - rewrite Ascii.eqb_refl. reflexivity.
  - apply orb_false_iff in H as [Hd Hx]. rewrite Hd, (IH Hx). reflexivity.
Qed.

Lemma splitn_last c s : Keys.splitn c s 0 = [s].
Proof. destruct s; reflexivity. Qed.

(** What [handle_complain] reads from the data of the button under a
    card. *)
Lemma complain_parts owner_part profile_part :
  Obs.occurs ":" owner_part = false ->
  Keys.splitn ":" ("complain:" ++ owner_part ++ ":" ++ profile_part) 2
  = ["complain"; owner_part; profile_part].
Proof.
  intros H.
  change ("complain:" ++ owner_part ++ ":" ++ profile_part)
    with ("complain" ++ String ":" (owner_part ++ String ":" profile_part)).
  rewrite splitn_append by reflexivity.
  rewrite (splitn_append _ _ _ _ H), splitn_last. reflexivity.
Qed.

(** What [dev_delete_profile_callback] reads from the data of the
    button of the developer. *)
Lemma dev_delete_parts owner_part :
  Obs.occurs ":" owner_part = false ->
  Py.split ":" (Keys.callback_data (Keys.dev_delete_button owner_part))
  = ["dev"; "delete"; owner_part].
Proof.
  intros H. cbn [Keys.callback_data Keys.dev_delete_button].
  change ("dev:delete:" ++ owner_part) with ("dev" ++ String ":" ("delete" ++ String ":" owner_part)).
  rewrite split_append by reflexivity. rewrite split_append by reflexivity.
  rewrite (split_without _ _ H). reflexivity.
Qed.

(** *** Every button has its handler *)

(** X21. Every inline button that the handlers build, whatever the
    selected languages, the owner and the profile it is built for, is
    let in by the data filter of exactly one callback handler: no
    button is dead, and no two handlers compete for one. *)
Theorem every_button_has_one_handler kb :
  Keys.built kb ->
  Forall (fun b => length (List.filter (fun f : string -> bool => f (Keys.callback_data b))
                                       Keys.callback_filters) = 1%nat) kb.
Proof.
  intros [ | |selected| | | | |owner_id profile_id|owner_part];
    try (repeat constructor; fail).
  - constructor; [|constructor]. cbn [Keys.callback_data Keys.complain_button].
    generalize (Keys.format (Bot.owner_value owner_id) ++ ":" ++ Keys.format profile_id).
    intros rest. destruct rest; reflexivity.
  - constructor; [|constructor]. cbn [Keys.callback_data Keys.dev_delete_button].
    destruct owner_part; reflexivity.
Qed.

Lemma every_button_has_one_handler_witness :
  Keys.built (Keys.inline_keyboard (Bot.ComplainButton (Some 7) (Py.VInt 3)))
  /\ Forall (fun b => length (List.filter (fun f : string -> bool => f (Keys.callback_data b))
                                          Keys.callback_filters) = 1%nat)
            (Keys.inline_keyboard (Bot.ComplainButton (Some 7) (Py.VInt 3))).
Proof.
  assert (H : Keys.built (Keys.inline_keyboard (Bot.ComplainButton (Some 7) (Py.VInt 3)))).
  { apply Keys.built_complain. }
  split; [exact H|]. apply every_button_has_one_handler. exact H.
Defined.

End Buttons.

(** ** Complaints, letters and the profile of the user *)

Section Letters.

Implicit Types (w : Post.world).

Lemma wp_lift {A} (m : Bot.M A) (Q : Eff.outcome A -> Post.world -> Prop) w :
  Eff.wp m (fun r b => Q r (Post.set_bot b w)) (Post.bot w) -> Eff.wp (Post.lift m) Q w.
Proof. apply wp_zoom. Qed.

Lemma set_bot_same w : Post.set_bot (Post.bot w) w = w.
Proof. destruct w; reflexivity. Qed.

(** A text of this part either meets an unreachable chat, and nothing
    changes, or is appended under a fresh identifier. *)
Lemma wp_send_text chat_id t kb (Q : Eff.outcome Post.letter -> Post.world -> Prop) w :
  (chat_id ∈ Bot.unreachable (Post.bot w) -> Q (Eff.Raise Py.TelegramAPIError) w) ->
  (chat_id ∉ Bot.unreachable (Post.bot w) ->
   let n := Bot.last_message_id (Post.bot w) + 1 in
   let l := Post.Letter chat_id n t kb in
   Q (Eff.Return l)
     (Post.World (Bot.set_chat (Bot.chat (Post.bot w)) n (Post.bot w)) (Post.outbox w ++ [l]))) ->
  Eff.wp (Post.send_text chat_id t kb) Q w.
Proof.
  intros Hbad Hok. unfold Eff.wp, Post.send_text.
  destruct (bool_decide_reflect (chat_id ∈ Bot.unreachable (Post.bot w))); simpl; auto.
Qed.

Lemma delete_profile_gone tg db :
  View.has_profile tg (Eff.exec (Db.delete_profile tg) db) = false.
Proof.
  unfold View.has_profile, Eff.exec, Db.delete_profile, Db.sql_delete_profile, Eff.modify.
  cbn [snd Db.profiles]. apply filter_some, filter_filter_negb.
Qed.

Lemma delete_profile_others tg tg' db :
  tg' <> tg ->
  fst (Db.get_profile_by_tg tg' (Eff.exec (Db.delete_profile tg) db))
  = fst (Db.get_profile_by_tg tg' db).
Proof.
  intros Hne.
  unfold Eff.exec, Db.delete_profile, Db.sql_delete_profile, Eff.modify, Db.get_profile_by_tg,
    Eff.gets.
  cbn [fst snd Db.profiles]. rewrite (head_filter_other _ _ _ Hne). reflexivity.
Qed.

(** What the button of the developer does when the developer presses
    it. *)
Lemma dev_delete_pressed dev owner press (b : Bot.world) :
  0 <= owner ->
  Bot.user_id (Bot.cq_from_user press) = dev ->
  Bot.data press = Keys.callback_data (Keys.dev_delete_button (Py.str owner)) ->
  Bot.database (Eff.exec (Bot.dev_delete_profile_callback (Some dev) press) b)
  = Eff.exec (Db.delete_profile owner) (Bot.database b).
Proof.
  intros Hz Hdev Hdata. destruct (str_digits owner Hz) as [Hdig Hint].
  by_wp. unfold Bot.dev_delete_profile_callback.
  rewrite Hdev, Hdata.
  rewrite bool_decide_eq_false_2 by discriminate.
  rewrite bool_decide_eq_true_2 by reflexivity. cbn [negb orb].
  rewrite dev_delete_parts.
  2:{ apply digits_no_colon. unfold Keys.isdigit in Hdig.
      apply andb_true_iff in Hdig as [_ H]. exact H. }
  rewrite Hint.
  apply wp_bind, wp_db, wp_intro. cbn [fst snd]. fields.
  apply wp_bind. unfold Bot.answer_callback_query. apply wp_modify.
  apply wp_bind, wp_send_message_any. intros [m|e] c n; fields; [|reflexivity].
  unfold Bot.try_tell_deleted. apply wp_try_except, wp_bind, wp_send_message_any.
  intros [m'|e'] c' n'; fields; reflexivity.
Qed.

(** X22. The button under the card of a profile whose owner has a
    positive [tg_id] brings the developer, when one is configured and
    can be written to, exactly one message: it names the reporter, the
    owner and the profile, holds the profile as the file has it, or
    says that the file has none, and carries one button. That button,
    pressed by the developer, deletes the profile of that owner and
    of nobody else. The complaint itself leaves the file as it is. *)
Theorem complaint_leads_to_the_profile dev owner profile_id cq w :
  let reporter := Bot.cq_from_user cq in
  let w' := Eff.exec (Post.handle_complain (Some dev) cq) w in
  Bot.data cq = Keys.callback_data (Keys.complain_button (Some owner) profile_id) ->
  0 < owner -> dev <> 0 -> dev ∉ Bot.unreachable (Post.bot w) ->
  (exists info,
     Post.outbox w'
     = (Post.outbox w ++
        [Post.Letter dev (Bot.last_message_id (Post.bot w) + 1)
           (Post.Complaint
              (Bot.full_name reporter ++ " (id=" ++ Py.str (Bot.user_id reporter) ++ ")")
              (Py.str owner) (Keys.format profile_id) info)
           (Post.Inline [Keys.dev_delete_button (Py.str owner)])])%list
     /\ match fst (Db.get_profile_by_tg owner (Bot.database (Post.bot w))) with
        | Eff.Return (Some prof) => exists langs_flags, info = Post.ProfileFields prof langs_flags
        | _ => info = Post.NotInFile owner
        end)
  /\ Bot.database (Post.bot w') = Bot.database (Post.bot w)
  /\ (forall press b,
        Bot.user_id (Bot.cq_from_user press) = dev ->
        Bot.data press = Keys.callback_data (Keys.dev_delete_button (Py.str owner)) ->
        let b' := Eff.exec (Bot.dev_delete_profile_callback (Some dev) press) b in
        View.has_profile owner (Bot.database b') = false
        /\ forall tg, tg <> owner ->
                      fst (Db.get_profile_by_tg tg (Bot.database b'))
                      = fst (Db.get_profile_by_tg tg (Bot.database b))).
Proof.
  intros reporter w' Hdata Hpos Hdev Hreach.
  destruct (str_digits owner ltac:(lia)) as [Hdig Hint].
  assert (Hcolon : Obs.occurs ":" (Py.str owner) = false).
  { apply digits_no_colon. unfold Keys.isdigit in Hdig.
    apply andb_true_iff in Hdig as [_ H]. exact H. }
  assert (Hne : String.eqb (Py.str owner) "" = false).
  { unfold Keys.isdigit in Hdig. apply andb_true_iff in Hdig as [H _].
    apply negb_true_iff in H. exact H. }
  split; [|split].
  3:{ intros press b Hwho Hpress b'. subst b'.
      rewrite (dev_delete_pressed dev owner press b) by (lia || assumption).
      split; [apply delete_profile_gone|].
      intros tg Htg. apply delete_profile_others. exact Htg. }
  all: subst w'; by_wp; unfold Post.handle_complain;
    apply wp_bind, wp_lift; unfold Bot.answer_callback_query; apply wp_modify;
    rewrite Hdata; cbn [Keys.callback_data Keys.complain_button Bot.owner_value Keys.format];
    rewrite (complain_parts _ _ Hcolon);
    unfold Post.complained_owner; rewrite Hne, Hdig, Hint; cbn [negb andb Bot.opt_truthy default
      from_option Datatypes.id];
    replace (owner =? 0) with false by (symmetry; apply Z.eqb_neq; lia);
    replace (dev =? 0) with false by (symmetry; apply Z.eqb_neq; lia);
    cbn [negb];
    apply wp_bind; apply wp_bind, wp_lift, wp_db, wp_intro;
    unfold Db.get_profile_by_tg, Eff.gets; cbn [fst snd];
    destruct (head (List.filter (Db.has_tg owner) _)) as [r|] eqn:Hrow;
    cbn [fmap option_fmap option_map];
    try rewrite row_languages;
    apply wp_ret, wp_try_except, wp_bind, wp_send_text;
    (intros Hin; try (exfalso; apply Hreach; exact Hin)).
  - eexists. split; [reflexivity|]. eexists. reflexivity.
  - eexists. split; [reflexivity|]. reflexivity.
  - reflexivity.
  - reflexivity.
Qed.

Lemma complaint_leads_to_the_profile_witness :
  let cq := Bot.CallbackQuery 8 Obs.traveler "complain:3:3" 1 in
  let developer := Bot.User 9 None "Paimon" in
  let b := Obs.browsing Obs.two_profiles 1 (Obs.cursor 0 2 3) in
  let w' := Eff.exec (Post.handle_complain (Some 9) cq) (Post.World b []) in
  Bot.data cq = Keys.callback_data (Keys.complain_button (Some 3) (Py.VInt 3))
  /\ 0 < 3
  /\ 9 <> 0
  /\ (9 ∉ Bot.unreachable b)
  /\ (exists l, Post.outbox w' = [l]
                /\ Post.to l = 9
                /\ Post.attached l = Post.Inline [Keys.dev_delete_button "3"])
  /\ View.has_profile 3 (Bot.database b) = true
  /\ View.has_profile 3
       (Bot.database
          (Eff.exec (Bot.dev_delete_profile_callback (Some 9)
                       (Bot.CallbackQuery 9 developer "dev:delete:3" 3))
                    (Post.bot w'))) = false.
Proof.
  intros cq developer b w'.
  assert (H1 : Bot.data cq = Keys.callback_data (Keys.complain_button (Some 3) (Py.VInt 3)))
    by reflexivity.
  assert (H2 : 0 < 3) by lia.
  assert (H3 : 9 <> 0) by lia.
  assert (H4 : 9 ∉ Bot.unreachable b) by (apply not_elem_of_empty).
  do 4 (split; [assumption|]).
  destruct (complaint_leads_to_the_profile 9 3 (Py.VInt 3) cq (Post.World b []) H1 H2 H3 H4)
    as ((info & Hout & _) & _ & Hpress).
  split; [|split; [reflexivity|]].
  - eexists. split; [exact Hout|]. split; reflexivity.
  - exact (proj1 (Hpress (Bot.CallbackQuery 9 developer "dev:delete:3" 3) (Post.bot w')
                         eq_refl eq_refl)).
Defined.

(** *** Handlers that only talk *)

Lemma only_talked_refl w : View.only_talked w w.
Proof. apply same_state_refl. Qed.

Lemma only_talked_unreachable w0 w chat_id :
  View.only_talked w0 w ->
  chat_id ∈ Bot.unreachable (Post.bot w) -> chat_id ∈ Bot.unreachable (Post.bot w0).
Proof. intros (_ & _ & _ & _ & _ & Hun) Hin. rewrite <- Hun. exact Hin. Qed.

(** The last step of a handler that only talked since [w0]: it returns
    where the chat can be written to. *)
Lemma talk_ret (P : Prop) w0 w :
  View.only_talked w0 w ->
  Eff.wp (mret tt) (fun r w' => View.only_talked w0 w' /\ (P -> r = Eff.Return tt)) w.
Proof. intros H. apply wp_ret. split; [exact H|reflexivity]. Qed.

Lemma talk_send_text chat_id t kb (P : Prop) w0 w :
  View.only_talked w0 w ->
  (P -> chat_id ∉ Bot.unreachable (Post.bot w0)) ->
  Eff.wp (Post.send_text chat_id t kb ≫= fun _ => mret tt)
         (fun r w' => View.only_talked w0 w' /\ (P -> r = Eff.Return tt)) w.
Proof.
  intros H Hreach. apply wp_bind, wp_send_text.
  - intros Hin. split; [exact H|]. intros HP. exfalso.
    apply (Hreach HP), (only_talked_unreachable _ _ _ H Hin).
  - intros _ n l. apply talk_ret. exact H.
Qed.

Lemma talk_send_message chat_id body kb (P : Prop) w0 w :
  View.only_talked w0 w ->
  (P -> chat_id ∉ Bot.unreachable (Post.bot w0)) ->
  Eff.wp (Post.lift (Bot.send_message chat_id body kb) ≫= fun _ => mret tt)
         (fun r w' => View.only_talked w0 w' /\ (P -> r = Eff.Return tt)) w.
Proof.
  intros H Hreach. apply wp_bind, wp_lift, wp_send_message.
  - intros Hin. rewrite set_bot_same. split; [exact H|]. intros HP. exfalso.
    apply (Hreach HP), (only_talked_unreachable _ _ _ H Hin).
  - intros _ m. apply talk_ret. exact H.
Qed.

Lemma talk_callback {B} q txt (k : unit -> Post.M B) (Q : Eff.outcome B -> Post.world -> Prop)
      w0 w :
  (forall w', (View.only_talked w0 w -> View.only_talked w0 w') -> Eff.wp (k tt) Q w') ->
  Eff.wp (Post.lift (Bot.answer_callback_query q txt) ≫= k) Q w.
Proof.
  intros Hk. apply wp_bind, wp_lift. unfold Bot.answer_callback_query. apply wp_modify.
  apply Hk. exact (fun H => H).
Qed.

(** Reading the profile of [user] for one of these handlers. *)
Lemma talk_read {B} user (k : option (gmap string Py.value) -> Post.M B)
      (Q : Eff.outcome B -> Post.world -> Prop) w :
  Eff.wp (k (Db.row_dict <$> head (List.filter (Db.has_tg user)
                                     (Db.profiles (Bot.database (Post.bot w)))))) Q w ->
  Eff.wp (Post.lift (Bot.db (Db.get_profile_by_tg user)) ≫= k) Q w.
Proof.
  intros Hk. apply wp_bind, wp_lift, wp_db, wp_intro.
  unfold Db.get_profile_by_tg, Eff.gets. cbn [fst snd].
  replace (Post.set_bot (Bot.set_database (Bot.database (Post.bot w)) (Post.bot w)) w) with w
    by (destruct w as [[] ?]; reflexivity).
  exact Hk.
Qed.

Lemma own_profile_card_talks user r (P : Prop) w0 w :
  View.only_talked w0 w ->
  (P -> user ∉ Bot.unreachable (Post.bot w0)) ->
  Eff.wp (Post.own_profile_card user (Db.row_dict r))
         (fun r w' => View.only_talked w0 w' /\ (P -> r = Eff.Return tt)) w.
Proof.
  intros H Hreach. unfold Post.own_profile_card. rewrite row_languages.
  apply wp_bind.
  destruct (Bot.opt_truthy _).
  - apply wp_lift, wp_db, wp_intro. unfold Db.get_likes_count, Eff.gets. cbn [fst snd].
    replace (Post.set_bot (Bot.set_database (Bot.database (Post.bot w)) (Post.bot w)) w) with w
      by (destruct w as [[] ?]; reflexivity).
    apply talk_send_text; assumption.
  - apply wp_ret. apply talk_send_text; assumption.
Qed.

(** X23. Ten handlers only talk: showing the own profile (from the
    button, the menu or the command), the Cancel button, asking to
    confirm a deletion and calling it off, a complaint, a text sent
    where the language buttons are expected, and the two ways to start
    browsing leave the file, the cursors and the dialog as they were;
    a profile is not deleted before the confirmation. Where the two
    users can be written to, each of these handlers returns. *)
Theorem talking_handlers_store_nothing DEVELOPER_ID_INT msg cq w :
  Forall (fun h : Post.M unit =>
            View.only_talked w (Eff.exec h w)
            /\ (Bot.user_id (Bot.from_user msg) ∉ Bot.unreachable (Post.bot w) ->
                Bot.user_id (Bot.cq_from_user cq) ∉ Bot.unreachable (Post.bot w) ->
                fst (h w) = Eff.Return tt))
         (View.talking_handlers DEVELOPER_ID_INT msg cq).
Proof.
  set (P := (Bot.user_id (Bot.from_user msg) ∉ Bot.unreachable (Post.bot w))
            /\ (Bot.user_id (Bot.cq_from_user cq) ∉ Bot.unreachable (Post.bot w))).
  assert (Hmsg : P -> Bot.user_id (Bot.from_user msg) ∉ Bot.unreachable (Post.bot w))
    by (intros [H _]; exact H).
  assert (Hcq : P -> Bot.user_id (Bot.cq_from_user cq) ∉ Bot.unreachable (Post.bot w))
    by (intros [_ H]; exact H).
  pose proof (only_talked_refl w) as Hw.
  assert (Hall : Forall (fun h : Post.M unit =>
                           Eff.wp h (fun r w' => View.only_talked w w'
                                                 /\ (P -> r = Eff.Return tt)) w)
                        (View.talking_handlers DEVELOPER_ID_INT msg cq)).
  { unfold View.talking_handlers. repeat apply Forall_cons_2; [..|apply Forall_nil_2].
    - unfold Post.profile_view. apply talk_callback with (w0 := w). intros w1 H1. specialize (H1 Hw). apply talk_read.
      destruct (head _) as [r|]; cbn [fmap option_fmap option_map].
      + apply own_profile_card_talks; auto.
      + apply talk_send_text; auto.
    - unfold Post.menu_my_profile. apply talk_read.
      destruct (head _) as [r|]; cbn [fmap option_fmap option_map].
      + apply own_profile_card_talks; auto.
      + apply talk_send_message; auto.
    - unfold Post.cmd_myprofile. apply talk_read.
      destruct (head _) as [r|]; cbn [fmap option_fmap option_map].
      + apply own_profile_card_talks; auto.
      + apply talk_send_message; auto.
    - unfold Post.profile_cancel. apply wp_lift. unfold Bot.answer_callback_query.
      apply wp_modify. split; [exact Hw|reflexivity].
    - unfold Post.profile_delete_request. apply talk_callback with (w0 := w). intros w1 H1.
      specialize (H1 Hw). apply talk_send_text; auto.
    - unfold Post.profile_delete_cancel. apply talk_callback with (w0 := w). intros w1 H1.
      specialize (H1 Hw). apply talk_send_text; auto.
    - unfold Post.handle_complain. apply talk_callback with (w0 := w). intros w1 H1.
      specialize (H1 Hw).
      destruct (Keys.splitn _ _ _) as [|? [|owner_part [|profile_part ?]]];
        try (apply talk_ret; exact H1).
      apply wp_bind.
      assert (Hsend : forall info w2,
                 View.only_talked w w2 ->
                 Eff.wp
                   (if Bot.opt_truthy DEVELOPER_ID_INT
                    then Eff.try_except
                           (Post.send_text (default 0 DEVELOPER_ID_INT)
                              (Post.Complaint
                                 (Bot.full_name (Bot.cq_from_user cq) ++ " (id="
                                  ++ Py.str (Bot.user_id (Bot.cq_from_user cq)) ++ ")")
                                 owner_part profile_part info)
                              match
                                (if negb (String.eqb owner_part "") && Keys.isdigit owner_part
                                 then [Keys.dev_delete_button owner_part] else [])
                              with
                              | [] => Post.NoKeyboard
                              | _ :: _ =>
                                  Post.Inline
                                    (if negb (String.eqb owner_part "")
                                        && Keys.isdigit owner_part
                                     then [Keys.dev_delete_button owner_part] else [])
                              end;; mret tt)
                           (fun _ => mret tt)
                    else mret tt)
                   (fun r w' => View.only_talked w w' /\ (P -> r = Eff.Return tt)) w2).
      { intros info w2 H2. destruct (Bot.opt_truthy _); [|apply talk_ret; exact H2].
        apply wp_try_except, wp_bind, wp_send_text.
        - intros _. apply talk_ret. exact H2.
        - intros _ n0 l0. apply talk_ret. exact H2. }
      destruct (Bot.opt_truthy (Post.complained_owner owner_part)).
      + apply talk_read.
        destruct (head _) as [r|]; cbn [fmap option_fmap option_map].
        * rewrite row_languages. apply wp_ret, Hsend, H1.
        * apply wp_ret, Hsend, H1.
      + apply wp_ret, Hsend, H1.
    - unfold Post.process_languages_text_blocked, Post.answer_text.
      apply talk_send_text; auto.
    - unfold Post.cmd_search, Post.answer_text. apply talk_send_text; auto.
    - unfold Post.menu_watch_profiles, Post.answer_text. apply talk_send_text; auto. }
  eapply Forall_impl; [exact Hall|].
  intros h [Htalk Hret]. split; [exact Htalk|].
  intros H1 H2. apply Hret. split; assumption.
Qed.

Lemma talking_handlers_store_nothing_witness :
  let lumine := Bot.User 2 None "Lumine" in
  let msg := Bot.Message lumine "ru" in
  let cq := Bot.CallbackQuery 1 lumine "complain:3:2" 4 in
  let w := Post.World (Obs.browsing Obs.two_profiles 1 (Obs.cursor 0 2 3)) [] in
  Forall (fun h : Post.M unit =>
            View.only_talked w (Eff.exec h w) /\ fst (h w) = Eff.Return tt)
         (View.talking_handlers (Some 9) msg cq).
Proof.
  intros lumine msg cq w.
  eapply Forall_impl; [exact (talking_handlers_store_nothing (Some 9) msg cq w)|].
  intros h [Htalk Hret]. split; [exact Htalk|].
  apply Hret; apply (bool_decide_unpack _); vm_compute; exact I.
Defined.

(** *** A letter to the owner *)

(** The action bar comes back for a user who has a cursor; the menu for
    a user who has none. *)
Lemma wp_restore_keyboard user (Q : Eff.outcome unit -> Post.world -> Prop) w :
  user ∉ Bot.unreachable (Post.bot w) ->
  View.keyboard_issued user (Post.bot w) ->
  (forall c,
     let b := Post.bot w in
     let n := Bot.last_message_id b + 1 in
     match Bot.view_contexts b !! user with
     | Some ctx =>
         In (View.action_bar user (View.with_bar ctx n)) c ->
         Q (Eff.Return tt)
           (Post.set_bot
              (Bot.set_view_contexts (<[user := View.with_bar ctx n]> (Bot.view_contexts b))
                                     (Bot.set_chat c n b)) w)
     | None =>
         c = (Bot.chat b ++ [Bot.Sent user n Bot.MenuTitle Bot.main_menu_keyboard])%list ->
         Q (Eff.Return tt) (Post.set_bot (Bot.set_chat c n b) w)
     end) ->
  Eff.wp (Post.restore_keyboard user) Q w.
Proof.
  intros Hreach Hissued HQ. cbv zeta in HQ. unfold Post.restore_keyboard.
  apply wp_bind, wp_lift, wp_gets. rewrite set_bot_same.
  unfold View.keyboard_issued in Hissued.
  destruct (Bot.view_contexts (Post.bot w) !! user) as [ctx|] eqn:Hctx.
  - apply wp_bind, wp_lift, wp_send_message; [intros Hin; contradiction|].
    intros _ m. cbn [Bot.message_id].
    set (n := Bot.last_message_id (Post.bot w) + 1) in *.
    assert (Hbar : m = View.action_bar user (View.with_bar ctx n)) by reflexivity.
    apply wp_bind.
    destruct (negb (Bot.keyboard_message_id ctx =? 0)).
    + apply wp_lift, wp_intro. rewrite try_delete_message_eq. cbn [fst snd]. pfields.
      apply wp_lift, wp_modify. pfields. try rewrite Hctx in HQ.
      destruct (existsb _ _).
      * pfields. apply (HQ (List.filter _ _)). apply filter_In. split.
        -- apply in_or_app. right. left. reflexivity.
        -- unfold Bot.shows, View.action_bar, View.with_bar.
           cbn [Bot.message_id Bot.chat_id Bot.keyboard_message_id].
           apply negb_true_iff, andb_false_iff. right. apply Z.eqb_neq. lia.
      * pfields. apply (HQ (_ ++ [m])%list). apply in_or_app. right. left. reflexivity.
    + apply wp_ret, wp_lift, wp_modify. pfields. try rewrite Hctx in HQ.
      apply (HQ (_ ++ [m])%list). apply in_or_app. right. left. reflexivity.
  - apply wp_bind, wp_lift, wp_send_message; [intros Hin; contradiction|].
    intros _ m. apply wp_ret. try rewrite Hctx in HQ. apply (HQ _ eq_refl).
Qed.

(** X24. In the letter step, for a sender who can be written to and a
    stored recipient: the text, stripped, goes to the recipient exactly
    once, under the name of the sender, and the sender is told so; when
    the recipient cannot be written to the sender is told that, and the
    handler returns all the same; a "-" sends nothing to the recipient. In
    each case the dialog of the sender is over, the file is as it was,
    and a sender who was browsing keeps the cursor, with a fresh action
    bar on display; a sender who was not gets the menu. *)
Theorem a_letter_reaches_the_owner_once msg owner w :
  let user := Bot.user_id (Bot.from_user msg) in
  let b := Post.bot w in
  let w' := Eff.exec (Post.handle_sending_message msg) w in
  let b' := Post.bot w' in
  Py.get (Obs.session b user) "message_target" Py.VNone = Py.VInt owner ->
  owner <> 0 ->
  user ∉ Bot.unreachable b ->
  View.keyboard_issued user b ->
  fst (Post.handle_sending_message msg w) = Eff.Return tt
  /\ Post.outbox w'
     = (Post.outbox w ++ View.letters_for msg owner (Bot.last_message_id b + 1) b)%list
  /\ Bot.database b' = Bot.database b
  /\ Bot.fsm_state b' !! user = None
  /\ Obs.session b' user = ∅
  /\ match Bot.view_contexts b !! user with
     | Some ctx =>
         Bot.view_contexts b' !! user = Some (View.with_bar ctx (Bot.last_message_id b'))
         /\ In (View.action_bar user (View.with_bar ctx (Bot.last_message_id b')))
               (Bot.chat b')
     | None =>
         Bot.view_contexts b' !! user = None
         /\ last (Bot.chat b')
            = Some (Bot.Sent user (Bot.last_message_id b') Bot.MenuTitle
                             Bot.main_menu_keyboard)
     end.
Proof.
  intros user b w' b' Htarget Howner Hreach Hissued. subst b' w'. unfold Eff.exec.
  match goal with
  | |- ?G =>
      let P := eval pattern (fst (Post.handle_sending_message msg w)),
                            (snd (Post.handle_sending_message msg w)) in G in
      match P with
      | ?Q _ _ => change (Eff.wp (Post.handle_sending_message msg) Q w)
      end
  end.
  cbv beta.
  unfold Post.handle_sending_message. fold user.
  apply wp_bind, wp_lift. unfold Bot.get_data. apply wp_gets. rewrite set_bot_same.
  change (default ∅ (Bot.fsm_data (Post.bot w) !! user)) with (Obs.session b user).
  rewrite Htarget. unfold View.letters_for. fold user. subst b.
  assert (Hlater : forall k, 0 <= k ->
            match Bot.view_contexts (Post.bot w) !! user with
            | Some ctx => Bot.keyboard_message_id ctx <= Bot.last_message_id (Post.bot w) + k
            | None => True
            end).
  { intros k Hk. unfold View.keyboard_issued in Hissued.
    destruct (Bot.view_contexts (Post.bot w) !! user); [lia|exact I]. }
  destruct (String.eqb (Py.strip (Bot.text msg)) "-") eqn:Hdash.
  - unfold Post.answer_text. fold user.
    apply wp_bind, wp_send_text; [intros Hin; contradiction|]. intros _ n l.
    apply wp_bind, wp_lift. unfold Bot.finish. apply wp_modify. pfields.
    apply wp_restore_keyboard; pfields;
      [exact Hreach|unfold View.keyboard_issued; pfields; apply (Hlater 1); lia|].
    intros c. destruct (Bot.view_contexts (Post.bot w) !! user) as [ctx|] eqn:Hctx; intros Hc;
      (split; [reflexivity|]);
      (split; [reflexivity|]); (split; [reflexivity|]); (split; [apply lookup_delete_eq|]);
      (split; [unfold Obs.session; pfields; rewrite lookup_insert_eq; reflexivity|]).
    + split; [apply lookup_insert_eq|exact Hc].
    + split; [reflexivity|]. rewrite Hc. apply last_snoc.
  - cbn [Py.truthy]. replace (owner =? 0) with false by (symmetry; apply Z.eqb_neq; exact Howner).
    cbn [negb Post.chat_of].
    assert (Hrest : forall w1 (ls : list Post.letter) k,
              0 <= k ->
              Post.outbox w1 = (Post.outbox w ++ ls)%list ->
              Post.bot w1 = Bot.set_chat (Bot.chat (Post.bot w))
                                         (Bot.last_message_id (Post.bot w) + k) (Post.bot w) ->
              Eff.wp (Post.restore_keyboard user;; Post.lift (Bot.finish user))
                     (fun r w' =>
                        r = Eff.Return tt
                        /\ Post.outbox w' = (Post.outbox w ++ ls)%list
                        /\ Bot.database (Post.bot w') = Bot.database (Post.bot w)
                        /\ Bot.fsm_state (Post.bot w') !! user = None
                        /\ Obs.session (Post.bot w') user = ∅
                        /\ match Bot.view_contexts (Post.bot w) !! user with
                           | Some ctx =>
                               Bot.view_contexts (Post.bot w') !! user
                               = Some (View.with_bar ctx (Bot.last_message_id (Post.bot w')))
                               /\ In (View.action_bar user
                                        (View.with_bar ctx (Bot.last_message_id (Post.bot w'))))
                                     (Bot.chat (Post.bot w'))
                           | None =>
                               Bot.view_contexts (Post.bot w') !! user = None
                               /\ last (Bot.chat (Post.bot w'))
                                  = Some (Bot.Sent user (Bot.last_message_id (Post.bot w'))
                                                   Bot.MenuTitle Bot.main_menu_keyboard)
                           end) w1).
    { intros w1 ls k Hk Hout Hbot. apply wp_bind, wp_restore_keyboard; rewrite Hbot; pfields;
        [exact Hreach|unfold View.keyboard_issued; pfields; apply (Hlater k Hk)|].
      intros c.
      destruct (Bot.view_contexts (Post.bot w) !! user) as [ctx|] eqn:Hctx; intros Hc;
        apply wp_lift; unfold Bot.finish; apply wp_modify; pfields;
        (split; [reflexivity|]);
        (split; [exact Hout|]); (split; [reflexivity|]); (split; [apply lookup_delete_eq|]);
        (split; [unfold Obs.session; pfields; rewrite lookup_insert_eq; reflexivity|]).
      - split; [apply lookup_insert_eq|exact Hc].
      - split; [exact Hctx|]. rewrite Hc. apply last_snoc. }
    apply wp_bind, wp_try_except, wp_bind, wp_send_text.
    + intros Hin. rewrite (bool_decide_eq_true_2 _ Hin).
      unfold Post.answer_text. fold user.
      apply wp_bind, wp_send_text; [intros Hin'; contradiction|]. intros _ n l.
      apply wp_ret. apply (Hrest _ _ 1); [lia|reflexivity|reflexivity].
    + intros Hout n l. rewrite (bool_decide_eq_false_2 _ Hout).
      unfold Post.answer_text. fold user.
      apply wp_bind, wp_send_text; [intros Hin'; contradiction|]. intros _ n' l'.
      apply wp_ret. apply (Hrest _ _ 2); [lia| |].
      * pfields. rewrite <- app_assoc. reflexivity.
      * pfields. subst n' n. unfold Bot.set_chat. pfields. f_equal. lia.
Qed.

Lemma a_letter_reaches_the_owner_once_witness :
  let msg := Bot.Message Obs.traveler " Co-op tonight? " in
  let b := Bot.World Obs.two_profiles "2024-05-03T10:00:00" {[ 1 := Obs.cursor 0 2 3 ]}
                     {[ 1 := Bot.Form.sending_message ]}
                     {[ 1 := {[ "message_target" := Py.VInt 3 ]} ]} [] 2 ∅ [] in
  let w' := Eff.exec (Post.handle_sending_message msg) (Post.World b []) in
  Py.get (Obs.session b 1) "message_target" Py.VNone = Py.VInt 3
  /\ 3 <> 0
  /\ (1 ∉ Bot.unreachable b)
  /\ View.keyboard_issued 1 b
  /\ Post.outbox w'
     = [ Post.Letter 3 3 (Post.Forwarded "@traveler" "Co-op tonight?") Post.NoKeyboard;
         Post.Letter 1 4 Post.LetterSent Post.NoKeyboard ]
  /\ Bot.fsm_state (Post.bot w') !! 1 = None.
Proof.
  intros msg b w'.
  assert (H1 : Py.get (Obs.session b 1) "message_target" Py.VNone = Py.VInt 3) by reflexivity.
  assert (H2 : 3 <> 0) by lia.
  assert (H3 : 1 ∉ Bot.unreachable b) by (apply not_elem_of_empty).
  assert (H4 : View.keyboard_issued 1 b) 
    by (unfold View.keyboard_issued; cbn; rewrite lookup_singleton_eq; cbn; lia).
  do 4 (split; [assumption|]).
  destruct (a_letter_reaches_the_owner_once msg 3 (Post.World b []) H1 H2 H3 H4)
    as (_ & Hout & _ & Hstate & _).
  split; [exact Hout|exact Hstate].
Defined.

(** *** The profile of the user *)

(** X25. The button, the menu caption and the command that show the
    own profile send the same card: for a user with a profile, who can
    be written to, each sends exactly one message, which holds the
    profile as [get_profile_by_tg] reads it, its languages as flags,
    the number of its likes, and the Delete and Edit buttons. The
    [tg_id] of the user is not 0. *)
Theorem own_profile_is_shown_alike msg cq r w :
  let user := Bot.user_id (Bot.from_user msg) in
  let b := Post.bot w in
  let db := Bot.database b in
  let card :=
    Post.Letter user (Bot.last_message_id b + 1)
      (Post.OwnProfile (Db.row_dict r)
                       (Bot.format_language_flags (default "" (Db.languages r)))
                       (Z.of_nat (length (List.filter (Db.to_owner user) (Db.likes db)))))
      (Post.Inline Keys.own_profile_keyboard) in
  Bot.user_id (Bot.cq_from_user cq) = user ->
  user <> 0 ->
  user ∉ Bot.unreachable b ->
  fst (Db.get_profile_by_tg user db) = Eff.Return (Some (Db.row_dict r)) ->
  Forall (fun h : Post.M unit =>
            fst (h w) = Eff.Return tt
            /\ Post.outbox (Eff.exec h w) = (Post.outbox w ++ [card])%list
            /\ Bot.chat (Post.bot (Eff.exec h w)) = Bot.chat b)
         [Post.profile_view cq; Post.menu_my_profile msg; Post.cmd_myprofile msg].
Proof.
  intros user b db card Hcq Hne Hreach Hprof.
  assert (Hread : Db.row_dict <$> head (List.filter (Db.has_tg user) (Db.profiles db))
                  = Some (Db.row_dict r)).
  { unfold Db.get_profile_by_tg, Eff.gets in Hprof. cbn [fst] in Hprof. congruence. }
  assert (Htg : Db.tg_id r = user).
  { destruct (head _) as [r0|] eqn:Hhead; [|discriminate Hread].
    apply head_Some_elem_of, list_elem_of_In, filter_In in Hhead as [_ Hhas].
    unfold Db.has_tg in Hhas. apply Z.eqb_eq in Hhas.
    cbn [fmap option_fmap option_map] in Hread.
    assert (Hid : Some (Db.row_dict r0) ≫= (fun d => d !! "tg_id")
                  = Some (Db.row_dict r) ≫= (fun d => d !! "tg_id"))
      by (rewrite Hread; reflexivity).
    change (Some (Py.VInt (Db.tg_id r0)) = Some (Py.VInt (Db.tg_id r))) in Hid.
    congruence. }
  assert (Hcard : forall w1,
            Bot.database (Post.bot w1) = db ->
            Bot.unreachable (Post.bot w1) = Bot.unreachable b ->
            Bot.last_message_id (Post.bot w1) = Bot.last_message_id b ->
            Bot.chat (Post.bot w1) = Bot.chat b ->
            Post.outbox w1 = Post.outbox w ->
            Eff.wp (Post.own_profile_card user (Db.row_dict r))
                   (fun res w' => res = Eff.Return tt
                                  /\ Post.outbox w' = (Post.outbox w ++ [card])%list
                                  /\ Bot.chat (Post.bot w') = Bot.chat b) w1).
  { intros w1 Hdb Hun Hlast Hchat Hout. unfold Post.own_profile_card.
    rewrite get_owner_id_row, Htg, row_languages.
    replace (user =? 0) with false by (symmetry; apply Z.eqb_neq; exact Hne).
    cbn [Bot.opt_truthy default from_option Datatypes.id].
    replace (user =? 0) with false by (symmetry; apply Z.eqb_neq; exact Hne).
    cbn [negb].
    apply wp_bind, wp_lift, wp_db, wp_intro. unfold Db.get_likes_count, Eff.gets.
    cbn [fst snd].
    apply wp_bind, wp_send_text; pfields; rewrite Hun; [intros Hin; contradiction|].
    intros _. apply wp_ret. pfields. rewrite Hout, Hlast, Hdb, Hchat.
    split; [reflexivity|]. split; reflexivity. }
  assert (Hall : Forall (fun h : Post.M unit =>
                           Eff.wp h (fun res w' =>
                                       res = Eff.Return tt
                                       /\ Post.outbox w' = (Post.outbox w ++ [card])%list
                                       /\ Bot.chat (Post.bot w') = Bot.chat b) w)
                        [Post.profile_view cq; Post.menu_my_profile msg;
                         Post.cmd_myprofile msg]).
  { repeat apply Forall_cons_2; [..|apply Forall_nil_2].
    - unfold Post.profile_view. rewrite Hcq.
      apply wp_bind, wp_lift. unfold Bot.answer_callback_query. apply wp_modify.
      apply talk_read. pfields. fold b db. rewrite Hread. apply Hcard; reflexivity.
    - unfold Post.menu_my_profile. fold user. apply talk_read. fold b db. rewrite Hread.
      apply Hcard; reflexivity.
    - unfold Post.cmd_myprofile. fold user. apply talk_read. fold b db. rewrite Hread.
      apply Hcard; reflexivity. }
  exact Hall.
Qed.

Lemma own_profile_is_shown_alike_witness :
  let lumine := Bot.User 2 None "Lumine" in
  let msg := Bot.Message lumine "/myprofile" in
  let cq := Bot.CallbackQuery 5 lumine "profile:view" 1 in
  let w := Post.World (Obs.browsing Obs.two_profiles 1 (Obs.cursor 0 2 3)) [] in
  Forall (fun h : Post.M unit =>
            fst (h w) = Eff.Return tt
            /\ exists prof flags,
                 Post.outbox (Eff.exec h w)
                 = [Post.Letter 2 3 (Post.OwnProfile prof flags 0)
                                (Post.Inline Keys.own_profile_keyboard)]
                 /\ prof !! "nickname" = Some (Py.VStr "Lumine"))
         [Post.profile_view cq; Post.menu_my_profile msg; Post.cmd_myprofile msg].
Proof.
  intros lumine msg cq w.
  set (r := default (Db.ProfileRow 0 0 None None None None None None None None None "")
                    (head (List.filter (Db.has_tg 2) (Db.profiles Obs.two_profiles)))).
  assert (H1 : Bot.user_id (Bot.cq_from_user cq) = Bot.user_id (Bot.from_user msg))
    by reflexivity.
  assert (H2 : Bot.user_id (Bot.from_user msg) <> 0) by (cbn; lia).
  assert (H3 : Bot.user_id (Bot.from_user msg) ∉ Bot.unreachable (Post.bot w))
    by (apply not_elem_of_empty).
  assert (H4 : fst (Db.get_profile_by_tg (Bot.user_id (Bot.from_user msg))
                                         (Bot.database (Post.bot w)))
               = Eff.Return (Some (Db.row_dict r))) by reflexivity.
  eapply Forall_impl; [exact (own_profile_is_shown_alike msg cq r w H1 H2 H3 H4)|].
  intros h (Hret & Hout & _). split; [exact Hret|].
  eexists _, _. split; [exact Hout|reflexivity].
Defined.

(** X26. The Edit button does what [/edit] does: once the press is
    answered, the handler of the button leaves the world that the
    command leaves, with the same outcome, and never sends the notice
    of a failed preparation. *)
Theorem edit_button_is_the_edit_command msg cq w :
  let b := Post.bot w in
  let pressed := Bot.set_answered (Bot.answered b ++ [(Bot.cq_id cq, None)]) b in
  Bot.user_id (Bot.cq_from_user cq) = Bot.user_id (Bot.from_user msg) ->
  Post.profile_edit_callback cq w
  = (fst (Bot.cmd_edit msg pressed), Post.set_bot (Eff.exec (Bot.cmd_edit msg) pressed) w).
Proof.
  intros b pressed Huser.
  unfold Post.profile_edit_callback, Bot.cmd_edit, Eff.exec. rewrite Huser.
  unfold Post.lift, Bot.answer, Bot.answer_callback_query, Bot.db, Db.get_profile_by_tg,
    Bot.update_data_all, Bot.set_state, Bot.send_message, Eff.zoom, Eff.try_except,
    Eff.modify, Eff.gets, mbind, Eff.M_bind, mret, Eff.M_ret.
  pfields. fold b. fold pressed.
  destruct (head _) as [r|]; cbn [fmap option_fmap option_map]; pfields.
  - destruct (bool_decide _); reflexivity.
  - destruct (bool_decide _); reflexivity.
Qed.

Lemma edit_button_is_the_edit_command_witness :
  let lumine := Bot.User 2 None "Lumine" in
  let msg := Bot.Message lumine "/edit" in
  let cq := Bot.CallbackQuery 5 lumine "profile:edit" 1 in
  let b := Obs.browsing Obs.two_profiles 1 (Obs.cursor 0 2 3) in
  let w' := Eff.exec (Post.profile_edit_callback cq) (Post.World b []) in
  Bot.user_id (Bot.cq_from_user cq) = Bot.user_id (Bot.from_user msg)
  /\ Bot.fsm_state (Post.bot w') !! 2 = Some Bot.Form.nickname
  /\ Obs.session (Post.bot w') 2 !! "editing" = Some (Py.VBool true)
  /\ Post.outbox w' = [].
Proof.
  intros lumine msg cq b w'.
  split; [reflexivity|].
  pose proof (edit_button_is_the_edit_command msg cq (Post.World b []) eq_refl) as H.
  subst w'. unfold Eff.exec at 1. rewrite H. cbn [snd Post.set_bot Post.bot Post.outbox].
  split; [reflexivity|]. split; reflexivity.
Defined.

End Letters.

(** ** A new profile, from [/start] to the Accept button *)

Section SignUp.

Implicit Types (w : Bot.world) (d : gmap string Py.value).


















End SignUp.
